(** * TerraGen: the subnet planner [compute_subnet_cidrs]

    A shallow embedding of [compute_subnet_cidrs] from [TerraGen.py] and of
    the parts of Python's [ipaddress] module it calls ([ip_network],
    [prefixlen], [max_prefixlen], [subnets], [str]), followed by the
    properties of the planner.

    The [ipaddress] definitions follow the module of CPython 3.11
    ([Lib/ipaddress.py]), function by function and under its names.

    Conventions.
    - A Python [int] is a [Z]; a Python [str] is a [string] whose characters
      are code points below 256 ([isascii] is "code point below 128").
    - A raised exception is a value of [exception]; a computation that may
      raise has type [result A].
    - The text of an exception is kept as a constructor of [message] whose
      comment quotes the Python text.
    - The state of the interpreter that the code reads (the limit on the
      digits of an int literal and the netmask caches of [ipaddress]) is
      explicit in [Cached]; the store-free functions of [ipaddress] run
      with the limit switched off, under which [int] refuses nothing. *)

From Stdlib Require Import ZArith Lia List String Ascii Bool.
From Stdlib Require Import DecimalString HexadecimalString.
From stdpp Require Import base option list strings gmap.
Import ListNotations.
Local Open Scope string_scope.
Local Open Scope Z_scope.

(* ===================================================================== *)
(** * Exceptions and the error monad                                      *)
(* ===================================================================== *)

(** The texts of the [ValueError]s on the paths of [compute_subnet_cidrs]. *)
Inductive message : Type :=
| not_a_network          (* '... does not appear to be an IPv4 or IPv6 network' *)
| host_bits_set          (* '... has host bits set' *)
| vpc_too_small          (* 'VPC CIDR is too small to be subdivided into the
                            required number of subnets.' (TerraGen.py) *)
| new_prefix_must_be_longer   (* 'new prefix must be longer' *)
| prefix_diff_negative   (* 'prefix length diff must be > 0' *)
| prefix_diff_invalid    (* 'prefix length diff ... is invalid for netblock ...' *)
| range_step_zero        (* 'range() arg 3 must not be zero' *)
| bad_octet              (* the ValueErrors of _parse_octet *)
| bad_hextet             (* the ValueErrors of _parse_hextet *)
| mixes_zeroes_and_ones. (* 'Netmask pattern ... mixes zeroes & ones' *)

(** The exception classes that occur.  [AddressValueError] and
    [NetmaskValueError] are subclasses of [ValueError]; [IndexError] is not. *)
Inductive exception : Type :=
| ValueError (m : message)
| AddressValueError
| NetmaskValueError
| IndexError.              (* 'list index out of range' *)

(** [isinstance(e, ValueError)]. *)
Definition is_ValueError (e : exception) : bool :=
  match e with
  | ValueError _ | AddressValueError | NetmaskValueError => true
  | IndexError => false
  end.

(** [isinstance(e, AddressValueError)]. *)
Definition is_AddressValueError (e : exception) : bool :=
  match e with AddressValueError => true | _ => false end.

(** [isinstance(e, NetmaskValueError)]. *)
Definition is_NetmaskValueError (e : exception) : bool :=
  match e with NetmaskValueError => true | _ => false end.

Inductive result (A : Type) : Type :=
| Ok (a : A)
| Raise (e : exception).
Arguments Ok {A} a.
Arguments Raise {A} e.

(** Sequencing: [x ← r; k] runs [r] and, unless it raised, continues with
    [k]. *)
#[global] Instance result_bind : MBind result :=
  fun A B (k : A -> result B) (r : result A) =>
    match r with
    | Ok a => k a
    | Raise e => Raise e
    end.

(** [try: r  except <classes>: handler], where the handler may use the
    exception caught. *)
Definition try_except {A : Type} (r : result A) (catches : exception -> bool)
    (handler : exception -> result A) : result A :=
  match r with
  | Ok a => Ok a
  | Raise e => if catches e then handler e else Raise e
  end.

(** The monadic map of a list: the first exception wins, as when Python
    consumes [map(f, xs)]. *)
Fixpoint mapM {A B : Type} (f : A -> result B) (xs : list A) : result (list B) :=
  match xs with
  | [] => Ok []
  | x :: xs' => y ← f x; ys ← mapM f xs'; Ok (y :: ys)
  end.

(** The monadic left fold: a [for] loop over [xs] threading the state [s]. *)
Fixpoint foldM {A S : Type} (body : S -> A -> result S) (xs : list A) (s : S)
    : result S :=
  match xs with
  | [] => Ok s
  | x :: xs' => s' ← body s x; foldM body xs' s'
  end.

Definition is_Ok {A : Type} (r : result A) : bool :=
  match r with Ok _ => true | Raise _ => false end.

(* ===================================================================== *)
(** * Python built-ins                                                    *)
(* ===================================================================== *)

Module Py.

(** [int.bit_length()]: the number of bits of [abs(n)]; [0] for [0]. *)
Definition bit_length (n : Z) : Z :=
  match n with
  | 0 => 0
  | Zpos p | Zneg p => Zpos (Pos.size p)
  end.

(** [len(s)] for a string or a list. *)
Definition len (s : string) : Z := Z.of_nat (String.length s).
Definition llen {A : Type} (l : list A) : Z := Z.of_nat (List.length l).

(** [not s] for a string. *)
Definition empty (s : string) : bool :=
  match s with EmptyString => true | String _ _ => false end.

(** [c in s] for a one-character [c]. *)
Fixpoint contains (c : ascii) (s : string) : bool :=
  match s with
  | EmptyString => false
  | String d s' => Ascii.eqb d c || contains c s'
  end.

(** [s.split(sep)] for a one-character separator. *)
Fixpoint split (sep : ascii) (s : string) : list string :=
  match s with
  | EmptyString => [EmptyString]
  | String c s' =>
      if Ascii.eqb c sep then EmptyString :: split sep s'
      else match split sep s' with
           | p :: ps => String c p :: ps
           | [] => [String c EmptyString]
           end
  end.

(** [s.partition(sep)] for a one-character separator. *)
Fixpoint partition (sep : ascii) (s : string) : string * string * string :=
  match s with
  | EmptyString => (EmptyString, EmptyString, EmptyString)
  | String c s' =>
      if Ascii.eqb c sep then (EmptyString, String sep EmptyString, s')
      else let '(a, m, b) := partition sep s' in (String c a, m, b)
  end.

(** [sep.join(parts)]. *)
Definition join (sep : string) (parts : list string) : string :=
  String.concat sep parts.

Definition code (c : ascii) : Z := Z.of_N (N_of_ascii c).

Definition all_chars (p : ascii -> bool) (s : string) : bool :=
  forallb p (list_ascii_of_string s).

(** [s.isascii()]. *)
Definition isascii (s : string) : bool := all_chars (fun c => code c <? 128) s.

Definition is_decimal_digit (c : ascii) : bool :=
  (48 <=? code c) && (code c <=? 57).

(** [s.isdigit()] on an ASCII string: non-empty and decimal digits only. *)
Definition isdigit (s : string) : bool :=
  negb (empty s) && all_chars is_decimal_digit s.

(** The value of a hexadecimal digit, [None] for another character. *)
Definition hex_digit_value (c : ascii) : option Z :=
  let n := code c in
  if (48 <=? n) && (n <=? 57) then Some (n - 48)
  else if (65 <=? n) && (n <=? 70) then Some (n - 55)
  else if (97 <=? n) && (n <=? 102) then Some (n - 87)
  else None.

(** Membership of every character in [_HEX_DIGITS]. *)
Definition all_hex_digits (s : string) : bool :=
  all_chars (fun c => match hex_digit_value c with Some _ => true | None => false end) s.

(** [int(s, base)] on a string already known to hold digits of the base. *)
Definition int_of_digits (base : Z) (s : string) : Z :=
  fold_left
    (fun acc c => acc * base + match hex_digit_value c with Some d => d | None => 0 end)
    (list_ascii_of_string s) 0.

(** [str(n)] for [n >= 0]. *)
Definition str_of_int (n : Z) : string :=
  DecimalString.NilZero.string_of_uint (N.to_uint (Z.to_N n)).

(** ['%x' % n] for [n >= 0]. *)
Definition hex_of_int (n : Z) : string :=
  HexadecimalString.NilZero.string_of_uint (N.to_hex_uint (Z.to_N n)).

(** [int.from_bytes(bs, 'big')]. *)
Definition from_bytes_big (bs : list Z) : Z :=
  fold_left (fun acc b => acc * 256 + b) bs 0.

(** [n.to_bytes(4, 'big')] for [0 <= n < 2**32]. *)
Definition to_bytes4_big (n : Z) : list Z :=
  [Z.land (Z.shiftr n 24) 255; Z.land (Z.shiftr n 16) 255;
   Z.land (Z.shiftr n 8) 255; Z.land n 255].

(** [list(range(start, stop, step))]. *)
Definition range3 (start stop step : Z) : result (list Z) :=
  if step =? 0 then Raise (ValueError range_step_zero)
  else if 0 <? step then
    Ok ((fun k => start + k * step) <$> seqZ 0 ((stop - start + step - 1) / step))
  else
    Ok ((fun k => start + k * step) <$> seqZ 0 ((start - stop - step - 1) / (- step))).

(** [list(range(n))]. *)
Definition range (n : Z) : list Z := seqZ 0 n.

(** [l[i]]: a negative index counts from the end; out of range raises
    [IndexError]. *)
Definition getitem {A : Type} (l : list A) (i : Z) : result A :=
  let j := if i <? 0 then i + llen l else i in
  if j <? 0 then Raise IndexError
  else match l !! Z.to_nat j with
       | Some x => Ok x
       | None => Raise IndexError
       end.

(** Whether [int(s)] refuses a decimal literal of [digits] digits with the
    [ValueError] 'Exceeds the limit for integer string conversion'.
    [max_str_digits] is [sys.get_int_max_str_digits()], 4300 unless the
    interpreter was started or told otherwise and 0 for no limit; literals of
    up to 640 digits ([sys.int_info.str_digits_check_threshold]) are never
    checked. *)
Definition int_over_limit (max_str_digits digits : Z) : bool :=
  (640 <? digits) && (0 <? max_str_digits) && (max_str_digits <? digits).

(** [s * n] for a string: [n] copies of [s]. *)
Definition mul (s : string) (n : Z) : string :=
  Nat.iter (Z.to_nat n) (String.append s) EmptyString.

End Py.

(* ===================================================================== *)
(** * The [ipaddress] module                                              *)
(* ===================================================================== *)

Module ipaddress.

(** The two address families; [IPv4Network] and [IPv6Network] share the
    code of [_BaseNetwork] and differ in the class constants below. *)
Inductive version : Type := V4 | V6.

Definition _max_prefixlen (v : version) : Z :=
  match v with V4 => 32 | V6 => 128 end.

Definition _ALL_ONES (v : version) : Z := 2 ^ _max_prefixlen v - 1.

(** A network object: the fields [network_address] (with the scope id of
    an [IPv6Address]), [netmask] and [_prefixlen]. *)
Record network : Type := Network {
  net_version : version;
  network_address : Z;
  scope_id : option string;
  netmask : Z;
  prefixlen : Z
}.

Definition max_prefixlen (n : network) : Z := _max_prefixlen (net_version n).

(** The argument of [_make_netmask], and so the key of [_netmask_cache], is
    an [int] ([inl]) or a [str] ([inr]); an [int] and a [str] are never equal
    as dictionary keys. *)
Abbreviation mask_arg := (Z + string)%type.

(** ** [_IPAddressBase] *)

Definition _ip_int_from_prefix (v : version) (prefixlen : Z) : Z :=
  Z.lxor (_ALL_ONES v) (Z.shiftr (_ALL_ONES v) prefixlen).

Definition _count_righthand_zero_bits (number bits : Z) : Z :=
  if number =? 0 then bits
  else Z.min bits (Py.bit_length (Z.land (Z.lnot number) (number - 1))).

Definition _prefix_from_ip_int (v : version) (ip_int : Z) : result Z :=
  let trailing_zeroes := _count_righthand_zero_bits ip_int (_max_prefixlen v) in
  let prefixlen := _max_prefixlen v - trailing_zeroes in
  let leading_ones := Z.shiftr ip_int trailing_zeroes in
  let all_ones := Z.shiftl 1 prefixlen - 1 in
  if negb (leading_ones =? all_ones) then Raise (ValueError mixes_zeroes_and_ones)
  else Ok prefixlen.

(** [_prefix_from_prefix_string] under the interpreter's limit on the
    digits of an int literal.  The string holds ASCII digits only when
    [int(prefixlen_str)] runs, so the one [ValueError] of [int] is the one
    of the limit, which the [except] clause turns into a
    [NetmaskValueError]. *)
Definition _prefix_from_prefix_string_at (int_max_str_digits : Z)
    (v : version) (prefixlen_str : string) : result Z :=
  if negb (Py.isascii prefixlen_str && Py.isdigit prefixlen_str)
  then Raise NetmaskValueError
  else if Py.int_over_limit int_max_str_digits (Py.len prefixlen_str)
  then Raise NetmaskValueError
  else
    let prefixlen := Py.int_of_digits 10 prefixlen_str in
    if negb ((0 <=? prefixlen) && (prefixlen <=? _max_prefixlen v))
    then Raise NetmaskValueError
    else Ok prefixlen.

(** [_prefix_from_prefix_string] with the limit switched off
    ([sys.set_int_max_str_digits(0)]): the setting under which [int] refuses
    nothing, and so the one that accepts the most. *)
Definition _prefix_from_prefix_string (v : version) (prefixlen_str : string)
    : result Z :=
  _prefix_from_prefix_string_at 0 v prefixlen_str.

(** [_split_optional_netmask] followed by the string case of
    [_split_addr_prefix]. *)
Definition _split_addr_prefix (v : version) (address : string)
    : result (string * mask_arg) :=
  let addr := Py.split "/" address in
  if 2 <? Py.llen addr then Raise AddressValueError
  else match addr with
       | a :: m :: _ => Ok (a, inr m)
       | a :: [] => Ok (a, inl (_max_prefixlen v))
       | [] => Ok ("", inl (_max_prefixlen v))
       end.

(** ** [_BaseV4] and [IPv4Address] *)

Definition _parse_octet (octet_str : string) : result Z :=
  if Py.empty octet_str then Raise (ValueError bad_octet)
  else if negb (Py.isascii octet_str && Py.isdigit octet_str)
  then Raise (ValueError bad_octet)
  else if 3 <? Py.len octet_str then Raise (ValueError bad_octet)
  else if negb (String.eqb octet_str "0")
          && match octet_str with String "0" _ => true | _ => false end
  then Raise (ValueError bad_octet)
  else
    let octet_int := Py.int_of_digits 10 octet_str in
    if 255 <? octet_int then Raise (ValueError bad_octet)
    else Ok octet_int.

Definition _ip_int_from_string_v4 (ip_str : string) : result Z :=
  if Py.empty ip_str then Raise AddressValueError
  else
    let octets := Py.split "." ip_str in
    if negb (Py.llen octets =? 4) then Raise AddressValueError
    else
      try_except
        (bs ← mapM _parse_octet octets; Ok (Py.from_bytes_big bs))
        is_ValueError (fun _ => Raise AddressValueError).

(** [IPv4Address(addr_str)._ip] for a string argument. *)
Definition IPv4Address (addr_str : string) : result Z :=
  if Py.contains "/" addr_str then Raise AddressValueError
  else _ip_int_from_string_v4 addr_str.

Definition _string_from_ip_int_v4 (ip_int : Z) : string :=
  Py.join "." (map Py.str_of_int (Py.to_bytes4_big ip_int)).

(** ** [_BaseV6] and [IPv6Address] *)

Definition _HEXTET_COUNT : Z := 8.

Definition _parse_hextet (hextet_str : string) : result Z :=
  if negb (Py.all_hex_digits hextet_str) then Raise (ValueError bad_hextet)
  else if 4 <? Py.len hextet_str then Raise (ValueError bad_hextet)
  else Ok (Py.int_of_digits 16 hextet_str).

(** The [for i in range(1, len(parts) - 1)] loop that looks for the one
    empty inner part; the state is [skip_index]. *)
Definition find_skip_index (parts : list string) : result (option Z) :=
  foldM (fun (skip_index : option Z) (i : Z) =>
           match Py.getitem parts i with
           | Raise e => Raise e
           | Ok part =>
               if Py.empty part then
                 match skip_index with
                 | Some _ => Raise AddressValueError
                 | None => Ok (Some i)
                 end
               else Ok skip_index
           end)
        ((fun k => 1 + k) <$> Py.range (Py.llen parts - 1 - 1)) None.

(** [ip_int <<= 16; ip_int |= _parse_hextet(part)] over the given parts. *)
Definition shift_in_hextets (parts : list string) (ip_int : Z) : result Z :=
  foldM (fun (ip_int : Z) (part : string) =>
           h ← _parse_hextet part;
           Ok (Z.lor (Z.shiftl ip_int 16) h))
        parts ip_int.

Definition _ip_int_from_string_v6 (ip_str : string) : result Z :=
  if Py.empty ip_str then Raise AddressValueError
  else
    let parts := Py.split ":" ip_str in
    if Py.llen parts <? 3 then Raise AddressValueError
    else
      parts ←
        (if Py.contains "." (List.last parts "")
         then
           ipv4_int ← try_except (IPv4Address (List.last parts ""))
                        is_AddressValueError (fun _ => Raise AddressValueError);
           Ok (removelast parts
                 ++ [Py.hex_of_int (Z.land (Z.shiftr ipv4_int 16) 65535);
                     Py.hex_of_int (Z.land ipv4_int 65535)])%list
         else Ok parts);
      if _HEXTET_COUNT + 1 <? Py.llen parts then Raise AddressValueError
      else
        skip_index ← find_skip_index parts;
        '(parts_hi, parts_lo, parts_skipped) ←
          match skip_index with
          | Some skip_index =>
              let parts_hi := skip_index in
              let parts_lo := Py.llen parts - skip_index - 1 in
              parts_hi ←
                (if Py.empty (List.hd "" parts)
                 then if negb (parts_hi - 1 =? 0) then Raise AddressValueError
                      else Ok (parts_hi - 1)
                 else Ok parts_hi);
              parts_lo ←
                (if Py.empty (List.last parts "")
                 then if negb (parts_lo - 1 =? 0) then Raise AddressValueError
                      else Ok (parts_lo - 1)
                 else Ok parts_lo);
              let parts_skipped := _HEXTET_COUNT - (parts_hi + parts_lo) in
              if parts_skipped <? 1 then Raise AddressValueError
              else Ok (parts_hi, parts_lo, parts_skipped)
          | None =>
              if negb (Py.llen parts =? _HEXTET_COUNT) then Raise AddressValueError
              else if Py.empty (List.hd "" parts) then Raise AddressValueError
              else if Py.empty (List.last parts "") then Raise AddressValueError
              else Ok (Py.llen parts, 0, 0)
          end;
        try_except
          (ip_int ← shift_in_hextets (take (Z.to_nat parts_hi) parts) 0;
           let ip_int := Z.shiftl ip_int (16 * parts_skipped) in
           shift_in_hextets
             (drop (Z.to_nat (Py.llen parts - parts_lo)) parts) ip_int)
          is_ValueError (fun _ => Raise AddressValueError).

Definition _split_scope_id (ip_str : string) : result (string * option string) :=
  let '(addr, sep, scope_id) := Py.partition "%" ip_str in
  if Py.empty sep then Ok (addr, None)
  else if Py.empty scope_id || Py.contains "%" scope_id
  then Raise AddressValueError
  else Ok (addr, Some scope_id).

(** [IPv6Address(addr_str)] for a string argument: [_ip] and [_scope_id]. *)
Definition IPv6Address (addr_str : string) : result (Z * option string) :=
  if Py.contains "/" addr_str then Raise AddressValueError
  else
    '(addr_str, scope) ← _split_scope_id addr_str;
    ip ← _ip_int_from_string_v6 addr_str;
    Ok (ip, scope).

Definition hextets_of_ip_int (ip_int : Z) : list string :=
  map (fun x => Py.hex_of_int (Z.land (Z.shiftr ip_int (16 * (7 - x))) 65535))
      (Py.range 8).

(** The scan of [_compress_hextets] for the longest run of ["0"] hextets;
    the state is (best start, best length, current start, current length). *)
Definition longest_zero_run (hextets : list string) : Z * Z * Z * Z :=
  fold_left
    (fun (st : Z * Z * Z * Z) (ih : Z * string) =>
       let '(best_doublecolon_start, best_doublecolon_len,
             doublecolon_start, doublecolon_len) := st in
       let '(index, hextet) := ih in
       if String.eqb hextet "0" then
         let doublecolon_len := doublecolon_len + 1 in
         let doublecolon_start :=
           if doublecolon_start =? -1 then index else doublecolon_start in
         if best_doublecolon_len <? doublecolon_len
         then (doublecolon_start, doublecolon_len,
               doublecolon_start, doublecolon_len)
         else (best_doublecolon_start, best_doublecolon_len,
               doublecolon_start, doublecolon_len)
       else (best_doublecolon_start, best_doublecolon_len, -1, 0))
    (combine (Py.range (Py.llen hextets)) hextets) (-1, 0, -1, 0).

Definition _compress_hextets (hextets : list string) : list string :=
  let '(best_doublecolon_start, best_doublecolon_len, _, _) :=
    longest_zero_run hextets in
  if 1 <? best_doublecolon_len then
    let best_doublecolon_end := best_doublecolon_start + best_doublecolon_len in
    let hextets :=
      if best_doublecolon_end =? Py.llen hextets
      then (hextets ++ [""])%list else hextets in
    let hextets :=
      (take (Z.to_nat best_doublecolon_start) hextets ++ [""]
         ++ drop (Z.to_nat best_doublecolon_end) hextets)%list in
    if best_doublecolon_start =? 0 then "" :: hextets else hextets
  else hextets.

Definition _string_from_ip_int_v6 (ip_int : Z) : string :=
  Py.join ":" (_compress_hextets (hextets_of_ip_int ip_int)).

(** [str(address)] of the [network_address] object of a network. *)
Definition str_address (v : version) (ip : Z) (scope : option string) : string :=
  match v with
  | V4 => _string_from_ip_int_v4 ip
  | V6 =>
      let ip_str := _string_from_ip_int_v6 ip in
      match scope with
      | Some sc => if Py.empty sc then ip_str else ip_str ++ "%" ++ sc
      | None => ip_str
      end
  end.

(** ** Netmasks *)

Definition _ip_int_from_string (v : version) : string -> result Z :=
  match v with
  | V4 => _ip_int_from_string_v4
  | V6 => _ip_int_from_string_v6
  end.

Definition _prefix_from_ip_string (v : version) (ip_str : string) : result Z :=
  ip_int ← try_except (_ip_int_from_string v ip_str)
             is_AddressValueError (fun _ => Raise NetmaskValueError);
  try_except (_prefix_from_ip_int v ip_int) is_ValueError
    (fun _ =>
       let ip_int := Z.lxor ip_int (_ALL_ONES v) in
       try_except (_prefix_from_ip_int v ip_int) is_ValueError
         (fun _ => Raise NetmaskValueError)).

(** [_make_netmask]: the pair (netmask, prefix length) of a mask argument,
    under the interpreter's limit on the digits of an int literal.  The
    classes memoise this function in [_netmask_cache]; this is the
    computation on a miss, and [Cached] below models the cache itself. *)
Definition _make_netmask_at (int_max_str_digits : Z)
    (v : version) (arg : mask_arg) : result (Z * Z) :=
  prefixlen ←
    match arg with
    | inl prefixlen =>
        if negb ((0 <=? prefixlen) && (prefixlen <=? _max_prefixlen v))
        then Raise NetmaskValueError
        else Ok prefixlen
    | inr arg =>
        match v with
        | V4 =>
            try_except (_prefix_from_prefix_string_at int_max_str_digits V4 arg)
              is_NetmaskValueError
              (fun _ => _prefix_from_ip_string V4 arg)
        | V6 => _prefix_from_prefix_string_at int_max_str_digits V6 arg
        end
    end;
  Ok (_ip_int_from_prefix v prefixlen, prefixlen).

(** [_make_netmask] with the limit switched off. *)
Definition _make_netmask (v : version) (arg : mask_arg) : result (Z * Z) :=
  _make_netmask_at 0 v arg.

(** ** [_BaseNetwork] *)

Definition hostmask (self : network) : Z :=
  Z.lxor (netmask self) (_ALL_ONES (net_version self)).

Definition broadcast_address (self : network) : Z :=
  Z.lor (network_address self) (hostmask self).

(** [str(self)]: ['%s/%d' % (self.network_address, self.prefixlen)]. *)
Definition str (self : network) : string :=
  str_address (net_version self) (network_address self) (scope_id self)
    ++ "/" ++ Py.str_of_int (prefixlen self).

(** [_check_int_address]. *)
Definition _check_int_address (v : version) (address : Z) : result unit :=
  if address <? 0 then Raise AddressValueError
  else if _ALL_ONES v <? address then Raise AddressValueError
  else Ok tt.

(** The strict host-bits check that ends [IPv4Network.__init__] and
    [IPv6Network.__init__]. *)
Definition finish_network (v : version) (ip : Z) (scope : option string)
    (netmask prefixlen : Z) : result network :=
  let packed := ip in
  if negb (Z.land packed netmask =? packed)
  then Raise (ValueError host_bits_set)
  else Ok (Network v ip scope netmask prefixlen).

(** [IPv4Network(address)] for a string, [strict=True]. *)
Definition IPv4Network (address : string) : result network :=
  '(addr, mask) ← _split_addr_prefix V4 address;
  ip ← IPv4Address addr;
  '(netmask, prefixlen) ← _make_netmask V4 mask;
  finish_network V4 ip None netmask prefixlen.

(** [IPv6Network(address)] for a string, [strict=True]. *)
Definition IPv6Network (address : string) : result network :=
  '(addr, mask) ← _split_addr_prefix V6 address;
  '(ip, scope) ← IPv6Address addr;
  '(netmask, prefixlen) ← _make_netmask V6 mask;
  finish_network V6 ip scope netmask prefixlen.

(** [self.__class__((new_addr, new_prefixlen))]: the constructor on a pair
    of integers. *)
Definition network_of_pair (v : version) (address : Z * Z) : result network :=
  let '(addr, mask) := address in
  _ ← _check_int_address v addr;
  '(netmask, prefixlen) ← _make_netmask v (inl mask);
  finish_network v addr None netmask prefixlen.

Definition catches_address_or_netmask (e : exception) : bool :=
  is_AddressValueError e || is_NetmaskValueError e.

(** [ip_network(address)] for a string, [strict=True]. *)
Definition ip_network (address : string) : result network :=
  try_except (IPv4Network address) catches_address_or_netmask (fun _ =>
  try_except (IPv6Network address) catches_address_or_netmask (fun _ =>
  Raise (ValueError not_a_network))).

(** [list(self.subnets(new_prefix=new_prefix))]: the generator run to its
    end ([prefixlen_diff] keeps its default [1] until it is overwritten). *)
Definition subnets (self : network) (new_prefix : Z) : result (list network) :=
  if prefixlen self =? max_prefixlen self then Ok [self]
  else if new_prefix <? prefixlen self
  then Raise (ValueError new_prefix_must_be_longer)
  else
    let prefixlen_diff := new_prefix - prefixlen self in
    if prefixlen_diff <? 0 then Raise (ValueError prefix_diff_negative)
    else
      let new_prefixlen := prefixlen self + prefixlen_diff in
      if max_prefixlen self <? new_prefixlen
      then Raise (ValueError prefix_diff_invalid)
      else
        let start := network_address self in
        let end_ := broadcast_address self + 1 in
        let step := Z.shiftr (hostmask self + 1) prefixlen_diff in
        addrs ← Py.range3 start end_ step;
        mapM (fun new_addr =>
                network_of_pair (net_version self) (new_addr, new_prefixlen))
             addrs.

End ipaddress.

(* ===================================================================== *)
(** * TerraGen.py                                                         *)
(* ===================================================================== *)

Import ipaddress.

(** The prefix length of the subnets: the lines of [compute_subnet_cidrs]
    from [total_subnets] to the clamp at /28. *)
Definition clamped_new_prefix (net : network) (az_count : Z) : Z :=
  let total_subnets := az_count * 2 in
  let new_prefix := prefixlen net + Py.bit_length (total_subnets - 1) in
  if 28 <? new_prefix then 28 else new_prefix.

(** One iteration of [for i in range(az_count)]; the state is
    [(public_cidrs, private_cidrs)]. *)
Definition loop_body (subnets : list network)
    (st : list string * list string) (i : Z)
    : result (list string * list string) :=
  let '(public_cidrs, private_cidrs) := st in
  pub ← Py.getitem subnets (i * 2);
  let public_cidrs := (public_cidrs ++ [str pub])%list in
  priv ← Py.getitem subnets (i * 2 + 1);
  let private_cidrs := (private_cidrs ++ [str priv])%list in
  Ok (public_cidrs, private_cidrs).

Definition compute_subnet_cidrs (vpc_cidr : string) (az_count : Z)
    : result (list string * list string) :=
  net ← ip_network vpc_cidr;
  let new_prefix := clamped_new_prefix net az_count in
  if max_prefixlen net <? new_prefix then Raise (ValueError vpc_too_small)
  else
    subnets ← subnets net new_prefix;
    foldM (loop_body subnets) (Py.range az_count) ([], []).


(* ===================================================================== *)
(** * The state of the interpreter                                        *)
(* ===================================================================== *)

(** Besides its two arguments, [compute_subnet_cidrs] reads two pieces of
    the interpreter's state, both inside [ip_network]:
    - the limit on the digits of an int literal
      ([sys.get_int_max_str_digits()]), which [int(prefixlen_str)] checks;
    - [_BaseV4._netmask_cache] and [_BaseV6._netmask_cache], dictionaries
      from the argument of [_make_netmask] to its result, filled as a side
      effect of building networks.
    [Cached] runs the same code over an explicit store holding the three. *)
Module Cached.

Record store : Type := Store {
  int_max_str_digits : Z;
  cache_v4 : gmap (Z + string) (Z * Z);
  cache_v6 : gmap (Z + string) (Z * Z)
}.

Definition cache_of (v : version) (st : store) : gmap (Z + string) (Z * Z) :=
  match v with V4 => cache_v4 st | V6 => cache_v6 st end.

Definition cache_set (v : version) (arg : Z + string) (r : Z * Z) (st : store)
    : store :=
  match v with
  | V4 => Store (int_max_str_digits st) (<[arg := r]> (cache_v4 st)) (cache_v6 st)
  | V6 => Store (int_max_str_digits st) (cache_v4 st) (<[arg := r]> (cache_v6 st))
  end.

(** [sys.set_int_max_str_digits(maxdigits)]; the caches stay as they are. *)
Definition set_int_max_str_digits (maxdigits : Z) (st : store) : store :=
  Store maxdigits (cache_v4 st) (cache_v6 st).

(** What [import ipaddress] leaves in [_BaseV4._netmask_cache]: the masks
    of the networks among the module's constants ([_IPv4Constants]). *)
Definition imported_v4 : list ((Z + string) * (Z * Z)) :=
  [(inr "16", (4294901760, 16)); (inr "8", (4278190080, 8));
   (inr "4", (4026531840, 4)); (inr "10", (4290772992, 10));
   (inr "12", (4293918720, 12)); (inr "24", (4294967040, 24));
   (inr "31", (4294967294, 31)); (inr "15", (4294836224, 15));
   (inr "32", (4294967295, 32))].

(** The same for [_BaseV6._netmask_cache] and [_IPv6Constants]. *)
Definition imported_v6 : list ((Z + string) * (Z * Z)) :=
  [(inr "10", (339950059921992234495148655666698125312, 10));
   (inr "8", (338953138925153547590470800371487866880, 8));
   (inr "128", (340282366920938463463374607431768211455, 128));
   (inr "96", (340282366920938463463374607427473244160, 96));
   (inr "48", (340282366920937254537554992802593505280, 48));
   (inr "64", (340282366920938463444927863358058659840, 64));
   (inr "23", (340282326356119256160033759537265639424, 23));
   (inr "32", (340282366841710300949110269838224261120, 32));
   (inr "16", (340277174624079928635746076935438991360, 16));
   (inr "7", (337623910929368631717566993311207522304, 7));
   (inr "28", (340282365653287863235145205935065006080, 28));
   (inr "6", (334965454937798799971759379190646833152, 6));
   (inr "5", (329648542954659136480144150949525454848, 5));
   (inr "4", (319014718988379809496913694467282698240, 4));
   (inr "3", (297747071055821155530452781502797185024, 3));
   (inr "9", (339617752923046005526922703901628039168, 9))].

(** The store once the module is imported, under the limit in force. *)
Definition at_import (maxdigits : Z) : store :=
  Store maxdigits (list_to_map imported_v4) (list_to_map imported_v6).

(** The store at import time of an interpreter started with its default
    limit of 4300 digits. *)
Definition initial : store := at_import 4300.

(** A computation over the store that may raise; a raise keeps the store
    as it is at that point. *)
Definition M (A : Type) : Type := store -> result A * store.

#[global] Instance M_bind : MBind M :=
  fun A B (k : A -> M B) (m : M A) (st : store) =>
    match m st with
    | (Ok a, st') => k a st'
    | (Raise e, st') => (Raise e, st')
    end.

Definition lift {A : Type} (r : result A) : M A := fun st => (r, st).

Definition try_except {A : Type} (m : M A) (catches : exception -> bool)
    (handler : exception -> M A) : M A :=
  fun st =>
    match m st with
    | (Ok a, st') => (Ok a, st')
    | (Raise e, st') => if catches e then handler e st' else (Raise e, st')
    end.

Fixpoint mapM {A B : Type} (f : A -> M B) (xs : list A) : M (list B) :=
  match xs with
  | [] => lift (Ok [])
  | x :: xs' => y ← f x; ys ← mapM f xs'; lift (Ok (y :: ys))
  end.

(** [_make_netmask] with its cache: a hit returns the stored pair, a miss
    computes the pair under the limit in force and stores it, a raise
    stores nothing. *)
Definition _make_netmask (v : version) (arg : Z + string) : M (Z * Z) :=
  fun st =>
    match cache_of v st !! arg with
    | Some hit => (Ok hit, st)
    | None =>
        match ipaddress._make_netmask_at (int_max_str_digits st) v arg with
        | Ok r => (Ok r, cache_set v arg r st)
        | Raise e => (Raise e, st)
        end
    end.

Definition IPv4Network (address : string) : M network :=
  '(addr, mask) ← lift (_split_addr_prefix V4 address);
  ip ← lift (IPv4Address addr);
  '(netmask, prefixlen) ← _make_netmask V4 mask;
  lift (finish_network V4 ip None netmask prefixlen).

Definition IPv6Network (address : string) : M network :=
  '(addr, mask) ← lift (_split_addr_prefix V6 address);
  '(ip, scope) ← lift (IPv6Address addr);
  '(netmask, prefixlen) ← _make_netmask V6 mask;
  lift (finish_network V6 ip scope netmask prefixlen).

Definition network_of_pair (v : version) (address : Z * Z) : M network :=
  let '(addr, mask) := address in
  _ ← lift (_check_int_address v addr);
  '(netmask, prefixlen) ← _make_netmask v (inl mask);
  lift (finish_network v addr None netmask prefixlen).

Definition ip_network (address : string) : M network :=
  try_except (IPv4Network address) catches_address_or_netmask (fun _ =>
  try_except (IPv6Network address) catches_address_or_netmask (fun _ =>
  lift (Raise (ValueError not_a_network)))).

Definition subnets (self : network) (new_prefix : Z) : M (list network) :=
  if prefixlen self =? max_prefixlen self then lift (Ok [self])
  else if new_prefix <? prefixlen self
  then lift (Raise (ValueError new_prefix_must_be_longer))
  else
    let prefixlen_diff := new_prefix - prefixlen self in
    if prefixlen_diff <? 0 then lift (Raise (ValueError prefix_diff_negative))
    else
      let new_prefixlen := prefixlen self + prefixlen_diff in
      if max_prefixlen self <? new_prefixlen
      then lift (Raise (ValueError prefix_diff_invalid))
      else
        let start := network_address self in
        let end_ := broadcast_address self + 1 in
        let step := Z.shiftr (hostmask self + 1) prefixlen_diff in
        addrs ← lift (Py.range3 start end_ step);
        mapM (fun new_addr =>
                network_of_pair (net_version self) (new_addr, new_prefixlen))
             addrs.

Definition compute_subnet_cidrs (vpc_cidr : string) (az_count : Z)
    : M (list string * list string) :=
  net ← ip_network vpc_cidr;
  let new_prefix := clamped_new_prefix net az_count in
  if max_prefixlen net <? new_prefix then lift (Raise (ValueError vpc_too_small))
  else
    subnets ← subnets net new_prefix;
    lift (foldM (loop_body subnets) (Py.range az_count) ([], [])).

(** Every entry of the two caches is what [_make_netmask] computes for its
    key under the limit [maxdigits]. *)
Definition cache_ok_at (maxdigits : Z) (st : store) : Prop :=
  forall (v : version) (arg : Z + string) (r : Z * Z),
    cache_of v st !! arg = Some r ->
    ipaddress._make_netmask_at maxdigits v arg = Ok r.

(** The caches agree with the limit in force.  This holds at import time,
    and every operation above keeps it; a change of the limit need not. *)
Definition cache_ok (st : store) : Prop :=
  cache_ok_at (int_max_str_digits st) st.

(** Every entry is what [_make_netmask] computes with the limit switched
    off.  This holds at import time, and every operation above keeps it
    under every limit: it holds whatever the limits were when the entries
    were stored. *)
Definition cache_sound (st : store) : Prop := cache_ok_at 0 st.

(** From two stores of the same limit whose caches agree with it, [m]
    returns the same result, and it keeps the limit and the agreement. *)
Definition agrees {A : Type} (m : M A) : Prop :=
  forall st st',
    int_max_str_digits st = int_max_str_digits st' ->
    cache_ok st -> cache_ok st' ->
    fst (m st) = fst (m st')
    /\ cache_ok (snd (m st))
    /\ int_max_str_digits (snd (m st)) = int_max_str_digits st.

(** Under the limit [maxdigits], [m] computes the store-free result [r]
    from every store with sound caches, and keeps the caches sound. *)
Definition computes {A : Type} (maxdigits : Z) (m : M A) (r : result A) : Prop :=
  forall st,
    int_max_str_digits st = maxdigits -> cache_sound st ->
    fst (m st) = r
    /\ cache_sound (snd (m st))
    /\ int_max_str_digits (snd (m st)) = maxdigits.

End Cached.

(* ===================================================================== *)
(** * The vocabulary of the specification                                 *)
(* ===================================================================== *)

(** The spec's extra bits: the smallest [e >= 0] with
    [2^e >= totalSubnets]. *)
Definition is_extraBits (totalSubnets e : Z) : Prop :=
  0 <= e /\ totalSubnets <= 2 ^ e /\
  (forall e' : Z, 0 <= e' -> totalSubnets <= 2 ^ e' -> e <= e').

(** The spec's extraBits as a function: [ceil(log2(totalSubnets))], which
    is 0 for [totalSubnets = 1]. *)
Definition spec_extraBits (totalSubnets : Z) : Z := Z.log2_up totalSubnets.

(** The spec's newPrefix (steps 1 to 4): the base's prefix length plus the
    extra bits for [zoneCount * 2] sub-blocks, clamped to 28. *)
Definition spec_newPrefix (prefixLength zoneCount : Z) : Z :=
  let totalSubnets := zoneCount * 2 in
  let extraBits := spec_extraBits totalSubnets in
  let newPrefix := prefixLength + extraBits in
  if 28 <? newPrefix then 28 else newPrefix.

(** The address range of a block: from its network address to its
    broadcast address. *)
Definition contains_address (n : network) (a : Z) : Prop :=
  network_address n <= a <= broadcast_address n.

(** Two blocks with empty address intersection. *)
Definition disjoint_blocks (n m : network) : Prop :=
  forall a, ~ (contains_address n a /\ contains_address m a).

(** Every two entries at different positions are disjoint. *)
Definition pairwise_disjoint (l : list network) : Prop :=
  forall (i j : nat) (n m : network),
    l !! i = Some n -> l !! j = Some m -> i <> j -> disjoint_blocks n m.

(** [a.subnet_of(b)]: same family, and the range of [a] inside that of
    [b]. *)
Definition subnet_of (a b : network) : Prop :=
  net_version a = net_version b /\
  network_address b <= network_address a /\
  broadcast_address a <= broadcast_address b.

(** A network object as the constructors build it: prefix length in range,
    the netmask of that prefix length, an address in range with its host
    bits zero. *)
Definition well_formed (n : network) : Prop :=
  0 <= prefixlen n <= max_prefixlen n /\
  netmask n = _ip_int_from_prefix (net_version n) (prefixlen n) /\
  0 <= network_address n <= _ALL_ONES (net_version n) /\
  Z.land (network_address n) (netmask n) = network_address n.

(** The sub-block of prefix length [np] that starts at [a], as
    [network_of_pair] builds it. *)
Definition block (v : version) (np a : Z) : network :=
  Network v a None (_ip_int_from_prefix v np) np.

(** The [k]-th sub-block of [n] at prefix length [np]. *)
Definition sub_block (n : network) (np k : Z) : network :=
  block (net_version n) np (network_address n + k * 2 ^ (max_prefixlen n - np)).

(** The blocks the zones receive: zone [i] gets the sub-blocks at [2*i]
    (public) and [2*i + 1] (private). *)
Definition public_blocks (n : network) (np az_count : Z) : list network :=
  (fun i => sub_block n np (i * 2)) <$> Py.range az_count.

Definition private_blocks (n : network) (np az_count : Z) : list network :=
  (fun i => sub_block n np (i * 2 + 1)) <$> Py.range az_count.

(** [r] raises nothing but exceptions that satisfy [P]. *)
Definition raises_only {A : Type} (P : exception -> Prop) (r : result A) : Prop :=
  forall e, r = Raise e -> P e.

Definition only_AddressValueError (e : exception) : Prop := e = AddressValueError.
Definition only_NetmaskValueError (e : exception) : Prop := e = NetmaskValueError.
Definition only_IndexError (e : exception) : Prop := e = IndexError.

Definition address_netmask_or_host_bits (e : exception) : Prop :=
  e = AddressValueError \/ e = NetmaskValueError \/ e = ValueError host_bits_set.

(** The typed failures of the specification. *)
Inductive failure : Type :=
| InvalidZoneCount
| InvalidAddressBlock
| BlockTooSmall.

(** The typed failure an exception of [compute_subnet_cidrs] stands for.
    The [ValueError]s of [ip_network] reject the base; the [ValueError]s
    raised after it (the fit check of [compute_subnet_cidrs] and those of
    [subnets]) say that the base cannot be subdivided as asked.  No
    exception stands for [InvalidZoneCount], and [IndexError], which is not
    a [ValueError] and which [main] does not catch, stands for none. *)
Definition failure_of (e : exception) : option failure :=
  match e with
  | ValueError not_a_network | ValueError host_bits_set => Some InvalidAddressBlock
  | ValueError vpc_too_small
  | ValueError new_prefix_must_be_longer
  | ValueError prefix_diff_negative
  | ValueError prefix_diff_invalid => Some BlockTooSmall
  | _ => None
  end.

(* ===================================================================== *)
(** * More vocabulary for plans                                           *)
(* ===================================================================== *)

(** [self.num_addresses]: the number of addresses of a network. *)
Definition num_addresses (self : network) : Z :=
  broadcast_address self - network_address self + 1.

(** The blocks of a plan in zone order: public and private of zone 0, then
    public and private of zone 1, and so on. *)
Definition zone_order (pubs privs : list network) : list network :=
  concat (zip_with (fun a b => [a; b]) pubs privs).

(* ===================================================================== *)
(** * The console, the answers and [main]                                 *)
(* ===================================================================== *)

(** More built-ins, for [ask] and [interactive_questions]. *)
Module PyText.

(** [c.isspace()]: the characters [str.strip()] removes. *)
Definition is_space (c : ascii) : bool :=
  let n := Py.code c in
  ((9 <=? n) && (n <=? 13)) || ((28 <=? n) && (n <=? 32))
  || (n =? 133) || (n =? 160).

Fixpoint lstrip (s : string) : string :=
  match s with
  | EmptyString => EmptyString
  | String c s' => if is_space c then lstrip s' else s
  end.

Fixpoint rstrip (s : string) : string :=
  match s with
  | EmptyString => EmptyString
  | String c s' =>
      match rstrip s' with
      | EmptyString => if is_space c then EmptyString else String c EmptyString
      | r => String c r
      end
  end.

(** [s.strip()]. *)
Definition strip (s : string) : string := rstrip (lstrip s).

Definition lower_char (c : ascii) : ascii :=
  let n := Py.code c in
  if ((65 <=? n) && (n <=? 90))
     || ((192 <=? n) && (n <=? 222) && negb (n =? 215))
  then ascii_of_N (Z.to_N (n + 32))
  else c.

(** [s.lower()]. *)
Fixpoint lower (s : string) : string :=
  match s with
  | EmptyString => EmptyString
  | String c s' => String (lower_char c) (lower s')
  end.

(** The white space [int()] skips around a literal: not the separators
    28 to 31, which [strip] removes. *)
Definition is_int_space (c : ascii) : bool :=
  let n := Py.code c in
  ((9 <=? n) && (n <=? 13)) || (n =? 32) || (n =? 133) || (n =? 160).

Fixpoint lskip (s : string) : string :=
  match s with
  | EmptyString => EmptyString
  | String c s' => if is_int_space c then lskip s' else s
  end.

Fixpoint rskip (s : string) : string :=
  match s with
  | EmptyString => EmptyString
  | String c s' =>
      match rskip s' with
      | EmptyString => if is_int_space c then EmptyString else String c EmptyString
      | r => String c r
      end
  end.

(** Digits with single underscores between them; [prev_is_digit] tells
    whether the character before was a digit. *)
Fixpoint well_grouped (s : string) (prev_is_digit : bool) : bool :=
  match s with
  | EmptyString => prev_is_digit
  | String c s' =>
      if Py.is_decimal_digit c then well_grouped s' true
      else if Ascii.eqb c "_" then prev_is_digit && well_grouped s' false
      else false
  end.

Fixpoint without_underscores (s : string) : string :=
  match s with
  | EmptyString => EmptyString
  | String c s' =>
      if Ascii.eqb c "_" then without_underscores s'
      else String c (without_underscores s')
  end.

(** [int(s)] for a string: [None] stands for its [ValueError].  More than
    4300 digits are refused ([sys.get_int_max_str_digits()]). *)
Definition int (s : string) : option Z :=
  let s := lskip s in
  let '(negative, s) :=
    match s with
    | String "-" r => (true, r)
    | String "+" r => (false, r)
    | _ => (false, s)
    end in
  let body := rskip s in
  if well_grouped body false then
    let digits := without_underscores body in
    if 4300 <? Py.len digits then None
    else
      let n := Py.int_of_digits 10 digits in
      Some (if negative then - n else n)
  else None.

End PyText.

(** [ip_network(n)] for an [int]: the address [n] with the full prefix
    length of the first family it fits. *)
Definition ip_network_int (address : Z) : result network :=
  try_except (network_of_pair V4 (address, _max_prefixlen V4))
    catches_address_or_netmask (fun _ =>
  try_except (network_of_pair V6 (address, _max_prefixlen V6))
    catches_address_or_netmask (fun _ =>
  Raise (ValueError not_a_network))).

(** A value of the answers: what [interactive_questions] stores and what a
    JSON document holds.  A float is kept without its digits, which nothing
    here reads.  The values only a YAML document can hold (bytes, dates,
    sets) are left out. *)
#[warnings="-register-all"] Inductive value : Type :=
| VStr (s : string)
| VInt (n : Z)
| VBool (b : bool)
| VFloat
| VNone
| VList (l : list value)
| VDict (d : list (string * value)).

(** What the console shows and what [main] hands over, in order. *)
Inductive outdir : Type :=
| OutArg (path : string)          (* Path(args.out) *)
| OutDefault (project : value).   (* Path.cwd() / f"{project}-terraform" *)

(** The exceptions of the [try] block of [main]. *)
Inductive subnet_error : Type :=
| FromSubnets (e : exception)     (* raised by compute_subnet_cidrs *)
| KeyError (key : string)         (* answers[key] on a missing key *)
| TypeError                       (* az_count * 2 or total_subnets - 1 on a
                                     value without that arithmetic *)
| AttributeError.                 (* bit_length() on a float *)

Inductive raised : Type :=
| Uncaught (e : subnet_error)
| IntValueError                   (* ValueError: invalid literal for int() *)
| EOFError                        (* input() at the end of the input *)
| Foreign (tag : string).         (* raised by load_answers or render_templates *)

Inductive event : Type :=
| Prompt (text : string)          (* the prompt input() writes *)
| PrintWelcome                    (* 'Welcome to TerraGen ...' *)
| PrintError (e : subnet_error)   (* 'Error: Could not compute subnet CIDRs.
                                     Please check your configuration. Details: ...' *)
| Render (answers : gmap string value) (out : outdir)
                                  (* the call render_templates(answers, outdir) *)
| PrintNextSteps (out : outdir).  (* 'Next steps:' and its five lines *)

(** The console: the lines still to be read, and what happened so far
    (latest last). *)
Record console : Type := Console {
  stdin : list string;
  trace : list event
}.

Inductive outcome (A : Type) : Type :=
| Returned (a : A)
| Raised (r : raised).
Arguments Returned {A} a.
Arguments Raised {A} r.

Definition io (A : Type) : Type := console -> outcome A * console.

#[global] Instance io_bind : MBind io :=
  fun A B (k : A -> io B) (m : io A) (w : console) =>
    match m w with
    | (Returned a, w') => k a w'
    | (Raised r, w') => (Raised r, w')
    end.

Definition ret {A : Type} (a : A) : io A := fun w => (Returned a, w).
Definition raise {A : Type} (r : raised) : io A := fun w => (Raised r, w).

Definition emit (e : event) : io unit :=
  fun w => (Returned tt, Console (stdin w) (trace w ++ [e])).

(** [input(prompt)]: writes the prompt and reads one line. *)
Definition input (prompt : string) : io string :=
  fun w =>
    let w := Console (stdin w) (trace w ++ [Prompt prompt]) in
    match stdin w with
    | [] => (Raised EOFError, w)
    | line :: rest => (Returned line, Console rest (trace w))
    end.

(** The truth value of an optional string: [None] and [''] are false. *)
Definition truthy (s : option string) : bool :=
  match s with
  | Some s => negb (Py.empty s)
  | None => false
  end.

Definition ask (prompt : string) (default : option string) : io string :=
  match default with
  | Some d =>
      if negb (Py.empty d) then
        resp ← input (prompt ++ " [" ++ d ++ "]: ");
        let stripped := PyText.strip resp in
        ret (if negb (Py.empty stripped) then stripped else d)
      else
        resp ← input (prompt ++ ": ");
        ret (PyText.strip resp)
  | None =>
      resp ← input (prompt ++ ": ");
      ret (PyText.strip resp)
  end.

Definition interactive_questions : io (gmap string value) :=
  _ ← emit PrintWelcome;
  project ← ask "Project name" (Some "my-cloud-project");
  cloud ← ask "Cloud provider (aws, gcp, azure)" (Some "aws");
  region ← ask "Cloud region/location (e.g., us-east-1, us-central1, eastus)"
             (Some "us-east-1");
  vpc_cidr ← ask "Network CIDR block" (Some "10.0.0.0/16");
  text ← ask "Number of availability zones (2 or 3 recommended)" (Some "2");
  match PyText.int text with
  | None => raise IntValueError
  | Some az_count =>
      ret (<["backend" := VBool true]>
           (<["tags" := VDict [("Project", VStr project)]]>
           (<["az_count" := VInt az_count]>
           (<["vpc_cidr" := VStr vpc_cidr]>
           (<["region" := VStr region]>
           (<["cloud" := VStr (PyText.lower cloud)]>
           (<["project" := VStr project]> (∅ : gmap string value))))))))
  end.

(** [ipaddress.ip_network] on a value of the answers.  It takes a string
    or an int (a bool is the int 0 or 1); any other value it turns into its
    text with [str], and the text of [None], of a float, of a list or of a
    dict is no network. *)
Definition ip_network_dyn (address : value) : result network :=
  match address with
  | VStr s => ip_network s
  | VInt n => ip_network_int n
  | VBool b => ip_network_int (if b then 1 else 0)
  | VFloat | VNone | VList _ | VDict _ => Raise (ValueError not_a_network)
  end.

(** [(az_count * 2 - 1).bit_length()] needs an int: a string, a list, a
    dict and [None] fail in the arithmetic, a float in [bit_length]. *)
Definition as_int (az_count : value) : subnet_error + Z :=
  match az_count with
  | VInt n => inr n
  | VBool b => inr (if b then 1 else 0)
  | VFloat => inl AttributeError
  | VStr _ | VNone | VList _ | VDict _ => inl TypeError
  end.

(** [compute_subnet_cidrs(vpc_cidr, az_count)] on two values of the
    answers: [ip_network] comes first, then the arithmetic on [az_count]. *)
Definition compute_subnet_cidrs_dyn (vpc_cidr az_count : value)
    : subnet_error + (list string * list string) :=
  match ip_network_dyn vpc_cidr with
  | Raise e => inl (FromSubnets e)
  | Ok net =>
      match as_int az_count with
      | inl e => inl e
      | inr az_count =>
          let new_prefix := clamped_new_prefix net az_count in
          let run :=
            if max_prefixlen net <? new_prefix then Raise (ValueError vpc_too_small)
            else
              subnets ← subnets net new_prefix;
              foldM (loop_body subnets) (Py.range az_count) ([], []) in
          match run with
          | Raise e => inl (FromSubnets e)
          | Ok plan => inr plan
          end
      end
  end.

(** [isinstance(e, (ValueError, KeyError))] for the [except] clause of
    [main]. *)
Definition caught_by_main (e : subnet_error) : bool :=
  match e with
  | FromSubnets e => is_ValueError e
  | KeyError _ => true
  | TypeError | AttributeError => false
  end.

(** The body of the [try] block of [main]: both lookups, the call, and the
    two stores. *)
Definition try_block (answers : gmap string value)
    : subnet_error + gmap string value :=
  match answers !! "vpc_cidr" with
  | None => inl (KeyError "vpc_cidr")
  | Some vpc_cidr =>
      match answers !! "az_count" with
      | None => inl (KeyError "az_count")
      | Some az_count =>
          match compute_subnet_cidrs_dyn vpc_cidr az_count with
          | inl e => inl e
          | inr (public_cidrs, private_cidrs) =>
              inr (<["private_subnets" := VList (VStr <$> private_cidrs)]>
                   (<["public_subnets" := VList (VStr <$> public_cidrs)]> answers))
          end
      end
  end.

(** [main] from the point where it holds the answers: the output
    directory, the default for ['cloud'], the [try] block with its [except]
    clause, and the call of [render_templates]. *)
Definition after_answers
    (render_templates : gmap string value -> outdir -> option raised)
    (args_out : option string) (answers : gmap string value) : io unit :=
  let out :=
    match args_out with
    | Some path =>
        if negb (Py.empty path) then OutArg path
        else OutDefault (default (VStr "my-project") (answers !! "project"))
    | None => OutDefault (default (VStr "my-project") (answers !! "project"))
    end in
  let answers :=
    match answers !! "cloud" with
    | None => <["cloud" := VStr "aws"]> answers
    | Some _ => answers
    end in
  match try_block answers with
  | inl e =>
      if caught_by_main e then emit (PrintError e)
      else raise (Uncaught e)
  | inr answers =>
      _ ← emit (Render answers out);
      match render_templates answers out with
      | Some r => raise r
      | None => emit (PrintNextSteps out)
      end
  end.

(** [main] after [parse_args].  [load_answers] and [render_templates] are
    its two collaborators: the first returns the dict of an answers file or
    raises, the second returns or raises.  A document that is no dict makes
    [main] raise before it prints anything, which is the run of a
    [load_answers] that raises. *)
Definition main
    (load_answers : string -> raised + gmap string value)
    (render_templates : gmap string value -> outdir -> option raised)
    (args_answers args_out : option string) : io unit :=
  answers ←
    match args_answers with
    | Some path =>
        if negb (Py.empty path) then
          match load_answers path with
          | inl r => raise r
          | inr answers => ret answers
          end
        else interactive_questions
    | None => interactive_questions
    end;
  after_answers render_templates args_out answers.

(** A run of [main] from a console that has shown nothing yet. *)
Definition run_main
    (load_answers : string -> raised + gmap string value)
    (render_templates : gmap string value -> outdir -> option raised)
    (args_answers args_out : option string) (lines : list string)
    : outcome unit * console :=
  main load_answers render_templates args_answers args_out (Console lines []).

(** What [ask] returns for the line it read when it has the non-empty
    default [d]: the stripped line, or [d] for a blank line. *)
Definition answer_of (d line : string) : string :=
  if negb (Py.empty (PyText.strip line)) then PyText.strip line else d.

(** No white space at either end. *)
Definition trimmed (s : string) : Prop :=
  PyText.lstrip s = s /\ PyText.rstrip s = s.

(** The prompts of [interactive_questions], in order. *)
Definition prompts : list event :=
  [PrintWelcome;
   Prompt "Project name [my-cloud-project]: ";
   Prompt "Cloud provider (aws, gcp, azure) [aws]: ";
   Prompt "Cloud region/location (e.g., us-east-1, us-central1, eastus) [us-east-1]: ";
   Prompt "Network CIDR block [10.0.0.0/16]: ";
   Prompt "Number of availability zones (2 or 3 recommended) [2]: "].

(** The dict [main] works on: the answers with ['cloud'] defaulted. *)
Definition with_cloud (answers : gmap string value) : gmap string value :=
  match answers !! "cloud" with
  | None => <["cloud" := VStr "aws"]> answers
  | Some _ => answers
  end.

(** [args.out] decides the output directory; without it the project name
    does. *)
Definition outdir_of (args_out : option string) (answers : gmap string value)
    : outdir :=
  match args_out with
  | Some path =>
      if negb (Py.empty path) then OutArg path
      else OutDefault (default (VStr "my-project") (answers !! "project"))
  | None => OutDefault (default (VStr "my-project") (answers !! "project"))
  end.

Local Close Scope string_scope.

(* ===================================================================== *)
(** * The extra bits and the clamp                                        *)
(* ===================================================================== *)

Section ExtraBits.

Lemma bit_length_nonneg (n : Z) : 0 <= Py.bit_length n.
Proof. destruct n; simpl; lia. Qed.

(** For [n >= 1], [bit_length n] is the [s] with [2^(s-1) <= n < 2^s]. *)
Lemma bit_length_bounds (n : Z) :
  1 <= n -> 2 ^ (Py.bit_length n - 1) <= n < 2 ^ Py.bit_length n.
Proof.
  intros Hn. destruct n as [|p|p]; try lia. simpl.
  pose proof (Pos.size_gt p) as Hgt. pose proof (Pos.size_le p) as Hle.
  apply Pos2Z.pos_lt_pos in Hgt. apply Pos2Z.pos_le_pos in Hle.
  rewrite Pos2Z.inj_pow in Hgt, Hle.
  rewrite (Pos2Z.inj_xO p) in Hle.
  assert (E : 2 ^ Z.pos (Pos.size p) = 2 * 2 ^ (Z.pos (Pos.size p) - 1)).
  { rewrite <- Z.pow_succ_r by lia. f_equal. lia. }
  lia.
Qed.

Lemma bit_length_of_negative (n : Z) :
  Py.bit_length (- n) = Py.bit_length n.
Proof. destruct n; reflexivity. Qed.

Lemma pow2_le_mono_inv (a b : Z) : 0 <= a -> 0 <= b -> 2 ^ a < 2 ^ b -> a < b.
Proof.
  intros Ha Hb H. destruct (Z_lt_le_dec a b) as [|Hle]; [assumption|].
  apply (Z.pow_le_mono_r 2) in Hle; lia.
Qed.

(** The code's [(totalSubnets - 1).bit_length()] is the smallest exponent
    whose power of two reaches [totalSubnets], for every
    [totalSubnets >= 1]. *)
Lemma bit_length_is_extraBits (totalSubnets : Z) :
  1 <= totalSubnets ->
  is_extraBits totalSubnets (Py.bit_length (totalSubnets - 1)).
Proof.
  intros Ht. unfold is_extraBits.
  split; [apply bit_length_nonneg|].
  destruct (Z.eq_dec totalSubnets 1) as [->|Hne].
  - simpl. split; [lia|]. intros; lia.
  - pose proof (bit_length_bounds (totalSubnets - 1) ltac:(lia)) as [Hlo Hhi].
    pose proof (bit_length_nonneg (totalSubnets - 1)) as Hnn.
    split; [lia|].
    intros e' He' Hpow.
    assert (H : 2 ^ (Py.bit_length (totalSubnets - 1) - 1) < 2 ^ e') by lia.
    destruct (Z_le_gt_dec 1 (Py.bit_length (totalSubnets - 1))) as [H1|H1].
    + apply pow2_le_mono_inv in H; lia.
    + lia.
Qed.

End ExtraBits.

(* ===================================================================== *)
(** * Netmask arithmetic                                                  *)
(* ===================================================================== *)

Section Masks.

Lemma max_prefixlen_pos (v : version) : 0 < _max_prefixlen v.
Proof. destruct v; simpl; lia. Qed.

Lemma ALL_ONES_ones (v : version) : _ALL_ONES v = Z.ones (_max_prefixlen v).
Proof. unfold _ALL_ONES. rewrite Z.ones_equiv. lia. Qed.

(** Bit [i] of the netmask of prefix length [p] is set exactly for
    [max - p <= i < max]. *)
Lemma ip_int_from_prefix_testbit (v : version) (p i : Z) :
  0 <= p <= _max_prefixlen v -> 0 <= i ->
  Z.testbit (_ip_int_from_prefix v p) i
  = (_max_prefixlen v - p <=? i) && (i <? _max_prefixlen v).
Proof.
  intros Hp Hi. unfold _ip_int_from_prefix. rewrite ALL_ONES_ones.
  rewrite Z.lxor_spec, Z.shiftr_spec by lia.
  rewrite !Z.testbit_ones_nonneg by lia.
  destruct (Z.ltb_spec i (_max_prefixlen v)), (Z.ltb_spec (i + p) (_max_prefixlen v)),
    (Z.leb_spec (_max_prefixlen v - p) i); simpl; try reflexivity; lia.
Qed.

Lemma ip_int_from_prefix_shiftl (v : version) (p : Z) :
  0 <= p <= _max_prefixlen v ->
  _ip_int_from_prefix v p = Z.shiftl (Z.ones p) (_max_prefixlen v - p).
Proof.
  intros Hp. apply Z.bits_inj'. intros i Hi.
  rewrite ip_int_from_prefix_testbit by lia.
  destruct (Z.leb_spec (_max_prefixlen v - p) i).
  - rewrite Z.shiftl_spec, Z.testbit_ones_nonneg by lia. simpl.
    destruct (Z.ltb_spec i (_max_prefixlen v)), (Z.ltb_spec (i - (_max_prefixlen v - p)) p);
      try reflexivity; lia.
  - rewrite Z.shiftl_spec_low by lia. reflexivity.
Qed.

(** The netmask of prefix length [p] as a number. *)
Lemma ip_int_from_prefix_value (v : version) (p : Z) :
  0 <= p <= _max_prefixlen v ->
  _ip_int_from_prefix v p = 2 ^ _max_prefixlen v - 2 ^ (_max_prefixlen v - p).
Proof.
  intros Hp. rewrite ip_int_from_prefix_shiftl by assumption.
  rewrite Z.shiftl_mul_pow2, Z.ones_equiv by lia.
  replace (_max_prefixlen v) with (p + (_max_prefixlen v - p)) at 2 by lia.
  rewrite Z.pow_add_r by lia. lia.
Qed.

Lemma pow2_pos (k : Z) : 0 <= k -> 0 < 2 ^ k.
Proof. intros. apply Z.pow_pos_nonneg; lia. Qed.

Lemma pow2_split (a b : Z) : 0 <= b <= a -> 2 ^ a = 2 ^ (a - b) * 2 ^ b.
Proof.
  intros H. rewrite <- Z.pow_add_r by lia. f_equal. lia.
Qed.

Section WellFormed.

Variable n : network.
Hypothesis Hwf : well_formed n.

Let h : Z := max_prefixlen n - prefixlen n.

Lemma wf_hostmask : hostmask n = 2 ^ h - 1.
Proof.
  destruct Hwf as (Hp & Hm & _ & _). unfold hostmask, h, max_prefixlen in *.
  rewrite Hm, ALL_ONES_ones.
  replace (2 ^ (_max_prefixlen (net_version n) - prefixlen n) - 1)
    with (Z.ones (_max_prefixlen (net_version n) - prefixlen n))
    by (rewrite Z.ones_equiv; lia).
  apply Z.bits_inj'. intros i Hi.
  rewrite Z.lxor_spec, ip_int_from_prefix_testbit by lia.
  rewrite !Z.testbit_ones_nonneg by lia.
  destruct (Z.ltb_spec i (_max_prefixlen (net_version n))),
    (Z.leb_spec (_max_prefixlen (net_version n) - prefixlen n) i),
    (Z.ltb_spec i (_max_prefixlen (net_version n) - prefixlen n));
    simpl; try reflexivity; lia.
Qed.

Lemma wf_host_bits_zero : network_address n mod 2 ^ h = 0.
Proof.
  destruct Hwf as (Hp & Hm & Ha & Hland). unfold h, max_prefixlen in *.
  rewrite <- Z.land_ones by lia.
  rewrite <- Hland, Hm, <- Z.land_assoc.
  replace (Z.land (_ip_int_from_prefix (net_version n) (prefixlen n))
             (Z.ones (_max_prefixlen (net_version n) - prefixlen n))) with 0.
  - apply Z.land_0_r.
  - symmetry. apply Z.bits_inj'. intros i Hi.
    rewrite Z.land_spec, ip_int_from_prefix_testbit, Z.testbit_ones_nonneg, Z.bits_0 by lia.
    destruct (Z.leb_spec (_max_prefixlen (net_version n) - prefixlen n) i),
      (Z.ltb_spec i (_max_prefixlen (net_version n) - prefixlen n)); simpl;
      rewrite ?andb_false_r; try reflexivity; lia.
Qed.

Lemma wf_broadcast_address :
  broadcast_address n = network_address n + 2 ^ h - 1.
Proof.
  unfold broadcast_address. rewrite wf_hostmask.
  destruct Hwf as (Hp & _ & _ & _). unfold max_prefixlen in Hp.
  assert (Hh : 0 <= h) by (unfold h, max_prefixlen; lia).
  replace (2 ^ h - 1) with (Z.ones h) by (rewrite Z.ones_equiv; lia).
  assert (Hl : Z.land (network_address n) (Z.ones h) = 0)
    by (rewrite Z.land_ones by assumption; apply wf_host_bits_zero).
  rewrite <- Z.lxor_lor by assumption.
  rewrite <- Z.add_nocarry_lxor by assumption.
  rewrite Z.ones_equiv. lia.
Qed.

(** The block ends inside the address space. *)
Lemma wf_block_in_space :
  network_address n + 2 ^ h <= 2 ^ max_prefixlen n.
Proof.
  pose proof wf_host_bits_zero as Hz.
  destruct Hwf as (Hp & _ & Ha & _). unfold max_prefixlen in *.
  assert (Hh : 0 <= h <= _max_prefixlen (net_version n)) by (unfold h, max_prefixlen; lia).
  pose proof (pow2_pos h ltac:(lia)) as Hpos.
  pose proof (pow2_split (_max_prefixlen (net_version n)) h Hh) as E.
  unfold _ALL_ONES in Ha.
  apply Z.mod_divide in Hz; [|lia]. destruct Hz as [q Hq0].
  assert (Hq : q < 2 ^ (_max_prefixlen (net_version n) - h))
    by (apply (Z.mul_lt_mono_pos_r (2 ^ h)); lia).
  rewrite E, Hq0. clear E. nia.
Qed.

End WellFormed.

End Masks.

(* ===================================================================== *)
(** * The enumeration of sub-blocks                                       *)
(* ===================================================================== *)

Section Enumeration.

Lemma mapM_fmap_Ok {A B : Type} (f : A -> result B) (g : A -> B) (xs : list A) :
  (forall x, x ∈ xs -> f x = Ok (g x)) -> mapM f xs = Ok (g <$> xs).
Proof.
  induction xs as [|x xs IH]; intros H; simpl; [reflexivity|].
  rewrite (H x) by (left). simpl.
  rewrite IH by (intros y Hy; apply H; right; exact Hy). reflexivity.
Qed.

(** An address with zero host bits for prefix length [p] passes the
    host-bits check. *)
Lemma land_netmask_id (v : version) (p a : Z) :
  0 <= p <= _max_prefixlen v -> 0 <= a < 2 ^ _max_prefixlen v ->
  a mod 2 ^ (_max_prefixlen v - p) = 0 ->
  Z.land a (_ip_int_from_prefix v p) = a.
Proof.
  intros Hp Ha Hmod. apply Z.bits_inj'. intros i Hi.
  rewrite Z.land_spec, ip_int_from_prefix_testbit by lia.
  destruct (Z.leb_spec (_max_prefixlen v - p) i) as [Hge|Hlt]; simpl.
  - destruct (Z.ltb_spec i (_max_prefixlen v)) as [|Hhigh].
    + apply andb_true_r.
    + rewrite andb_false_r. symmetry.
      rewrite <- (Z.mod_small a (2 ^ _max_prefixlen v)) by lia.
      apply Z.mod_pow2_bits_high. lia.
  - rewrite andb_false_r. symmetry.
    rewrite <- (Z.mod_pow2_bits_low a (_max_prefixlen v - p)) by lia.
    rewrite Hmod. apply Z.bits_0.
Qed.

Lemma network_of_pair_Ok (v : version) (np a : Z) :
  0 <= np <= _max_prefixlen v -> 0 <= a < 2 ^ _max_prefixlen v ->
  a mod 2 ^ (_max_prefixlen v - np) = 0 ->
  network_of_pair v (a, np) = Ok (block v np a).
Proof.
  intros Hp Ha Hmod. unfold network_of_pair, _check_int_address, _ALL_ONES.
  destruct (Z.ltb_spec a 0); [lia|].
  destruct (Z.ltb_spec (2 ^ _max_prefixlen v - 1) a); [lia|]. simpl.
  unfold _make_netmask, _make_netmask_at.
  destruct (Z.leb_spec 0 np); [|lia].
  destruct (Z.leb_spec np (_max_prefixlen v)); [|lia]. simpl.
  unfold finish_network. rewrite land_netmask_id by assumption.
  rewrite Z.eqb_refl. reflexivity.
Qed.

Lemma block_well_formed (v : version) (np a : Z) :
  0 <= np <= _max_prefixlen v -> 0 <= a < 2 ^ _max_prefixlen v ->
  a mod 2 ^ (_max_prefixlen v - np) = 0 ->
  well_formed (block v np a).
Proof.
  intros Hp Ha Hmod. unfold well_formed, block, max_prefixlen, _ALL_ONES; simpl.
  repeat split; try lia. apply land_netmask_id; assumption.
Qed.

Section OfABase.

Variable n : network.
Hypothesis Hwf : well_formed n.
Variable np : Z.
Hypothesis Hnp : prefixlen n <= np <= max_prefixlen n.
Hypothesis Hlt : prefixlen n < max_prefixlen n.

(** The size of a sub-block and the number of sub-blocks. *)
Let size : Z := 2 ^ (max_prefixlen n - np).
Let count : Z := 2 ^ (np - prefixlen n).

Lemma count_size : count * size = 2 ^ (max_prefixlen n - prefixlen n).
Proof.
  unfold count, size. rewrite <- Z.pow_add_r by lia. f_equal. lia.
Qed.

Lemma size_pos : 0 < size.
Proof. apply pow2_pos. lia. Qed.

Lemma count_pos : 0 < count.
Proof. apply pow2_pos. lia. Qed.

Lemma subnets_step :
  Z.shiftr (hostmask n + 1) (np - prefixlen n) = size.
Proof.
  rewrite (wf_hostmask n Hwf). replace (2 ^ (max_prefixlen n - prefixlen n) - 1 + 1)
    with (2 ^ (max_prefixlen n - prefixlen n)) by lia.
  rewrite Z.shiftr_div_pow2 by lia. rewrite <- count_size.
  fold count. rewrite (Z.mul_comm count size), Z.div_mul; [reflexivity|].
  pose proof count_pos. lia.
Qed.

(** The addresses [range(start, end, step)] visits. *)
Lemma subnets_range :
  Py.range3 (network_address n) (broadcast_address n + 1) size
  = Ok ((fun k => network_address n + k * size) <$> seqZ 0 count).
Proof.
  pose proof size_pos as Hs. pose proof count_size as Hcs.
  unfold Py.range3.
  destruct (Z.eqb_spec size 0); [lia|].
  destruct (Z.ltb_spec 0 size); [|lia].
  rewrite (wf_broadcast_address n Hwf).
  do 3 f_equal.
  replace (network_address n + 2 ^ (max_prefixlen n - prefixlen n) - 1 + 1
           - network_address n + size - 1)
    with (count * size + (size - 1)) by lia.
  rewrite Z.div_add_l by lia. rewrite Z.div_small by lia. lia.
Qed.

(** [subnets] yields the [count] sub-blocks of size [size], in ascending
    address order. *)
Lemma subnets_Ok :
  subnets n np
  = Ok (sub_block n np <$> seqZ 0 count).
Proof.
  unfold subnets.
  destruct (Z.eqb_spec (prefixlen n) (max_prefixlen n)); [lia|].
  destruct (Z.ltb_spec np (prefixlen n)); [lia|].
  destruct (Z.ltb_spec (np - prefixlen n) 0); [lia|].
  replace (prefixlen n + (np - prefixlen n)) with np by lia.
  destruct (Z.ltb_spec (max_prefixlen n) np); [lia|].
  rewrite subnets_step, subnets_range. simpl.
  rewrite (mapM_fmap_Ok _
             (fun a => block (net_version n) np a)).
  - rewrite <- list_fmap_compose. reflexivity.
  - intros a Ha. apply list_elem_of_fmap in Ha as (k & -> & Hk).
    apply elem_of_seqZ in Hk.
    pose proof size_pos. pose proof count_size.
    pose proof (wf_block_in_space n Hwf).
    destruct Hwf as (_ & _ & Haddr & _).
    pose proof (wf_host_bits_zero n Hwf) as Hz.
    apply network_of_pair_Ok; fold (max_prefixlen n).
    + destruct Hwf; lia.
    + split; [nia|]. nia.
    + fold size. apply Z.mod_divide; [lia|].
      apply Z.divide_add_r; [|apply Z.divide_factor_r].
      apply Z.mod_divide in Hz; [|apply Z.pow_nonzero; lia].
      eapply Z.divide_trans; [|exact Hz].
      exists count. symmetry. apply count_size.
Qed.

End OfABase.

End Enumeration.

(* ===================================================================== *)
(** * Which exceptions a computation can raise                            *)
(* ===================================================================== *)

Section Raises.

Lemma raises_only_Ok {A : Type} (P : exception -> Prop) (a : A) :
  raises_only P (Ok a).
Proof. intros e H. discriminate. Qed.

Lemma raises_only_Raise {A : Type} (P : exception -> Prop) (e : exception) :
  P e -> raises_only P (@Raise A e).
Proof. intros H e' [= <-]. exact H. Qed.

Lemma raises_only_bind {A B : Type} (P : exception -> Prop)
    (r : result A) (k : A -> result B) :
  raises_only P r -> (forall a, r = Ok a -> raises_only P (k a)) ->
  raises_only P (r ≫= k).
Proof.
  intros Hr Hk e. destruct r as [a|e']; simpl.
  - apply Hk. reflexivity.
  - intros [= <-]. apply Hr. reflexivity.
Qed.

Lemma raises_only_try_except {A : Type} (P Q : exception -> Prop)
    (r : result A) (catches : exception -> bool) (handler : exception -> result A) :
  raises_only Q r ->
  (forall e, Q e -> catches e = false -> P e) ->
  (forall e, Q e -> catches e = true -> raises_only P (handler e)) ->
  raises_only P (try_except r catches handler).
Proof.
  intros Hr Hpass Hcatch e. destruct r as [a|e']; simpl; [discriminate|].
  destruct (catches e') eqn:Hc.
  - apply Hcatch; [apply Hr; reflexivity|assumption].
  - intros [= <-]. apply Hpass; [apply Hr; reflexivity|assumption].
Qed.

Lemma raises_only_weaken {A : Type} (P Q : exception -> Prop) (r : result A) :
  raises_only Q r -> (forall e, Q e -> P e) -> raises_only P r.
Proof. intros H HPQ e He. apply HPQ, (H e He). Qed.

Lemma raises_only_mapM {A B : Type} (P : exception -> Prop)
    (f : A -> result B) (xs : list A) :
  (forall x, x ∈ xs -> raises_only P (f x)) -> raises_only P (mapM f xs).
Proof.
  induction xs as [|x xs IH]; intros H; simpl.
  - apply raises_only_Ok.
  - apply raises_only_bind; [apply H; left|]. intros y _.
    apply raises_only_bind; [apply IH; intros z Hz; apply H; right; exact Hz|].
    intros ys _. apply raises_only_Ok.
Qed.

Lemma raises_only_foldM {A S : Type} (P : exception -> Prop)
    (body : S -> A -> result S) (xs : list A) (s : S) :
  (forall s x, x ∈ xs -> raises_only P (body s x)) ->
  raises_only P (foldM body xs s).
Proof.
  revert s. induction xs as [|x xs IH]; intros s H; simpl.
  - apply raises_only_Ok.
  - apply raises_only_bind; [apply H; left|]. intros s' _.
    apply IH. intros s'' y Hy. apply H. right. exact Hy.
Qed.

End Raises.

Ltac raises_step :=
  lazymatch goal with
  | |- raises_only _ (Ok _) => apply raises_only_Ok
  | |- raises_only _ (Raise _) => apply raises_only_Raise; try reflexivity
  | |- raises_only _ (if ?b then _ else _) => destruct b eqn:?
  | |- raises_only _ (match ?x with (_, _) => _ end) => destruct x eqn:?
  | |- raises_only _ (_ ≫= _) => apply raises_only_bind; [|intros ? _]
  end.

Section Getitem.

Context {A : Type}.

Lemma getitem_nonneg (l : list A) (i : Z) :
  0 <= i ->
  Py.getitem l i = match l !! Z.to_nat i with Some x => Ok x | None => Raise IndexError end.
Proof.
  intros Hi. unfold Py.getitem.
  destruct (Z.ltb_spec i 0); [lia|]. destruct (Z.ltb_spec i 0); [lia|]. reflexivity.
Qed.

Lemma getitem_in_range (l : list A) (i : Z) :
  0 <= i < Py.llen l -> exists x, Py.getitem l i = Ok x /\ l !! Z.to_nat i = Some x.
Proof.
  intros Hi. rewrite getitem_nonneg by lia.
  destruct (l !! Z.to_nat i) as [x|] eqn:E; [eauto|].
  apply lookup_ge_None in E. unfold Py.llen in Hi. lia.
Qed.

Lemma getitem_out_of_range (l : list A) (i : Z) :
  Py.llen l <= i -> 0 <= i -> Py.getitem l i = Raise IndexError.
Proof.
  intros Hi H0. rewrite getitem_nonneg by lia.
  rewrite (proj2 (lookup_ge_None l (Z.to_nat i))); [reflexivity|].
  unfold Py.llen in Hi. lia.
Qed.

Lemma getitem_raises (l : list A) (i : Z) :
  raises_only only_IndexError (Py.getitem l i).
Proof.
  unfold Py.getitem. intros e.
  destruct (_ <? 0); [intros [= <-]; reflexivity|].
  destruct (l !! _); [discriminate|intros [= <-]; reflexivity].
Qed.

End Getitem.

Section ParseRaises.

Lemma _split_addr_prefix_raises (v : version) (s : string) :
  raises_only only_AddressValueError (_split_addr_prefix v s).
Proof.
  unfold _split_addr_prefix. raises_step; [raises_step|].
  destruct (Py.split "/"%char s) as [|a [|m l]]; raises_step.
Qed.

Lemma _parse_octet_raises (s : string) :
  raises_only (fun e => is_ValueError e = true) (_parse_octet s).
Proof. unfold _parse_octet. repeat raises_step. Qed.

Lemma _ip_int_from_string_v4_raises (s : string) :
  raises_only only_AddressValueError (_ip_int_from_string_v4 s).
Proof.
  unfold _ip_int_from_string_v4. do 2 (raises_step; [raises_step|]).
  eapply raises_only_try_except with (Q := fun e => is_ValueError e = true).
  - apply raises_only_bind; [|intros; raises_step].
    apply raises_only_mapM. intros; apply _parse_octet_raises.
  - intros e Hv Hc. congruence.
  - intros; raises_step.
Qed.

Lemma IPv4Address_raises (s : string) :
  raises_only only_AddressValueError (IPv4Address s).
Proof.
  unfold IPv4Address. raises_step; [raises_step|].
  apply _ip_int_from_string_v4_raises.
Qed.

Lemma _parse_hextet_raises (s : string) :
  raises_only (fun e => is_ValueError e = true) (_parse_hextet s).
Proof. unfold _parse_hextet. repeat raises_step. Qed.

Lemma shift_in_hextets_raises (parts : list string) (ip : Z) :
  raises_only (fun e => is_ValueError e = true) (shift_in_hextets parts ip).
Proof.
  unfold shift_in_hextets. apply raises_only_foldM. intros s x _.
  apply raises_only_bind; [apply _parse_hextet_raises|intros; raises_step].
Qed.

Lemma find_skip_index_raises (parts : list string) :
  raises_only only_AddressValueError (find_skip_index parts).
Proof.
  unfold find_skip_index. apply raises_only_foldM. intros skip i Hi.
  apply list_elem_of_fmap in Hi as (k & -> & Hk).
  unfold Py.range in Hk. apply elem_of_seqZ in Hk.
  destruct (getitem_in_range parts (1 + k)) as (part & -> & _); [lia|].
  destruct (Py.empty part); [destruct skip|]; raises_step.
Qed.

Lemma _ip_int_from_string_v6_raises (s : string) :
  raises_only only_AddressValueError (_ip_int_from_string_v6 s).
Proof.
  unfold _ip_int_from_string_v6. do 2 (raises_step; [raises_step|]).
  apply raises_only_bind.
  { raises_step; [|raises_step]. apply raises_only_bind; [|intros; raises_step].
    eapply raises_only_try_except; [apply IPv4Address_raises| |].
    - intros e -> Hc. discriminate.
    - intros; raises_step. }
  intros parts _.
  raises_step; [raises_step|].
  apply raises_only_bind; [apply find_skip_index_raises|]. intros skip _.
  apply raises_only_bind.
  { destruct skip as [skip|]; [|repeat raises_step].
    apply raises_only_bind; [repeat raises_step|]. intros hi _.
    apply raises_only_bind; [repeat raises_step|]. intros lo _.
    repeat raises_step. }
  intros [[hi lo] skipped] _.
  eapply raises_only_try_except with (Q := fun e => is_ValueError e = true).
  - apply raises_only_bind; [apply shift_in_hextets_raises|].
    intros; apply shift_in_hextets_raises.
  - intros e Hv Hc; congruence.
  - intros; raises_step.
Qed.

Lemma IPv6Address_raises (s : string) :
  raises_only only_AddressValueError (IPv6Address s).
Proof.
  unfold IPv6Address. raises_step; [raises_step|].
  apply raises_only_bind.
  - unfold _split_scope_id. destruct (Py.partition "%"%char s) as [[a sep] sc].
    repeat raises_step.
  - intros [a sc] _.
    apply raises_only_bind; [apply _ip_int_from_string_v6_raises|intros; raises_step].
Qed.

Lemma _prefix_from_prefix_string_raises (v : version) (s : string) :
  raises_only only_NetmaskValueError (_prefix_from_prefix_string v s).
Proof. unfold _prefix_from_prefix_string, _prefix_from_prefix_string_at. repeat raises_step. Qed.

Lemma _prefix_from_ip_int_raises (v : version) (ip : Z) :
  raises_only (fun e => is_ValueError e = true) (_prefix_from_ip_int v ip).
Proof. unfold _prefix_from_ip_int. cbv zeta. repeat raises_step. Qed.

Lemma _prefix_from_ip_string_v4_raises (s : string) :
  raises_only only_NetmaskValueError (_prefix_from_ip_string V4 s).
Proof.
  unfold _prefix_from_ip_string. apply raises_only_bind.
  - eapply raises_only_try_except; [apply _ip_int_from_string_v4_raises| |].
    + intros e -> Hc; discriminate.
    + intros; raises_step.
  - intros ip _.
    eapply raises_only_try_except; [apply _prefix_from_ip_int_raises| |].
    + intros e Hv Hc; congruence.
    + intros e _ _. eapply raises_only_try_except; [apply _prefix_from_ip_int_raises| |].
      * intros e' Hv Hc; congruence.
      * intros; raises_step.
Qed.

Lemma _make_netmask_raises (v : version) (arg : Z + string) :
  raises_only only_NetmaskValueError (_make_netmask v arg).
Proof.
  unfold _make_netmask, _make_netmask_at.
  change (_prefix_from_prefix_string_at 0) with _prefix_from_prefix_string.
  apply raises_only_bind; [|intros; raises_step].
  destruct arg as [p|s].
  - repeat raises_step.
  - destruct v; [|apply _prefix_from_prefix_string_raises].
    eapply raises_only_try_except; [apply _prefix_from_prefix_string_raises| |].
    + intros e -> Hc; discriminate.
    + intros; apply _prefix_from_ip_string_v4_raises.
Qed.

Lemma finish_network_raises (v : version) (ip : Z) (sc : option string) (nm p : Z) :
  raises_only (fun e => e = ValueError host_bits_set) (finish_network v ip sc nm p).
Proof. unfold finish_network. repeat raises_step. Qed.

Lemma IPv4Network_raises (s : string) :
  raises_only address_netmask_or_host_bits (IPv4Network s).
Proof.
  unfold IPv4Network, address_netmask_or_host_bits. apply raises_only_bind.
  { eapply raises_only_weaken; [apply _split_addr_prefix_raises|]. intros e ->; auto. }
  intros [addr mask] _. apply raises_only_bind.
  { eapply raises_only_weaken; [apply IPv4Address_raises|]. intros e ->; auto. }
  intros ip _. apply raises_only_bind.
  { eapply raises_only_weaken; [apply _make_netmask_raises|]. intros e ->; auto. }
  intros [nm p] _.
  eapply raises_only_weaken; [apply finish_network_raises|]. intros e ->; auto.
Qed.

Lemma IPv6Network_raises (s : string) :
  raises_only address_netmask_or_host_bits (IPv6Network s).
Proof.
  unfold IPv6Network, address_netmask_or_host_bits. apply raises_only_bind.
  { eapply raises_only_weaken; [apply _split_addr_prefix_raises|]. intros e ->; auto. }
  intros [addr mask] _. apply raises_only_bind.
  { eapply raises_only_weaken; [apply IPv6Address_raises|]. intros e ->; auto. }
  intros [ip sc] _. apply raises_only_bind.
  { eapply raises_only_weaken; [apply _make_netmask_raises|]. intros e ->; auto. }
  intros [nm p] _.
  eapply raises_only_weaken; [apply finish_network_raises|]. intros e ->; auto.
Qed.

(** [ip_network] raises a [ValueError] with one of two texts and nothing
    else. *)
Lemma ip_network_raises (s : string) :
  raises_only (fun e => e = ValueError not_a_network \/ e = ValueError host_bits_set)
    (ip_network s).
Proof.
  unfold ip_network.
  eapply raises_only_try_except; [apply IPv4Network_raises| |].
  - intros e [-> | [-> | ->]] Hc; try discriminate. auto.
  - intros _ _ _.
    eapply raises_only_try_except; [apply IPv6Network_raises| |].
    + intros e [-> | [-> | ->]] Hc; try discriminate. auto.
    + intros; raises_step. auto.
Qed.

End ParseRaises.

(* ===================================================================== *)
(** * Networks built by the constructors are well formed                  *)
(* ===================================================================== *)

Section Constructors.

Lemma bind_Ok {A B : Type} (r : result A) (k : A -> result B) (b : B) :
  r ≫= k = Ok b -> exists a, r = Ok a /\ k a = Ok b.
Proof. destruct r as [a|e]; simpl; [eauto|discriminate]. Qed.

Lemma try_except_Ok {A : Type} (r : result A) (catches : exception -> bool)
    (handler : exception -> result A) (a : A) :
  try_except r catches handler = Ok a ->
  r = Ok a \/ exists e, r = Raise e /\ catches e = true /\ handler e = Ok a.
Proof.
  destruct r as [a'|e]; simpl; [intros [= ->]; auto|].
  destruct (catches e) eqn:Hc; [|discriminate]. intros H. right. eauto.
Qed.

Lemma _prefix_from_prefix_string_Ok (v : version) (s : string) (p : Z) :
  _prefix_from_prefix_string v s = Ok p -> 0 <= p <= _max_prefixlen v.
Proof.
  unfold _prefix_from_prefix_string, _prefix_from_prefix_string_at.
  destruct (negb _); [discriminate|].
  destruct (Py.int_over_limit _ _); [discriminate|].
  destruct (Z.leb_spec 0 (Py.int_of_digits 10 s)),
    (Z.leb_spec (Py.int_of_digits 10 s) (_max_prefixlen v)); simpl;
    try discriminate.
  intros [= <-]. lia.
Qed.

Lemma _count_righthand_zero_bits_range (number bits : Z) :
  0 <= bits -> 0 <= _count_righthand_zero_bits number bits <= bits.
Proof.
  intros Hb. unfold _count_righthand_zero_bits.
  destruct (number =? 0); [lia|].
  pose proof (bit_length_nonneg (Z.land (Z.lnot number) (number - 1))). lia.
Qed.

Lemma _prefix_from_ip_int_Ok (v : version) (ip p : Z) :
  _prefix_from_ip_int v ip = Ok p -> 0 <= p <= _max_prefixlen v.
Proof.
  unfold _prefix_from_ip_int. cbv zeta.
  destruct (negb _); [discriminate|]. intros [= <-].
  pose proof (max_prefixlen_pos v).
  pose proof (_count_righthand_zero_bits_range ip (_max_prefixlen v) ltac:(lia)). lia.
Qed.

Lemma _prefix_from_ip_string_Ok (v : version) (s : string) (p : Z) :
  _prefix_from_ip_string v s = Ok p -> 0 <= p <= _max_prefixlen v.
Proof.
  unfold _prefix_from_ip_string. intros H.
  apply bind_Ok in H as (ip & _ & H).
  apply try_except_Ok in H as [H|(e & _ & _ & H)].
  - eapply _prefix_from_ip_int_Ok, H.
  - apply try_except_Ok in H as [H|(e' & _ & _ & H)]; [|discriminate].
    eapply _prefix_from_ip_int_Ok, H.
Qed.

(** [_make_netmask] returns a prefix length in range and its netmask. *)
Lemma _make_netmask_Ok (v : version) (arg : Z + string) (nm p : Z) :
  _make_netmask v arg = Ok (nm, p) ->
  0 <= p <= _max_prefixlen v /\ nm = _ip_int_from_prefix v p.
Proof.
  unfold _make_netmask, _make_netmask_at.
  change (_prefix_from_prefix_string_at 0) with _prefix_from_prefix_string.
  intros H.
  apply bind_Ok in H as (p' & Hp & [= <- <-]). split; [|reflexivity].
  destruct arg as [q|s].
  - destruct (Z.leb_spec 0 q), (Z.leb_spec q (_max_prefixlen v)); simpl in Hp;
      try discriminate. injection Hp as <-. lia.
  - destruct v.
    + apply try_except_Ok in Hp as [Hp|(e & _ & _ & Hp)].
      * eapply _prefix_from_prefix_string_Ok, Hp.
      * eapply _prefix_from_ip_string_Ok, Hp.
    + eapply _prefix_from_prefix_string_Ok, Hp.
Qed.

(** An address that passes the host-bits check lies in the address space. *)
Lemma host_bits_check_range (v : version) (p a : Z) :
  0 <= p <= _max_prefixlen v ->
  Z.land a (_ip_int_from_prefix v p) = a -> 0 <= a <= _ALL_ONES v.
Proof.
  intros Hp Hland.
  pose proof (max_prefixlen_pos v) as Hmax.
  assert (Hm : 0 <= _ip_int_from_prefix v p).
  { rewrite ip_int_from_prefix_value by assumption.
    assert (2 ^ (_max_prefixlen v - p) <= 2 ^ _max_prefixlen v)
      by (apply Z.pow_le_mono_r; lia). lia. }
  assert (Ha : 0 <= a) by (rewrite <- Hland; apply Z.land_nonneg; auto).
  split; [assumption|].
  assert (Hmod : a mod 2 ^ _max_prefixlen v = a).
  { rewrite <- Z.land_ones by lia. apply Z.bits_inj'. intros i Hi.
    rewrite Z.land_spec, Z.testbit_ones_nonneg by lia.
    destruct (Z.ltb_spec i (_max_prefixlen v)); [apply andb_true_r|].
    rewrite andb_false_r, <- Hland, Z.land_spec, ip_int_from_prefix_testbit by lia.
    destruct (Z.ltb_spec i (_max_prefixlen v)); [lia|].
    rewrite !andb_false_r. reflexivity. }
  pose proof (Z.mod_pos_bound a (2 ^ _max_prefixlen v)
                (pow2_pos (_max_prefixlen v) ltac:(lia))).
  unfold _ALL_ONES. lia.
Qed.

Lemma finish_network_Ok (v : version) (ip : Z) (sc : option string) (nm p : Z)
    (n : network) :
  0 <= p <= _max_prefixlen v -> nm = _ip_int_from_prefix v p ->
  finish_network v ip sc nm p = Ok n ->
  n = Network v ip sc nm p /\ well_formed n.
Proof.
  intros Hp -> H. unfold finish_network in H.
  destruct (Z.eqb_spec (Z.land ip (_ip_int_from_prefix v p)) ip) as [Hland|];
    simpl in H; [|discriminate].
  injection H as <-. split; [reflexivity|].
  unfold well_formed, max_prefixlen; simpl.
  repeat split; try lia; try assumption;
    apply (host_bits_check_range v p ip Hp Hland).
Qed.

Lemma IPv4Network_Ok (s : string) (n : network) :
  IPv4Network s = Ok n -> net_version n = V4 /\ well_formed n.
Proof.
  unfold IPv4Network. intros H.
  apply bind_Ok in H as ([addr mask] & _ & H).
  apply bind_Ok in H as (ip & _ & H).
  apply bind_Ok in H as ([nm p] & Hm & H).
  apply _make_netmask_Ok in Hm as [Hp Hnm].
  apply finish_network_Ok in H as [-> Hwf]; auto.
Qed.

Lemma IPv6Network_Ok (s : string) (n : network) :
  IPv6Network s = Ok n -> net_version n = V6 /\ well_formed n.
Proof.
  unfold IPv6Network. intros H.
  apply bind_Ok in H as ([addr mask] & _ & H).
  apply bind_Ok in H as ([ip sc] & _ & H).
  apply bind_Ok in H as ([nm p] & Hm & H).
  apply _make_netmask_Ok in Hm as [Hp Hnm].
  apply finish_network_Ok in H as [-> Hwf]; auto.
Qed.

(** [ip_network] returns the network of [IPv4Network], or else that of
    [IPv6Network]. *)
Lemma ip_network_Ok (s : string) (n : network) :
  ip_network s = Ok n ->
  (IPv4Network s = Ok n /\ net_version n = V4
   \/ IPv6Network s = Ok n /\ net_version n = V6) /\ well_formed n.
Proof.
  unfold ip_network. intros H.
  apply try_except_Ok in H as [H|(e & _ & _ & H)].
  - destruct (IPv4Network_Ok s n H). auto.
  - apply try_except_Ok in H as [H|(e' & _ & _ & H)]; [|discriminate].
    destruct (IPv6Network_Ok s n H). auto.
Qed.

Lemma ip_network_well_formed (s : string) (n : network) :
  ip_network s = Ok n -> well_formed n.
Proof. intros H. apply (ip_network_Ok s n H). Qed.

Lemma ip_network_v4_prefixlen (s : string) (n : network) :
  ip_network s = Ok n -> net_version n = V4 -> 0 <= prefixlen n <= 32.
Proof.
  intros H Hv. destruct (ip_network_well_formed s n H) as (Hp & _).
  unfold max_prefixlen in Hp. rewrite Hv in Hp. exact Hp.
Qed.

End Constructors.

(* ===================================================================== *)
(** * The loop over the zones                                             *)
(* ===================================================================== *)

Section Loop.

Variable l : list network.

Lemma loop_body_raises (st : list string * list string) (i : Z) :
  raises_only only_IndexError (loop_body l st i).
Proof.
  unfold loop_body. destruct st as [pub priv].
  apply raises_only_bind; [apply getitem_raises|]. intros b _.
  apply raises_only_bind; [apply getitem_raises|]. intros b' _.
  apply raises_only_Ok.
Qed.

(** The loop can fail in one way only: an index out of range. *)
Lemma loop_raises (idx : list Z) (st : list string * list string) :
  raises_only only_IndexError (foldM (loop_body l) idx st).
Proof. apply raises_only_foldM. intros; apply loop_body_raises. Qed.

Lemma loop_body_Ok (pub priv pub' priv' : list string) (i : Z) :
  0 <= i ->
  loop_body l (pub, priv) i = Ok (pub', priv') ->
  exists b b', l !! Z.to_nat (i * 2) = Some b /\ l !! Z.to_nat (i * 2 + 1) = Some b'
               /\ pub' = pub ++ [str b] /\ priv' = priv ++ [str b'].
Proof.
  intros Hi. unfold loop_body.
  rewrite !getitem_nonneg by lia.
  destruct (l !! Z.to_nat (i * 2)) as [b|]; simpl; [|discriminate].
  destruct (l !! Z.to_nat (i * 2 + 1)) as [b'|]; simpl; [|discriminate].
  intros [= <- <-]. exists b, b'. repeat split; reflexivity.
Qed.

(** Each iteration appends one entry to each list, whatever the index. *)
Lemma loop_body_lengths (pub priv pub' priv' : list string) (i : Z) :
  loop_body l (pub, priv) i = Ok (pub', priv') ->
  length pub' = S (length pub) /\ length priv' = S (length priv).
Proof.
  unfold loop_body. intros H.
  apply bind_Ok in H as (b & _ & H). apply bind_Ok in H as (b' & _ & H).
  injection H as <- <-. rewrite !length_app. simpl. lia.
Qed.

Lemma loop_lengths (idx : list Z) (pub priv pub' priv' : list string) :
  foldM (loop_body l) idx (pub, priv) = Ok (pub', priv') ->
  length pub' = (length pub + length idx)%nat
  /\ length priv' = (length priv + length idx)%nat.
Proof.
  revert pub priv. induction idx as [|i idx IH]; intros pub priv H; simpl in H.
  - injection H as <- <-. simpl. lia.
  - apply bind_Ok in H as ([pub1 priv1] & Hb & H).
    apply loop_body_lengths in Hb as [Hp1 Hq1].
    apply IH in H as [Hp Hq]. simpl. lia.
Qed.

(** A loop that succeeds found both indices of every zone in range. *)
Lemma loop_Ok_in_range (idx : list Z) (st st' : list string * list string) :
  (forall i, i ∈ idx -> 0 <= i) ->
  foldM (loop_body l) idx st = Ok st' ->
  forall i, i ∈ idx -> i * 2 + 1 < Py.llen l.
Proof.
  revert st. induction idx as [|i idx IH]; intros st Hnn H j Hj.
  - inversion Hj.
  - simpl in H. apply bind_Ok in H as ([pub1 priv1] & Hb & H).
    apply elem_of_cons in Hj as [-> | Hj].
    + destruct st as [pub priv].
      apply loop_body_Ok in Hb as (b & b' & _ & Hb' & _); [|apply Hnn; left].
      apply lookup_lt_Some in Hb'. unfold Py.llen.
      assert (0 <= i) by (apply Hnn; left). lia.
    + eapply IH; [|exact H|exact Hj]. intros k Hk. apply Hnn. right. exact Hk.
Qed.

(** When [l] holds [g k] at every index [k] and the indices are in range,
    the loop returns the texts of the entries at [2*i] and at [2*i + 1]. *)
Lemma loop_Ok_values (g : Z -> network) (idx : list Z) (pub priv : list string) :
  (forall k, 0 <= k < Py.llen l -> l !! Z.to_nat k = Some (g k)) ->
  (forall i, i ∈ idx -> 0 <= i /\ i * 2 + 1 < Py.llen l) ->
  foldM (loop_body l) idx (pub, priv)
  = Ok (pub ++ ((fun i => str (g (i * 2))) <$> idx),
        priv ++ ((fun i => str (g (i * 2 + 1))) <$> idx)).
Proof.
  intros Hg. revert pub priv. induction idx as [|i idx IH]; intros pub priv Hidx; simpl.
  - rewrite !app_nil_r. reflexivity.
  - destruct (Hidx i ltac:(left)) as [Hi0 Hi1].
    unfold loop_body at 1. rewrite !getitem_nonneg by lia.
    rewrite !Hg by lia. simpl.
    rewrite IH by (intros k Hk; apply Hidx; right; exact Hk).
    rewrite <- !app_assoc. reflexivity.
Qed.

End Loop.

(* ===================================================================== *)
(** * The shape of a run of [compute_subnet_cidrs]                        *)
(* ===================================================================== *)

Section Runs.

Lemma clamped_new_prefix_le_28 (n : network) (z : Z) : clamped_new_prefix n z <= 28.
Proof.
  unfold clamped_new_prefix. cbv zeta.
  destruct (Z.ltb_spec 28 (prefixlen n + Py.bit_length (z * 2 - 1))); lia.
Qed.

Lemma clamped_new_prefix_value (n : network) (z : Z) :
  clamped_new_prefix n z = Z.min 28 (prefixlen n + Py.bit_length (z * 2 - 1)).
Proof.
  unfold clamped_new_prefix. cbv zeta.
  destruct (Z.ltb_spec 28 (prefixlen n + Py.bit_length (z * 2 - 1))); lia.
Qed.

(** The fit check never fires: the clamp leaves a prefix length of at most
    28, which is below both [32] and [128]. *)
Lemma fit_check_false (n : network) (z : Z) :
  (max_prefixlen n <? clamped_new_prefix n z) = false.
Proof.
  pose proof (clamped_new_prefix_le_28 n z). apply Z.ltb_ge.
  unfold max_prefixlen. destruct (net_version n); simpl; lia.
Qed.

(** After a successful parse, [compute_subnet_cidrs] is the enumeration
    followed by the loop. *)
Lemma compute_subnet_cidrs_unfold (s : string) (z : Z) (n : network) :
  ip_network s = Ok n ->
  compute_subnet_cidrs s z
  = subnets n (clamped_new_prefix n z) ≫= fun l =>
      foldM (loop_body l) (Py.range z) ([], []).
Proof.
  intros H. unfold compute_subnet_cidrs. rewrite H. simpl.
  rewrite fit_check_false. reflexivity.
Qed.

Lemma compute_subnet_cidrs_parse_error (s : string) (z : Z) (e : exception) :
  ip_network s = Raise e -> compute_subnet_cidrs s z = Raise e.
Proof. intros H. unfold compute_subnet_cidrs. rewrite H. reflexivity. Qed.

Lemma range_nonneg (z i : Z) : i ∈ Py.range z -> 0 <= i < z.
Proof. unfold Py.range. rewrite elem_of_seqZ. lia. Qed.

Lemma length_range (z : Z) : length (Py.range z) = Z.to_nat z.
Proof. apply length_seqZ. Qed.

(** When the enumeration has fewer than [2 * az_count] entries, the loop
    raises [IndexError]. *)
Lemma loop_too_few (l : list network) (z : Z) :
  1 <= z -> Py.llen l < z * 2 ->
  foldM (loop_body l) (Py.range z) ([], []) = Raise IndexError.
Proof.
  intros Hz Hlen.
  destruct (foldM (loop_body l) (Py.range z) ([], [])) as [st'|e] eqn:E.
  - exfalso.
    assert (Hin : z - 1 ∈ Py.range z) by (unfold Py.range; rewrite elem_of_seqZ; lia).
    pose proof (loop_Ok_in_range l (Py.range z) _ st'
                  (fun i Hi => proj1 (range_nonneg z i Hi)) E (z - 1) Hin).
    lia.
  - f_equal. exact (loop_raises l _ _ e E).
Qed.

Lemma subnets_of_host_block (n : network) (np : Z) :
  prefixlen n = max_prefixlen n -> subnets n np = Ok [n].
Proof. intros H. unfold subnets. rewrite H, Z.eqb_refl. reflexivity. Qed.

Lemma subnets_shorter_prefix (n : network) (np : Z) :
  prefixlen n <> max_prefixlen n -> np < prefixlen n ->
  subnets n np = Raise (ValueError new_prefix_must_be_longer).
Proof.
  intros H1 H2. unfold subnets.
  destruct (Z.eqb_spec (prefixlen n) (max_prefixlen n)); [contradiction|].
  destruct (Z.ltb_spec np (prefixlen n)); [reflexivity|lia].
Qed.

End Runs.

(* ===================================================================== *)
(** * The geometry of the sub-blocks                                      *)
(* ===================================================================== *)

Section Geometry.

Variable n : network.
Hypothesis Hwf : well_formed n.
Variable np : Z.
Hypothesis Hnp : prefixlen n <= np <= max_prefixlen n.

Lemma sub_block_well_formed (k : Z) :
  0 <= k < 2 ^ (np - prefixlen n) -> well_formed (sub_block n np k).
Proof.
  intros Hk. unfold sub_block.
  pose proof (count_size n np Hnp) as Hcs.
  pose proof (wf_block_in_space n Hwf) as Hsp.
  pose proof (wf_host_bits_zero n Hwf) as Hz.
  pose proof (pow2_pos (max_prefixlen n - np) ltac:(lia)) as Hs.
  destruct Hwf as (Hp & _ & Ha & _).
  apply block_well_formed; fold (max_prefixlen n).
  - lia.
  - split; nia.
  - apply Z.mod_divide; [lia|].
    apply Z.divide_add_r; [|apply Z.divide_factor_r].
    apply Z.mod_divide in Hz; [|apply Z.pow_nonzero; lia].
    eapply Z.divide_trans; [|exact Hz].
    exists (2 ^ (np - prefixlen n)). symmetry. exact Hcs.
Qed.

(** The address range of the [k]-th sub-block. *)
Lemma sub_block_range (k a : Z) :
  0 <= k < 2 ^ (np - prefixlen n) ->
  contains_address (sub_block n np k) a
  <-> network_address n + k * 2 ^ (max_prefixlen n - np) <= a
      < network_address n + (k + 1) * 2 ^ (max_prefixlen n - np).
Proof.
  intros Hk. unfold contains_address.
  rewrite (wf_broadcast_address _ (sub_block_well_formed k Hk)).
  unfold sub_block, block, max_prefixlen. simpl. fold (max_prefixlen n). lia.
Qed.

Lemma sub_block_disjoint (k k' : Z) :
  0 <= k < 2 ^ (np - prefixlen n) -> 0 <= k' < 2 ^ (np - prefixlen n) ->
  k <> k' -> disjoint_blocks (sub_block n np k) (sub_block n np k').
Proof.
  intros Hk Hk' Hne a [H1 H2].
  apply sub_block_range in H1; [|assumption].
  apply sub_block_range in H2; [|assumption].
  pose proof (pow2_pos (max_prefixlen n - np) ltac:(lia)) as Hs.
  destruct (Z_lt_le_dec k k'); nia.
Qed.

Lemma sub_block_subnet_of (k : Z) :
  0 <= k < 2 ^ (np - prefixlen n) -> subnet_of (sub_block n np k) n.
Proof.
  intros Hk. unfold subnet_of.
  rewrite (wf_broadcast_address _ (sub_block_well_formed k Hk)).
  rewrite (wf_broadcast_address n Hwf).
  unfold sub_block, block, max_prefixlen. simpl. fold (max_prefixlen n).
  pose proof (count_size n np Hnp) as Hcs.
  pose proof (pow2_pos (max_prefixlen n - np) ltac:(lia)) as Hs.
  split; [reflexivity|]. split; nia.
Qed.

Lemma sub_block_prefixlen (k : Z) : prefixlen (sub_block n np k) = np.
Proof. reflexivity. Qed.

End Geometry.

(* ===================================================================== *)
(** * What a successful run returns                                       *)
(* ===================================================================== *)

Section Plan.

Lemma llen_sub_blocks (n : network) (np count : Z) :
  0 <= count -> Py.llen (sub_block n np <$> seqZ 0 count) = count.
Proof.
  intros H. unfold Py.llen. rewrite length_fmap, length_seqZ. lia.
Qed.

Lemma lookup_sub_blocks (n : network) (np count k : Z) :
  0 <= k < count ->
  (sub_block n np <$> seqZ 0 count) !! Z.to_nat k = Some (sub_block n np k).
Proof.
  intros Hk. rewrite list_lookup_fmap, lookup_seqZ_lt by lia. simpl.
  do 2 f_equal. lia.
Qed.

(** The run on a base that has room: the texts of the planned blocks. *)
Lemma compute_subnet_cidrs_plan (s : string) (z : Z) (n : network) :
  ip_network s = Ok n ->
  prefixlen n < max_prefixlen n ->
  prefixlen n <= clamped_new_prefix n z ->
  z * 2 <= 2 ^ (clamped_new_prefix n z - prefixlen n) ->
  compute_subnet_cidrs s z
  = Ok (str <$> public_blocks n (clamped_new_prefix n z) z,
        str <$> private_blocks n (clamped_new_prefix n z) z).
Proof.
  intros Hparse Hlt Hle Hroom.
  pose proof (ip_network_well_formed s n Hparse) as Hwf.
  pose proof (fit_check_false n z) as Hfit. apply Z.ltb_ge in Hfit.
  rewrite (compute_subnet_cidrs_unfold s z n Hparse).
  rewrite (subnets_Ok n Hwf) by lia. simpl.
  assert (Hc : 0 <= 2 ^ (clamped_new_prefix n z - prefixlen n))
    by (apply Z.pow_nonneg; lia).
  rewrite (loop_Ok_values _ (sub_block n (clamped_new_prefix n z))).
  - unfold public_blocks, private_blocks. rewrite <- !list_fmap_compose. reflexivity.
  - intros k Hk. rewrite llen_sub_blocks in Hk by assumption.
    apply lookup_sub_blocks. exact Hk.
  - intros i Hi. apply range_nonneg in Hi.
    rewrite llen_sub_blocks by assumption. lia.
Qed.

(** A run that succeeds for at least one zone had room: the base is not a
    single address, the clamped prefix is not shorter than the base's, and
    the enumeration holds [2 * az_count] blocks. *)
Lemma compute_subnet_cidrs_success (s : string) (z : Z) (n : network)
    (r : list string * list string) :
  ip_network s = Ok n -> 1 <= z ->
  compute_subnet_cidrs s z = Ok r ->
  prefixlen n < max_prefixlen n
  /\ prefixlen n <= clamped_new_prefix n z
  /\ z * 2 <= 2 ^ (clamped_new_prefix n z - prefixlen n).
Proof.
  intros Hparse Hz Hrun.
  pose proof (ip_network_well_formed s n Hparse) as Hwf.
  pose proof (fit_check_false n z) as Hfit. apply Z.ltb_ge in Hfit.
  rewrite (compute_subnet_cidrs_unfold s z n Hparse) in Hrun.
  destruct (Z.eq_dec (prefixlen n) (max_prefixlen n)) as [Heq|Hne].
  { rewrite (subnets_of_host_block n _ Heq) in Hrun. simpl in Hrun.
    rewrite loop_too_few in Hrun; [discriminate|assumption|].
    unfold Py.llen. simpl. lia. }
  destruct (Z_lt_le_dec (clamped_new_prefix n z) (prefixlen n)) as [Hshort|Hle].
  { rewrite (subnets_shorter_prefix n _ Hne Hshort) in Hrun. discriminate. }
  destruct Hwf as (Hp & Hrest).
  assert (Hwf : well_formed n) by (split; assumption).
  rewrite (subnets_Ok n Hwf) in Hrun by lia. simpl in Hrun.
  assert (Hc : 0 <= 2 ^ (clamped_new_prefix n z - prefixlen n))
    by (apply Z.pow_nonneg; lia).
  repeat split; try lia.
  destruct (Z_le_gt_dec (z * 2) (2 ^ (clamped_new_prefix n z - prefixlen n)))
    as [|Hfew]; [assumption|].
  rewrite loop_too_few in Hrun; [discriminate|assumption|].
  rewrite llen_sub_blocks by assumption. lia.
Qed.

Lemma length_public_blocks (n : network) (np z : Z) :
  length (public_blocks n np z) = Z.to_nat z.
Proof. unfold public_blocks. rewrite length_fmap. apply length_range. Qed.

Lemma length_private_blocks (n : network) (np z : Z) :
  length (private_blocks n np z) = Z.to_nat z.
Proof. unfold private_blocks. rewrite length_fmap. apply length_range. Qed.

(** The entry at position [j] of the public blocks followed by the private
    blocks is the sub-block at [2*j] for a public position and at
    [2*(j - az_count) + 1] for a private one. *)
Lemma lookup_planned_blocks (n : network) (np z : Z) (j : nat) (b : network) :
  (public_blocks n np z ++ private_blocks n np z) !! j = Some b ->
  exists k, 0 <= k < z * 2 /\ b = sub_block n np k
            /\ (Z.of_nat j < z /\ k = Z.of_nat j * 2
                \/ z <= Z.of_nat j /\ k = (Z.of_nat j - z) * 2 + 1).
Proof.
  intros H. apply lookup_app_Some in H as [H|[Hge H]].
  - unfold public_blocks in H. rewrite list_lookup_fmap in H.
    destruct (Py.range z !! j) as [i|] eqn:E; [|discriminate].
    injection H as <-. unfold Py.range in E. apply lookup_seqZ in E as [-> Hj].
    exists (Z.of_nat j * 2). split; [lia|]. split; [f_equal; lia|]. left. lia.
  - rewrite length_public_blocks in Hge, H.
    unfold private_blocks in H. rewrite list_lookup_fmap in H.
    destruct (Py.range z !! (j - Z.to_nat z)%nat) as [i|] eqn:E; [|discriminate].
    injection H as <-. unfold Py.range in E. apply lookup_seqZ in E as [-> Hj].
    exists ((Z.of_nat j - z) * 2 + 1).
    assert (0 <= z \/ z < 0) as [Hz|Hz] by lia.
    + split; [lia|]. split; [f_equal; lia|]. right. lia.
    + lia.
Qed.

End Plan.

(* ===================================================================== *)
(** * Failures after the parse                                            *)
(* ===================================================================== *)

Section Failures.

Lemma network_of_pair_raises (v : version) (a : Z * Z) :
  raises_only address_netmask_or_host_bits (network_of_pair v a).
Proof.
  unfold network_of_pair, address_netmask_or_host_bits. destruct a as [addr mask].
  apply raises_only_bind.
  { unfold _check_int_address. repeat raises_step; auto. }
  intros _ _. apply raises_only_bind.
  { eapply raises_only_weaken; [apply _make_netmask_raises|]. intros e ->; auto. }
  intros [nm p] _.
  eapply raises_only_weaken; [apply finish_network_raises|]. intros e ->; auto.
Qed.

(** No exception of [subnets] is the fit-check error. *)
Lemma subnets_raises (n : network) (np : Z) :
  raises_only (fun e => e <> ValueError vpc_too_small /\ e <> IndexError)
    (subnets n np).
Proof.
  unfold subnets. cbv zeta.
  repeat (raises_step; [try raises_step; split; discriminate|]).
  apply raises_only_bind.
  - unfold Py.range3. repeat raises_step. split; discriminate.
  - intros addrs _. apply raises_only_mapM. intros a _.
    eapply raises_only_weaken; [apply network_of_pair_raises|].
    intros e [-> | [-> | ->]]; split; discriminate.
Qed.

Lemma compute_subnet_cidrs_Ok (s : string) (z : Z) (r : list string * list string) :
  compute_subnet_cidrs s z = Ok r ->
  exists n l, ip_network s = Ok n /\ subnets n (clamped_new_prefix n z) = Ok l
              /\ foldM (loop_body l) (Py.range z) ([], []) = Ok r.
Proof.
  intros H. destruct (ip_network s) as [n|e] eqn:Hparse.
  - rewrite (compute_subnet_cidrs_unfold s z n Hparse) in H.
    apply bind_Ok in H as (l & Hl & H). eauto.
  - rewrite (compute_subnet_cidrs_parse_error s z e Hparse) in H. discriminate.
Qed.

(** The fit-check error is raised on no input at all. *)
Lemma vpc_too_small_never_raised (s : string) (z : Z) :
  compute_subnet_cidrs s z <> Raise (ValueError vpc_too_small).
Proof.
  intros H. destruct (ip_network s) as [n|e] eqn:Hparse.
  - rewrite (compute_subnet_cidrs_unfold s z n Hparse) in H.
    assert (Hr : raises_only (fun e => e <> ValueError vpc_too_small)
                   (subnets n (clamped_new_prefix n z) ≫= fun l =>
                      foldM (loop_body l) (Py.range z) ([], []))).
    { apply raises_only_bind.
      - eapply raises_only_weaken; [apply subnets_raises|]. intros e [He _]; exact He.
      - intros l _. eapply raises_only_weaken; [apply loop_raises|].
        intros e ->. discriminate. }
    exact (Hr _ H eq_refl).
  - rewrite (compute_subnet_cidrs_parse_error s z e Hparse) in H.
    injection H as ->.
    destruct (ip_network_raises s _ Hparse); discriminate.
Qed.

Lemma bit_length_pos (k : Z) : k <> 0 -> 1 <= Py.bit_length k.
Proof. destruct k; simpl; lia. Qed.

(** A base of prefix length 28 or more gets the clamped prefix 28, whatever
    the zone count: [az_count * 2 - 1] is odd, so it has at least one bit. *)
Lemma clamped_new_prefix_long_base (n : network) (z : Z) :
  28 <= prefixlen n -> clamped_new_prefix n z = 28.
Proof.
  intros Hp. rewrite clamped_new_prefix_value.
  pose proof (bit_length_pos (z * 2 - 1) ltac:(lia)). lia.
Qed.

Lemma clamped_new_prefix_ge (n : network) (z : Z) :
  prefixlen n <= 28 -> prefixlen n <= clamped_new_prefix n z.
Proof.
  intros Hp. rewrite clamped_new_prefix_value.
  pose proof (bit_length_nonneg (z * 2 - 1)). lia.
Qed.

Lemma loop_no_zone (l : list network) (z : Z) :
  z <= 0 -> foldM (loop_body l) (Py.range z) ([], []) = Ok ([], []).
Proof. intros Hz. unfold Py.range. rewrite seqZ_nil by lia. reflexivity. Qed.

End Failures.

(* ===================================================================== *)
(** * The text of an IPv4 network reads back as that network              *)
(* ===================================================================== *)

Section ReadBack.

Local Open Scope string_scope.

Lemma contains_app (c : ascii) (s1 s2 : string) :
  Py.contains c (s1 ++ s2) = Py.contains c s1 || Py.contains c s2.
Proof.
  induction s1 as [|d s1 IH]; simpl; [reflexivity|].
  rewrite IH. apply orb_assoc.
Qed.

Lemma split_no_sep (sep : ascii) (s : string) :
  Py.contains sep s = false -> Py.split sep s = [s].
Proof.
  induction s as [|c s IH]; simpl; [reflexivity|].
  intros H. apply orb_false_elim in H as [Hc Hs].
  rewrite Hc, (IH Hs). reflexivity.
Qed.

Lemma split_app_sep (sep : ascii) (s1 s2 : string) :
  Py.contains sep s1 = false ->
  Py.split sep (s1 ++ String sep s2) = s1 :: Py.split sep s2.
Proof.
  induction s1 as [|c s1 IH]; simpl; intros H.
  - rewrite Ascii.eqb_refl. reflexivity.
  - apply orb_false_elim in H as [Hc Hs]. rewrite Hc, (IH Hs). reflexivity.
Qed.

(** The decimal text of an octet: no separator in it, not empty, and
    [_parse_octet] reads the octet back (checked on all 256 octets). *)
Lemma octet_text (k : Z) :
  0 <= k < 256 ->
  _parse_octet (Py.str_of_int k) = Ok k
  /\ Py.contains "/" (Py.str_of_int k) = false
  /\ Py.contains "." (Py.str_of_int k) = false
  /\ Py.empty (Py.str_of_int k) = false.
Proof.
  intros Hk.
  assert (Hall : forallb
            (fun k => match _parse_octet (Py.str_of_int k) with
                      | Ok k' => (k' =? k)%Z
                      | Raise _ => false
                      end
                      && negb (Py.contains "/" (Py.str_of_int k))
                      && negb (Py.contains "." (Py.str_of_int k))
                      && negb (Py.empty (Py.str_of_int k)))
            (seqZ 0 256) = true) by (vm_compute; reflexivity).
  rewrite forallb_forall in Hall.
  specialize (Hall k ltac:(apply list_elem_of_In, elem_of_seqZ; lia)).
  repeat (apply andb_prop in Hall as [Hall ?]).
  destruct (_parse_octet (Py.str_of_int k)) as [k'|]; [|discriminate].
  apply Z.eqb_eq in Hall as ->.
  repeat split; try reflexivity; apply negb_true_iff; assumption.
Qed.

(** The decimal text of a prefix length reads back (checked on 0..32). *)
Lemma prefix_text (p : Z) :
  0 <= p <= 32 ->
  _prefix_from_prefix_string V4 (Py.str_of_int p) = Ok p
  /\ Py.contains "/" (Py.str_of_int p) = false.
Proof.
  intros Hp.
  assert (Hall : forallb
            (fun p => match _prefix_from_prefix_string V4 (Py.str_of_int p) with
                      | Ok p' => (p' =? p)%Z
                      | Raise _ => false
                      end
                      && negb (Py.contains "/" (Py.str_of_int p)))
            (seqZ 0 33) = true) by (vm_compute; reflexivity).
  rewrite forallb_forall in Hall.
  specialize (Hall p ltac:(apply list_elem_of_In, elem_of_seqZ; lia)).
  apply andb_prop in Hall as [Hall Hc].
  destruct (_prefix_from_prefix_string V4 (Py.str_of_int p)) as [p'|]; [|discriminate].
  apply Z.eqb_eq in Hall as ->.
  split; [reflexivity|apply negb_true_iff; assumption].
Qed.

Lemma land_255 (x : Z) : Z.land x 255 = x mod 256.
Proof. change 255 with (Z.ones 8). apply Z.land_ones. lia. Qed.

Lemma to_bytes4_big_octets (a : Z) :
  Forall (fun b => 0 <= b < 256) (Py.to_bytes4_big a).
Proof.
  unfold Py.to_bytes4_big. repeat constructor; rewrite land_255;
    apply Z.mod_pos_bound; lia.
Qed.

Lemma from_bytes_to_bytes (a : Z) :
  0 <= a < 2 ^ 32 -> Py.from_bytes_big (Py.to_bytes4_big a) = a.
Proof.
  intros Ha. unfold Py.from_bytes_big, Py.to_bytes4_big. simpl.
  rewrite !land_255, !Z.shiftr_div_pow2 by lia.
  change (2 ^ 24) with 16777216. change (2 ^ 16) with 65536. change (2 ^ 8) with 256.
  change (2 ^ 32) with 4294967296 in Ha.
  Z.div_mod_to_equations. lia.
Qed.

(** [IPv4Address] reads the dotted text of an address back. *)
Lemma IPv4Address_string_from_ip_int (a : Z) :
  0 <= a < 2 ^ 32 ->
  IPv4Address (_string_from_ip_int_v4 a) = Ok a
  /\ Py.contains "/" (_string_from_ip_int_v4 a) = false.
Proof.
  intros Ha. pose proof (to_bytes4_big_octets a) as Hoct.
  pose proof (from_bytes_to_bytes a Ha) as Hback.
  unfold _string_from_ip_int_v4, Py.join in *.
  destruct (Py.to_bytes4_big a) as [|b1 [|b2 [|b3 [|b4 [|]]]]] eqn:E;
    try (unfold Py.to_bytes4_big in E; discriminate).
  inversion Hoct as [|? ? H1 Hoct1]; subst.
  inversion Hoct1 as [|? ? H2 Hoct2]; subst.
  inversion Hoct2 as [|? ? H3 Hoct3]; subst.
  inversion Hoct3 as [|? ? H4 _]; subst.
  destruct (octet_text b1 H1) as (P1 & S1 & D1 & E1).
  destruct (octet_text b2 H2) as (P2 & S2 & D2 & E2).
  destruct (octet_text b3 H3) as (P3 & S3 & D3 & E3).
  destruct (octet_text b4 H4) as (P4 & S4 & D4 & E4).
  cbn [map String.concat].
  assert (Hslash : Py.contains "/"
            (Py.str_of_int b1 ++ "." ++ Py.str_of_int b2 ++ "."
               ++ Py.str_of_int b3 ++ "." ++ Py.str_of_int b4) = false).
  { rewrite !contains_app, S1, S2, S3, S4. reflexivity. }
  split; [|exact Hslash].
  unfold IPv4Address. rewrite Hslash. unfold _ip_int_from_string_v4.
  assert (Hne : Py.empty
            (Py.str_of_int b1 ++ "." ++ Py.str_of_int b2 ++ "."
               ++ Py.str_of_int b3 ++ "." ++ Py.str_of_int b4) = false).
  { destruct (Py.str_of_int b1); [discriminate|reflexivity]. }
  rewrite Hne.
  repeat match goal with
         | |- context ["." ++ ?s] => change ("." ++ s) with (String "." s)
         end.
  rewrite !split_app_sep by assumption. rewrite split_no_sep by assumption.
  cbn [Py.llen length Z.of_nat Z.eqb negb mapM]. simpl Z.eqb. cbv iota.
  simpl. rewrite P1. simpl. rewrite P2. simpl. rewrite P3. simpl. rewrite P4. simpl.
  reflexivity.
Qed.

Lemma bind_Ok_l {A B : Type} (a : A) (k : A -> result B) : Ok a ≫= k = k a.
Proof. reflexivity. Qed.

Lemma _split_addr_prefix_two (v : version) (addr mask : string) :
  Py.contains "/" addr = false -> Py.contains "/" mask = false ->
  _split_addr_prefix v (addr ++ String "/" mask) = Ok (addr, inr mask).
Proof.
  intros Ha Hm. unfold _split_addr_prefix.
  rewrite split_app_sep, (split_no_sep _ mask) by assumption. reflexivity.
Qed.

(** [ip_network] reads the text of a well-formed IPv4 network back. *)
Lemma ip_network_str_v4 (b : network) :
  net_version b = V4 -> scope_id b = None -> well_formed b ->
  ip_network (str b) = Ok b.
Proof.
  destruct b as [v a sc nm p]. cbn [net_version scope_id].
  intros -> -> (Hp & Hnm & Ha & Hland).
  unfold max_prefixlen in Hp. cbn [net_version prefixlen netmask network_address] in *.
  change (_max_prefixlen V4) with 32 in Hp.
  change (_ALL_ONES V4) with (2 ^ 32 - 1) in Ha.
  destruct (IPv4Address_string_from_ip_int a ltac:(lia)) as [Haddr Hslash].
  destruct (prefix_text p Hp) as [Hpre Hpslash].
  assert (H4 : IPv4Network (str (Network V4 a None nm p)) = Ok (Network V4 a None nm p)).
  { unfold str, str_address. cbn [net_version prefixlen netmask network_address scope_id].
    change ("/" ++ Py.str_of_int p) with (String "/" (Py.str_of_int p)).
    unfold IPv4Network.
    rewrite _split_addr_prefix_two by assumption.
    rewrite bind_Ok_l. cbv beta iota. rewrite Haddr, bind_Ok_l.
    unfold _make_netmask, _make_netmask_at.
    change (_prefix_from_prefix_string_at 0) with _prefix_from_prefix_string.
    rewrite Hpre. unfold try_except. rewrite !bind_Ok_l.
    cbv beta iota. unfold finish_network. rewrite <- Hnm, Hland, Z.eqb_refl.
    reflexivity. }
  unfold ip_network. rewrite H4. reflexivity.
Qed.

Lemma sub_block_reads_back (n : network) (np k : Z) :
  net_version n = V4 -> well_formed (sub_block n np k) ->
  ip_network (str (sub_block n np k)) = Ok (sub_block n np k).
Proof.
  intros Hv Hwf. apply ip_network_str_v4; [exact Hv|reflexivity|exact Hwf].
Qed.

End ReadBack.

(* ===================================================================== *)
(** * What the interpreter's state changes                                *)
(* ===================================================================== *)

Section InterpreterState.

(** ** The limit on the digits of an int literal *)

Lemma int_over_limit_off (digits : Z) : Py.int_over_limit 0 digits = false.
Proof. unfold Py.int_over_limit. destruct (640 <? digits); reflexivity. Qed.

(** A literal within the limit stays within it when it gets shorter. *)
Lemma int_over_limit_shorter (maxdigits digits digits' : Z) :
  digits' <= digits ->
  Py.int_over_limit maxdigits digits = false ->
  Py.int_over_limit maxdigits digits' = false.
Proof.
  unfold Py.int_over_limit. intros Hle.
  destruct (Z.ltb_spec 640 digits), (Z.ltb_spec 0 maxdigits),
    (Z.ltb_spec maxdigits digits), (Z.ltb_spec 640 digits'),
    (Z.ltb_spec maxdigits digits'); simpl; intros; try reflexivity;
    try discriminate; lia.
Qed.

(** No literal of at most 640 digits is over any limit. *)
Lemma int_over_limit_short (maxdigits digits : Z) :
  digits <= 640 -> Py.int_over_limit maxdigits digits = false.
Proof.
  unfold Py.int_over_limit. intros H.
  destruct (Z.ltb_spec 640 digits); [lia|reflexivity].
Qed.

(** The limit only takes results away: under it the prefix parser returns
    what it returns without it, or it raises [NetmaskValueError] on a
    string of decimal digits. *)
Lemma _prefix_from_prefix_string_at_cases (maxdigits : Z) (v : version) (s : string) :
  _prefix_from_prefix_string_at maxdigits v s = _prefix_from_prefix_string v s
  \/ (Py.isdigit s = true
      /\ _prefix_from_prefix_string_at maxdigits v s = Raise NetmaskValueError).
Proof.
  unfold _prefix_from_prefix_string, _prefix_from_prefix_string_at.
  rewrite int_over_limit_off.
  destruct (Py.isascii s && Py.isdigit s) eqn:Hd; simpl; [|left; reflexivity].
  destruct (Py.int_over_limit maxdigits (Py.len s)); [|left; reflexivity].
  right. apply andb_prop in Hd as [_ Hd]. split; [exact Hd|reflexivity].
Qed.

Lemma _prefix_from_prefix_string_at_within (maxdigits : Z) (v : version) (s : string) :
  Py.int_over_limit maxdigits (Py.len s) = false ->
  _prefix_from_prefix_string_at maxdigits v s = _prefix_from_prefix_string v s.
Proof.
  intros Hover. unfold _prefix_from_prefix_string, _prefix_from_prefix_string_at.
  rewrite int_over_limit_off, Hover. reflexivity.
Qed.

Lemma digits_without (c : ascii) (s : string) :
  Py.is_decimal_digit c = false ->
  Py.all_chars Py.is_decimal_digit s = true -> Py.contains c s = false.
Proof.
  intros Hc. unfold Py.all_chars. induction s as [|d s IH]; simpl; [reflexivity|].
  intros H. apply andb_prop in H as [Hd Hs]. rewrite (IH Hs), orb_false_r.
  destruct (Ascii.eqb_spec d c) as [-> |]; [congruence|reflexivity].
Qed.

(** A string of decimal digits is no dotted-quad netmask: the second
    attempt of [_make_netmask] for IPv4 fails on it. *)
Lemma _prefix_from_ip_string_digits (s : string) :
  Py.isdigit s = true -> _prefix_from_ip_string V4 s = Raise NetmaskValueError.
Proof.
  unfold Py.isdigit. intros H. apply andb_prop in H as [_ Hd].
  unfold _prefix_from_ip_string, _ip_int_from_string, _ip_int_from_string_v4.
  destruct (Py.empty s); [reflexivity|].
  rewrite (split_no_sep "." s) by (apply digits_without; [reflexivity|exact Hd]).
  reflexivity.
Qed.

(** What [_make_netmask] returns under a limit it returns without it. *)
Lemma _make_netmask_at_Ok (maxdigits : Z) (v : version) (arg : Z + string)
    (r : Z * Z) :
  _make_netmask_at maxdigits v arg = Ok r -> _make_netmask v arg = Ok r.
Proof.
  unfold _make_netmask, _make_netmask_at. destruct arg as [p|s]; [trivial|].
  change (_prefix_from_prefix_string_at 0) with _prefix_from_prefix_string.
  destruct v.
  - destruct (_prefix_from_prefix_string_at_cases maxdigits V4 s) as [-> | [Hd Hr]];
      [trivial|].
    rewrite Hr. simpl. rewrite (_prefix_from_ip_string_digits s Hd). discriminate.
  - destruct (_prefix_from_prefix_string_at_cases maxdigits V6 s) as [-> | [Hd Hr]];
      [trivial|].
    rewrite Hr. discriminate.
Qed.

(** A mask argument on which the limit has no say: an int, or a string
    within the limit. *)
Lemma _make_netmask_at_within (maxdigits : Z) (v : version) (arg : Z + string) :
  match arg with
  | inl _ => True
  | inr s => Py.int_over_limit maxdigits (Py.len s) = false
  end ->
  _make_netmask_at maxdigits v arg = _make_netmask v arg.
Proof.
  unfold _make_netmask, _make_netmask_at. destruct arg as [p|s]; [reflexivity|].
  intros Hover. change (_prefix_from_prefix_string_at 0) with _prefix_from_prefix_string.
  destruct v; rewrite (_prefix_from_prefix_string_at_within maxdigits) by exact Hover;
    reflexivity.
Qed.

Lemma len_cons (c : ascii) (s : string) : Py.len (String c s) = 1 + Py.len s.
Proof. unfold Py.len. simpl String.length. lia. Qed.

Lemma len_nonneg (s : string) : 0 <= Py.len s.
Proof. unfold Py.len. lia. Qed.

(** No part of a split is longer than the string. *)
Lemma split_lengths (sep : ascii) (s : string) :
  Forall (fun part => Py.len part <= Py.len s) (Py.split sep s).
Proof.
  induction s as [|c s IH]; simpl.
  - constructor; [lia|constructor].
  - assert (Hmono : Forall (fun part => Py.len part <= Py.len (String c s))
                      (Py.split sep s)).
    { eapply Forall_impl; [exact IH|]. intros part Hp. simpl in Hp.
      rewrite len_cons. lia. }
    destruct (Ascii.eqb c sep).
    + constructor; [|exact Hmono]. pose proof (len_nonneg (String c s)).
      unfold Py.len at 1. simpl. lia.
    + destruct (Py.split sep s) as [|p ps].
      * constructor; [|constructor]. rewrite !len_cons. pose proof (len_nonneg s).
        unfold Py.len at 1. simpl. lia.
      * inversion IH as [|? ? Hp Hps]; subst. inversion Hmono; subst.
        constructor; [|assumption]. rewrite !len_cons. lia.
Qed.

(** The mask that [_split_addr_prefix] hands to [_make_netmask] is within
    every limit the whole text is within. *)
Lemma _split_addr_prefix_within (maxdigits : Z) (v : version) (address addr : string)
    (mask : Z + string) :
  Py.int_over_limit maxdigits (Py.len address) = false ->
  _split_addr_prefix v address = Ok (addr, mask) ->
  match mask with
  | inl _ => True
  | inr s => Py.int_over_limit maxdigits (Py.len s) = false
  end.
Proof.
  intros Hover. unfold _split_addr_prefix.
  pose proof (split_lengths "/" address) as Hlen.
  destruct (2 <? _); [discriminate|].
  destruct (Py.split "/" address) as [|a [|m rest]]; intros [= <- <-]; [exact I|exact I|].
  inversion Hlen as [|? ? _ Hrest]; subst. inversion Hrest as [|? ? Hm _]; subst.
  exact (int_over_limit_shorter _ _ _ Hm Hover).
Qed.

(** ** The caches *)

Lemma limit_cache_set (v : version) (arg : Z + string) (r : Z * Z) (st : Cached.store) :
  Cached.int_max_str_digits (Cached.cache_set v arg r st) = Cached.int_max_str_digits st.
Proof. destruct v; reflexivity. Qed.

Lemma cache_ok_at_set (maxdigits : Z) (v : version) (arg : Z + string) (r : Z * Z)
    (st : Cached.store) :
  Cached.cache_ok_at maxdigits st ->
  _make_netmask_at maxdigits v arg = Ok r ->
  Cached.cache_ok_at maxdigits (Cached.cache_set v arg r st).
Proof.
  intros Hst Hr v' arg' r' H.
  assert (Hsame : v = v' -> arg = arg' -> Some r = Some r'
                  -> _make_netmask_at maxdigits v' arg' = Ok r')
    by (intros <- <- [= <-]; exact Hr).
  destruct v, v'; simpl in H; try (exact (Hst V4 _ _ H)); try (exact (Hst V6 _ _ H));
    (destruct (decide (arg = arg')) as [Heq | Hne];
     [rewrite Heq, lookup_insert_eq in H; apply Hsame; [reflexivity|exact Heq|];
      rewrite <- H; reflexivity
     |rewrite lookup_insert_ne in H by assumption]).
  - exact (Hst V4 _ _ H).
  - exact (Hst V6 _ _ H).
Qed.

(** Caches that agree with some limit are sound. *)
Lemma cache_ok_at_sound (maxdigits : Z) (st : Cached.store) :
  Cached.cache_ok_at maxdigits st -> Cached.cache_sound st.
Proof.
  intros Hst v arg r H. apply (_make_netmask_at_Ok maxdigits), (Hst v arg r H).
Qed.

(** A change of the limit leaves the caches sound. *)
Lemma cache_sound_set_int_max_str_digits (maxdigits : Z) (st : Cached.store) :
  Cached.cache_sound st -> Cached.cache_sound (Cached.set_int_max_str_digits maxdigits st).
Proof.
  intros Hst v arg r H. destruct v; [exact (Hst V4 _ _ H)|exact (Hst V6 _ _ H)].
Qed.

(** The caches left by the import agree with every limit: their keys are
    one to three digits long. *)
Lemma cache_ok_at_import (maxdigits : Z) : Cached.cache_ok (Cached.at_import maxdigits).
Proof.
  assert (Hall : forall v,
            forallb (fun '(arg, (nm, p)) =>
                       match arg with
                       | inl _ => false
                       | inr s =>
                           (Py.len s <=? 640)
                           && match _make_netmask v arg with
                              | Ok (nm', p') => (nm' =? nm) && (p' =? p)
                              | Raise _ => false
                              end
                       end)
              (match v with V4 => Cached.imported_v4 | V6 => Cached.imported_v6 end)
            = true) by (intros []; vm_compute; reflexivity).
  intros v arg [nm p] H.
  assert (Hin : (arg, (nm, p))
                ∈ match v with V4 => Cached.imported_v4 | V6 => Cached.imported_v6 end)
    by (destruct v; apply elem_of_list_to_map_2; exact H).
  specialize (Hall v). rewrite forallb_forall in Hall.
  specialize (Hall _ (proj1 (list_elem_of_In _ _) Hin)). cbv beta iota in Hall.
  destruct arg as [q|s]; [discriminate|].
  apply andb_prop in Hall as [Hlen Hval]. apply Z.leb_le in Hlen.
  cbn [Cached.int_max_str_digits Cached.at_import].
  rewrite _make_netmask_at_within by (apply int_over_limit_short; exact Hlen).
  destruct (_make_netmask v (inr s)) as [[nm' p']|]; [|discriminate].
  apply andb_prop in Hval as [Hnm Hp]. apply Z.eqb_eq in Hnm, Hp. congruence.
Qed.

(** ** Two runs under the same limit *)

Lemma agrees_lift {A : Type} (r : result A) : Cached.agrees (Cached.lift r).
Proof. intros st st' _ Hst _. split; [reflexivity|]. split; [exact Hst|reflexivity]. Qed.

Lemma agrees_bind {A B : Type} (m : Cached.M A) (k : A -> Cached.M B) :
  Cached.agrees m -> (forall a, Cached.agrees (k a)) -> Cached.agrees (m ≫= k).
Proof.
  intros Hm Hk st st' Hlim Hst Hst'.
  destruct (Hm st st' Hlim Hst Hst') as (Hr & Hok & Hl).
  destruct (Hm st' st (eq_sym Hlim) Hst' Hst) as (_ & Hok' & Hl').
  unfold mbind, Cached.M_bind.
  destruct (m st) as [[a|e] st1], (m st') as [[a'|e'] st1']; simpl in *;
    try discriminate.
  - injection Hr as <-.
    destruct (Hk a st1 st1' ltac:(congruence) Hok Hok') as (Hr1 & Hok1 & Hl1).
    split; [exact Hr1|]. split; [exact Hok1|congruence].
  - injection Hr as <-. split; [reflexivity|]. split; [exact Hok|exact Hl].
Qed.

Lemma agrees_try_except {A : Type} (m : Cached.M A) (catches : exception -> bool)
    (h : exception -> Cached.M A) :
  Cached.agrees m -> (forall e, Cached.agrees (h e)) ->
  Cached.agrees (Cached.try_except m catches h).
Proof.
  intros Hm Hh st st' Hlim Hst Hst'.
  destruct (Hm st st' Hlim Hst Hst') as (Hr & Hok & Hl).
  destruct (Hm st' st (eq_sym Hlim) Hst' Hst) as (_ & Hok' & Hl').
  unfold Cached.try_except.
  destruct (m st) as [[a|e] st1], (m st') as [[a'|e'] st1']; simpl in *;
    try discriminate.
  - split; [exact Hr|]. split; [exact Hok|exact Hl].
  - injection Hr as <-. destruct (catches e).
    + destruct (Hh e st1 st1' ltac:(congruence) Hok Hok') as (Hr1 & Hok1 & Hl1).
      split; [exact Hr1|]. split; [exact Hok1|congruence].
    + split; [reflexivity|]. split; [exact Hok|exact Hl].
Qed.

Lemma agrees_mapM {A B : Type} (f : A -> Cached.M B) (xs : list A) :
  (forall x, Cached.agrees (f x)) -> Cached.agrees (Cached.mapM f xs).
Proof.
  intros Hf. induction xs as [|x xs IH]; simpl.
  - apply agrees_lift.
  - apply agrees_bind; [apply Hf|]. intros y.
    apply agrees_bind; [apply IH|]. intros ys. apply agrees_lift.
Qed.

(** A hit returns what a miss computes under the limit in force. *)
Lemma agrees_make_netmask (v : version) (arg : Z + string) :
  Cached.agrees (Cached._make_netmask v arg).
Proof.
  intros st st' Hlim Hst Hst'. unfold Cached._make_netmask.
  assert (Hhit : forall s r, Cached.cache_ok s ->
            Cached.int_max_str_digits s = Cached.int_max_str_digits st ->
            Cached.cache_of v s !! arg = Some r ->
            _make_netmask_at (Cached.int_max_str_digits st) v arg = Ok r).
  { intros s r Hs Hl Hlook. rewrite <- Hl. exact (Hs v arg r Hlook). }
  rewrite <- Hlim.
  destruct (Cached.cache_of v st !! arg) as [hit|] eqn:Hlook,
    (Cached.cache_of v st' !! arg) as [hit'|] eqn:Hlook'; simpl.
  - pose proof (Hhit st hit Hst eq_refl Hlook) as H.
    pose proof (Hhit st' hit' Hst' (eq_sym Hlim) Hlook') as H'.
    split; [congruence|]. split; [exact Hst|reflexivity].
  - rewrite (Hhit st hit Hst eq_refl Hlook). simpl.
    split; [reflexivity|]. split; [exact Hst|reflexivity].
  - rewrite (Hhit st' hit' Hst' (eq_sym Hlim) Hlook'). simpl.
    split; [reflexivity|].
    split; [|apply limit_cache_set].
    unfold Cached.cache_ok. rewrite limit_cache_set.
    apply cache_ok_at_set; [exact Hst|]. exact (Hhit st' hit' Hst' (eq_sym Hlim) Hlook').
  - destruct (_make_netmask_at (Cached.int_max_str_digits st) v arg) as [r|e] eqn:Hr;
      simpl.
    + split; [reflexivity|]. split; [|apply limit_cache_set].
      unfold Cached.cache_ok. rewrite limit_cache_set.
      apply cache_ok_at_set; [exact Hst|exact Hr].
    + split; [reflexivity|]. split; [exact Hst|reflexivity].
Qed.

Lemma agrees_IPv4Network (s : string) : Cached.agrees (Cached.IPv4Network s).
Proof.
  unfold Cached.IPv4Network.
  apply agrees_bind; [apply agrees_lift|]. intros [addr mask].
  apply agrees_bind; [apply agrees_lift|]. intros ip.
  apply agrees_bind; [apply agrees_make_netmask|]. intros [nm p].
  apply agrees_lift.
Qed.

Lemma agrees_IPv6Network (s : string) : Cached.agrees (Cached.IPv6Network s).
Proof.
  unfold Cached.IPv6Network.
  apply agrees_bind; [apply agrees_lift|]. intros [addr mask].
  apply agrees_bind; [apply agrees_lift|]. intros [ip sc].
  apply agrees_bind; [apply agrees_make_netmask|]. intros [nm p].
  apply agrees_lift.
Qed.

Lemma agrees_network_of_pair (v : version) (a : Z * Z) :
  Cached.agrees (Cached.network_of_pair v a).
Proof.
  unfold Cached.network_of_pair. destruct a as [addr mask].
  apply agrees_bind; [apply agrees_lift|]. intros _.
  apply agrees_bind; [apply agrees_make_netmask|]. intros [nm p].
  apply agrees_lift.
Qed.

Lemma agrees_ip_network (s : string) : Cached.agrees (Cached.ip_network s).
Proof.
  unfold Cached.ip_network.
  apply agrees_try_except; [apply agrees_IPv4Network|]. intros _.
  apply agrees_try_except; [apply agrees_IPv6Network|]. intros _.
  apply agrees_lift.
Qed.

Lemma agrees_subnets (n : network) (np : Z) : Cached.agrees (Cached.subnets n np).
Proof.
  unfold Cached.subnets. cbv zeta.
  repeat (match goal with
          | |- Cached.agrees (if ?b then _ else _) => destruct b
          end; [apply agrees_lift|]).
  apply agrees_bind; [apply agrees_lift|]. intros addrs.
  apply agrees_mapM. intros a. apply agrees_network_of_pair.
Qed.

(** Two runs of [compute_subnet_cidrs] under the same limit, each on caches
    that agree with it, return the same result. *)
Lemma agrees_compute_subnet_cidrs (s : string) (z : Z) :
  Cached.agrees (Cached.compute_subnet_cidrs s z).
Proof.
  unfold Cached.compute_subnet_cidrs.
  apply agrees_bind; [apply agrees_ip_network|]. intros n. cbv zeta.
  destruct (max_prefixlen n <? clamped_new_prefix n z); [apply agrees_lift|].
  apply agrees_bind; [apply agrees_subnets|]. intros l.
  apply agrees_lift.
Qed.

(** ** Sound caches: what does not depend on the limit *)

Lemma computes_lift {A : Type} (maxdigits : Z) (r : result A) :
  Cached.computes maxdigits (Cached.lift r) r.
Proof. intros st Hl Hst. split; [reflexivity|]. split; [exact Hst|exact Hl]. Qed.

Lemma computes_bind {A B : Type} (maxdigits : Z) (m : Cached.M A) (r : result A)
    (k : A -> Cached.M B) (k' : A -> result B) :
  Cached.computes maxdigits m r ->
  (forall a, r = Ok a -> Cached.computes maxdigits (k a) (k' a)) ->
  Cached.computes maxdigits (m ≫= k) (r ≫= k').
Proof.
  intros Hm Hk st Hl Hst. destruct (Hm st Hl Hst) as (Hr & Hst' & Hl').
  unfold mbind, Cached.M_bind. destruct (m st) as [[a|e] st']; simpl in *; subst r; simpl.
  - apply (Hk a eq_refl st' Hl' Hst').
  - split; [reflexivity|]. split; [exact Hst'|exact Hl'].
Qed.

Lemma computes_try_except {A : Type} (maxdigits : Z) (m : Cached.M A) (r : result A)
    (catches : exception -> bool)
    (h : exception -> Cached.M A) (h' : exception -> result A) :
  Cached.computes maxdigits m r ->
  (forall e, r = Raise e -> Cached.computes maxdigits (h e) (h' e)) ->
  Cached.computes maxdigits (Cached.try_except m catches h) (try_except r catches h').
Proof.
  intros Hm Hh st Hl Hst. destruct (Hm st Hl Hst) as (Hr & Hst' & Hl').
  unfold Cached.try_except. destruct (m st) as [[a|e] st']; simpl in *; subst r; simpl.
  - split; [reflexivity|]. split; [exact Hst'|exact Hl'].
  - destruct (catches e).
    + apply (Hh e eq_refl st' Hl' Hst').
    + split; [reflexivity|]. split; [exact Hst'|exact Hl'].
Qed.

Lemma computes_mapM {A B : Type} (maxdigits : Z) (f : A -> Cached.M B)
    (f' : A -> result B) (xs : list A) :
  (forall x, Cached.computes maxdigits (f x) (f' x)) ->
  Cached.computes maxdigits (Cached.mapM f xs) (mapM f' xs).
Proof.
  intros Hf. induction xs as [|x xs IH]; simpl.
  - apply computes_lift.
  - apply computes_bind; [apply Hf|]. intros y _.
    apply computes_bind; [apply IH|]. intros ys _. apply computes_lift.
Qed.

(** On a mask on which the limit has no say, a hit and a miss both return
    what [_make_netmask] computes without the limit. *)
Lemma computes_make_netmask (maxdigits : Z) (v : version) (arg : Z + string) :
  match arg with
  | inl _ => True
  | inr s => Py.int_over_limit maxdigits (Py.len s) = false
  end ->
  Cached.computes maxdigits (Cached._make_netmask v arg) (ipaddress._make_netmask v arg).
Proof.
  intros Hin st Hl Hst. unfold Cached._make_netmask.
  destruct (Cached.cache_of v st !! arg) as [hit|] eqn:Hlook; simpl.
  - split; [symmetry; apply (Hst _ _ _ Hlook)|]. split; [exact Hst|exact Hl].
  - rewrite Hl, (_make_netmask_at_within maxdigits v arg Hin).
    destruct (ipaddress._make_netmask v arg) as [r|e] eqn:Hr; simpl.
    + split; [reflexivity|]. split; [|rewrite limit_cache_set; exact Hl].
      apply cache_ok_at_set; [exact Hst|exact Hr].
    + split; [reflexivity|]. split; [exact Hst|exact Hl].
Qed.

Lemma computes_network_of_pair (maxdigits : Z) (v : version) (a : Z * Z) :
  Cached.computes maxdigits (Cached.network_of_pair v a) (ipaddress.network_of_pair v a).
Proof.
  unfold Cached.network_of_pair, ipaddress.network_of_pair. destruct a as [addr mask].
  apply computes_bind; [apply computes_lift|]. intros _ _.
  apply computes_bind; [apply computes_make_netmask; exact I|]. intros [nm p] _.
  apply computes_lift.
Qed.

Lemma computes_subnets (maxdigits : Z) (n : network) (np : Z) :
  Cached.computes maxdigits (Cached.subnets n np) (ipaddress.subnets n np).
Proof.
  unfold Cached.subnets, ipaddress.subnets. cbv zeta.
  repeat (match goal with
          | |- Cached.computes _ (if ?b then _ else _) _ => destruct b
          end; [apply computes_lift|]).
  apply computes_bind; [apply computes_lift|]. intros addrs _.
  apply computes_mapM. intros a. apply computes_network_of_pair.
Qed.

(** The part of [compute_subnet_cidrs] after [ip_network]: no limit has a
    say in it, the masks of the sub-blocks are ints. *)
Lemma computes_after_parse (maxdigits : Z) (n : network) (z : Z) :
  Cached.computes maxdigits
    (let new_prefix := clamped_new_prefix n z in
     if max_prefixlen n <? new_prefix
     then Cached.lift (Raise (ValueError vpc_too_small))
     else
       subnets ← Cached.subnets n new_prefix;
       Cached.lift (foldM (loop_body subnets) (Py.range z) ([], [])))
    (let new_prefix := clamped_new_prefix n z in
     if max_prefixlen n <? new_prefix then Raise (ValueError vpc_too_small)
     else
       subnets ← subnets n new_prefix;
       foldM (loop_body subnets) (Py.range z) ([], [])).
Proof.
  cbv zeta.
  destruct (max_prefixlen n <? clamped_new_prefix n z); [apply computes_lift|].
  apply computes_bind; [apply computes_subnets|]. intros l _.
  apply computes_lift.
Qed.

(** ** Sound caches: what the limit changes *)

(** Under a limit [_make_netmask] returns what it returns without, or
    raises [NetmaskValueError] on a string over the limit. *)
Lemma _make_netmask_at_cases (maxdigits : Z) (v : version) (arg : Z + string) :
  _make_netmask_at maxdigits v arg = _make_netmask v arg
  \/ (_make_netmask_at maxdigits v arg = Raise NetmaskValueError
      /\ exists s, arg = inr s /\ Py.int_over_limit maxdigits (Py.len s) = true).
Proof.
  destruct arg as [p|s]; [left; reflexivity|].
  destruct (Py.int_over_limit maxdigits (Py.len s)) eqn:Hover.
  2:{ left. apply _make_netmask_at_within. exact Hover. }
  unfold _make_netmask, _make_netmask_at.
  change (_prefix_from_prefix_string_at 0) with _prefix_from_prefix_string.
  destruct v.
  - destruct (_prefix_from_prefix_string_at_cases maxdigits V4 s) as [-> | [Hd Hr]];
      [left; reflexivity|].
    right. rewrite Hr. simpl. rewrite (_prefix_from_ip_string_digits s Hd).
    split; [reflexivity|eauto].
  - destruct (_prefix_from_prefix_string_at_cases maxdigits V6 s) as [-> | [Hd Hr]];
      [left; reflexivity|].
    right. rewrite Hr. split; [reflexivity|eauto].
Qed.

Lemma make_netmask_under_limit (v : version) (arg : Z + string) (st : Cached.store) :
  Cached.cache_sound st ->
  Cached.cache_sound (snd (Cached._make_netmask v arg st))
  /\ Cached.int_max_str_digits (snd (Cached._make_netmask v arg st))
     = Cached.int_max_str_digits st
  /\ (fst (Cached._make_netmask v arg st) = _make_netmask v arg
      \/ (fst (Cached._make_netmask v arg st) = Raise NetmaskValueError
          /\ exists s, arg = inr s
               /\ Py.int_over_limit (Cached.int_max_str_digits st) (Py.len s) = true)).
Proof.
  intros Hst. unfold Cached._make_netmask.
  destruct (Cached.cache_of v st !! arg) as [hit|] eqn:Hlook; simpl.
  - split; [exact Hst|]. split; [reflexivity|]. left. symmetry. exact (Hst _ _ _ Hlook).
  - destruct (_make_netmask_at_cases (Cached.int_max_str_digits st) v arg)
      as [Heq | (Hr & Hs)].
    + rewrite Heq. destruct (_make_netmask v arg) as [r|e] eqn:Hr; simpl.
      * split; [apply cache_ok_at_set; [exact Hst|exact Hr]|].
        split; [apply limit_cache_set|left; reflexivity].
      * split; [exact Hst|]. split; [reflexivity|left; reflexivity].
    + rewrite Hr. simpl. split; [exact Hst|]. split; [reflexivity|].
      right. split; [reflexivity|exact Hs].
Qed.

(** A mask over the limit makes the whole text over the limit. *)
Lemma _split_addr_prefix_over (maxdigits : Z) (v : version) (address addr mask : string) :
  _split_addr_prefix v address = Ok (addr, inr mask) ->
  Py.int_over_limit maxdigits (Py.len mask) = true ->
  Py.int_over_limit maxdigits (Py.len address) = true.
Proof.
  intros Hsplit Hover.
  destruct (Py.int_over_limit maxdigits (Py.len address)) eqn:Hall; [reflexivity|].
  pose proof (_split_addr_prefix_within _ _ _ _ _ Hall Hsplit) as H. simpl in H.
  congruence.
Qed.

Lemma run_bind_lift {A B : Type} (r : result A) (k : A -> Cached.M B)
    (st : Cached.store) :
  (Cached.lift r ≫= k) st
  = match r with Ok a => k a st | Raise e => (Raise e, st) end.
Proof. destruct r; reflexivity. Qed.

Lemma run_bind {A B : Type} (m : Cached.M A) (k : A -> Cached.M B) (st : Cached.store) :
  (m ≫= k) st
  = match m st with
    | (Ok a, st') => k a st'
    | (Raise e, st') => (Raise e, st')
    end.
Proof. reflexivity. Qed.

Lemma IPv4Network_under_limit (s : string) (st : Cached.store) :
  Cached.cache_sound st ->
  Cached.cache_sound (snd (Cached.IPv4Network s st))
  /\ Cached.int_max_str_digits (snd (Cached.IPv4Network s st))
     = Cached.int_max_str_digits st
  /\ (fst (Cached.IPv4Network s st) = IPv4Network s
      \/ (fst (Cached.IPv4Network s st) = Raise NetmaskValueError
          /\ Py.int_over_limit (Cached.int_max_str_digits st) (Py.len s) = true
          /\ exists addr mask ip,
               _split_addr_prefix V4 s = Ok (addr, mask) /\ IPv4Address addr = Ok ip)).
Proof.
  intros Hst. unfold Cached.IPv4Network, IPv4Network. rewrite run_bind_lift.
  destruct (_split_addr_prefix V4 s) as [[addr mask]|e] eqn:Hsplit;
    [|split; [exact Hst|]; split; [reflexivity|left; reflexivity]].
  rewrite bind_Ok_l, run_bind_lift.
  destruct (IPv4Address addr) as [ip|e] eqn:Hip;
    [|split; [exact Hst|]; split; [reflexivity|left; reflexivity]].
  rewrite bind_Ok_l, run_bind.
  destruct (make_netmask_under_limit V4 mask st Hst) as (Hs1 & Hl1 & Hr).
  destruct (Cached._make_netmask V4 mask st) as [[[nm p]|e] st1]; simpl in Hs1, Hl1, Hr;
    (split; [exact Hs1|]; split; [exact Hl1|]);
    destruct Hr as [<- | (Hr & mask' & -> & Hover)]; try (left; reflexivity);
    try discriminate.
  right. injection Hr as ->. split; [reflexivity|].
  split; [exact (_split_addr_prefix_over _ _ _ _ _ Hsplit Hover)|eauto].
Qed.

Lemma IPv6Network_under_limit (s : string) (st : Cached.store) :
  Cached.cache_sound st ->
  Cached.cache_sound (snd (Cached.IPv6Network s st))
  /\ Cached.int_max_str_digits (snd (Cached.IPv6Network s st))
     = Cached.int_max_str_digits st
  /\ (fst (Cached.IPv6Network s st) = IPv6Network s
      \/ (fst (Cached.IPv6Network s st) = Raise NetmaskValueError
          /\ Py.int_over_limit (Cached.int_max_str_digits st) (Py.len s) = true)).
Proof.
  intros Hst. unfold Cached.IPv6Network, IPv6Network. rewrite run_bind_lift.
  destruct (_split_addr_prefix V6 s) as [[addr mask]|e] eqn:Hsplit;
    [|split; [exact Hst|]; split; [reflexivity|left; reflexivity]].
  rewrite bind_Ok_l, run_bind_lift.
  destruct (IPv6Address addr) as [[ip sc]|e] eqn:Hip;
    [|split; [exact Hst|]; split; [reflexivity|left; reflexivity]].
  rewrite bind_Ok_l, run_bind.
  destruct (make_netmask_under_limit V6 mask st Hst) as (Hs1 & Hl1 & Hr).
  destruct (Cached._make_netmask V6 mask st) as [[[nm p]|e] st1]; simpl in Hs1, Hl1, Hr;
    (split; [exact Hs1|]; split; [exact Hl1|]);
    destruct Hr as [<- | (Hr & mask' & -> & Hover)]; try (left; reflexivity);
    try discriminate.
  right. injection Hr as ->. split; [reflexivity|].
  exact (_split_addr_prefix_over _ _ _ _ _ Hsplit Hover).
Qed.

(** ** An IPv4 address is no IPv6 address *)

Lemma mapM_Ok_Forall {A B : Type} (f : A -> result B) (xs : list A) (ys : list B) :
  mapM f xs = Ok ys -> Forall (fun x => exists y, f x = Ok y) xs.
Proof.
  revert ys. induction xs as [|x xs IH]; intros ys H; [constructor|].
  simpl in H. apply bind_Ok in H as (y & Hy & H).
  apply bind_Ok in H as (ys' & Hys & _).
  constructor; [eauto|exact (IH _ Hys)].
Qed.

(** A character that is in no part of a split, and is not the separator,
    is not in the string. *)
Lemma contains_split (c sep : ascii) (s : string) :
  c <> sep ->
  Forall (fun part => Py.contains c part = false) (Py.split sep s) ->
  Py.contains c s = false.
Proof.
  intros Hc. induction s as [|d s IH]; simpl; [reflexivity|].
  destruct (Ascii.eqb_spec d sep) as [-> | Hd].
  - intros H. inversion H as [|? ? _ Hrest]; subst.
    rewrite (IH Hrest), orb_false_r.
    destruct (Ascii.eqb_spec sep c); [congruence|reflexivity].
  - destruct (Py.split sep s) as [|p ps].
    + intros H. inversion H as [|? ? Hp _]; subst. simpl in Hp.
      apply orb_false_elim in Hp as [Hdc _]. rewrite Hdc. apply IH. constructor.
    + intros H. inversion H as [|? ? Hp Hrest]; subst. simpl in Hp.
      apply orb_false_elim in Hp as [Hdc Hp']. rewrite Hdc. apply IH.
      constructor; assumption.
Qed.

Lemma _parse_octet_digits (octet_str : string) (k : Z) :
  _parse_octet octet_str = Ok k -> Py.all_chars Py.is_decimal_digit octet_str = true.
Proof.
  unfold _parse_octet. destruct (Py.empty octet_str); [discriminate|].
  destruct (Py.isascii octet_str && Py.isdigit octet_str) eqn:Hd; simpl; [|discriminate].
  intros _. apply andb_prop in Hd as [_ Hd]. unfold Py.isdigit in Hd.
  apply andb_prop in Hd as [_ Hd]. exact Hd.
Qed.

(** The text of an IPv4 address holds digits and dots only. *)
Lemma IPv4Address_chars (addr : string) (ip : Z) (c : ascii) :
  IPv4Address addr = Ok ip ->
  Py.is_decimal_digit c = false -> c <> "."%char ->
  Py.contains c addr = false.
Proof.
  unfold IPv4Address, _ip_int_from_string_v4. intros H Hc Hdot.
  destruct (Py.contains "/" addr); [discriminate|].
  destruct (Py.empty addr); [discriminate|].
  destruct (negb _); [discriminate|].
  apply try_except_Ok in H as [H | (e & _ & _ & H)]; [|discriminate].
  apply bind_Ok in H as (bs & Hbs & _).
  apply (contains_split c "." addr Hdot).
  eapply Forall_impl; [exact (mapM_Ok_Forall _ _ _ Hbs)|].
  intros part [k Hk]. simpl.
  exact (digits_without c part Hc (_parse_octet_digits part k Hk)).
Qed.

Lemma partition_no_sep (sep : ascii) (s : string) :
  Py.contains sep s = false -> Py.partition sep s = (s, EmptyString, EmptyString).
Proof.
  induction s as [|c s IH]; simpl; [reflexivity|].
  intros H. apply orb_false_elim in H as [Hc Hs].
  rewrite Hc, (IH Hs). reflexivity.
Qed.

Lemma IPv4Address_nonempty (addr : string) (ip : Z) :
  IPv4Address addr = Ok ip -> Py.empty addr = false.
Proof.
  unfold IPv4Address, _ip_int_from_string_v4.
  destruct (Py.contains "/" addr); [discriminate|].
  destruct (Py.empty addr); [discriminate|reflexivity].
Qed.

Lemma IPv4Address_not_IPv6Address (addr : string) (ip : Z) :
  IPv4Address addr = Ok ip -> IPv6Address addr = Raise AddressValueError.
Proof.
  intros H. unfold IPv6Address, _split_scope_id.
  destruct (Py.contains "/" addr); [reflexivity|].
  rewrite (partition_no_sep "%" addr)
    by (apply (IPv4Address_chars addr ip); [exact H|reflexivity|discriminate]).
  simpl. unfold _ip_int_from_string_v6.
  rewrite (IPv4Address_nonempty addr ip H).
  rewrite (split_no_sep ":" addr)
    by (apply (IPv4Address_chars addr ip); [exact H|reflexivity|discriminate]).
  reflexivity.
Qed.

(** A text whose address part is an IPv4 address is no IPv6 network. *)
Lemma IPv4Address_not_IPv6Network (s addr : string) (mask : Z + string) (ip : Z) :
  _split_addr_prefix V4 s = Ok (addr, mask) -> IPv4Address addr = Ok ip ->
  IPv6Network s = Raise AddressValueError.
Proof.
  intros Hsplit Hip. unfold IPv6Network.
  assert (H6 : exists mask6, _split_addr_prefix V6 s = Ok (addr, mask6)).
  { revert Hsplit. unfold _split_addr_prefix.
    destruct (2 <? _); [discriminate|].
    destruct (Py.split "/" s) as [|a [|m rest]]; intros [= <- <-]; eauto. }
  destruct H6 as [mask6 ->]. simpl.
  rewrite (IPv4Address_not_IPv6Address addr ip Hip). reflexivity.
Qed.

(** ** [ip_network] and [compute_subnet_cidrs] on sound caches *)

(** Whatever the limit and the history of the caches, [ip_network] returns
    what it returns without limit and caches, or refuses a text over the
    limit as no network. *)
Lemma ip_network_under_limit (s : string) (st : Cached.store) :
  Cached.cache_sound st ->
  Cached.cache_sound (snd (Cached.ip_network s st))
  /\ Cached.int_max_str_digits (snd (Cached.ip_network s st))
     = Cached.int_max_str_digits st
  /\ (fst (Cached.ip_network s st) = ip_network s
      \/ (Py.int_over_limit (Cached.int_max_str_digits st) (Py.len s) = true
          /\ fst (Cached.ip_network s st) = Raise (ValueError not_a_network))).
Proof.
  intros Hst. unfold Cached.ip_network, ip_network, Cached.try_except, Cached.lift.
  destruct (IPv4Network_under_limit s st Hst) as (Hs1 & Hl1 & H4).
  destruct (Cached.IPv4Network s st) as [r4 st1]. simpl in Hs1, Hl1, H4.
  destruct (IPv6Network_under_limit s st1 Hs1) as (Hs2 & Hl2 & H6).
  rewrite Hl1 in Hl2, H6.
  destruct (Cached.IPv6Network s st1) as [r6 st2]. simpl in Hs2, Hl2, H6.
  destruct H4 as [-> | (-> & Hover & addr & mask & ip & Hsplit & Hip)].
  - destruct (IPv4Network s) as [n|e]; simpl;
      [split; [exact Hs1|]; split; [exact Hl1|left; reflexivity]|].
    destruct (catches_address_or_netmask e); simpl;
      [|split; [exact Hs1|]; split; [exact Hl1|left; reflexivity]].
    destruct H6 as [-> | (-> & Hover)].
    + destruct (IPv6Network s) as [n|e']; simpl;
        [split; [exact Hs2|]; split; [exact Hl2|left; reflexivity]|].
      destruct (catches_address_or_netmask e'); simpl;
        split; try exact Hs2; split; try exact Hl2; left; reflexivity.
    + simpl. split; [exact Hs2|]. split; [exact Hl2|]. right. split; [exact Hover|reflexivity].
  - simpl. split; [|split; [|right; split; [exact Hover|]]].
    + destruct r6 as [n|e]; [exact Hs2|]. destruct (catches_address_or_netmask e); exact Hs2.
    + destruct r6 as [n|e]; [exact Hl2|]. destruct (catches_address_or_netmask e); exact Hl2.
    + destruct H6 as [-> | (-> & _)]; [|reflexivity].
      rewrite (IPv4Address_not_IPv6Network s addr mask ip Hsplit Hip). reflexivity.
Qed.

(** Whatever the limit and the history of the caches, a run of
    [compute_subnet_cidrs] returns what the store-free function returns, or
    fails on a text over the limit as on no network; and it leaves the
    limit as it is and the caches sound. *)
Lemma compute_subnet_cidrs_under_limit (s : string) (z : Z) (st : Cached.store) :
  Cached.cache_sound st ->
  Cached.cache_sound (snd (Cached.compute_subnet_cidrs s z st))
  /\ Cached.int_max_str_digits (snd (Cached.compute_subnet_cidrs s z st))
     = Cached.int_max_str_digits st
  /\ (fst (Cached.compute_subnet_cidrs s z st) = compute_subnet_cidrs s z
      \/ (Py.int_over_limit (Cached.int_max_str_digits st) (Py.len s) = true
          /\ fst (Cached.compute_subnet_cidrs s z st) = Raise (ValueError not_a_network))).
Proof.
  intros Hst. unfold Cached.compute_subnet_cidrs, compute_subnet_cidrs.
  rewrite run_bind.
  destruct (ip_network_under_limit s st Hst) as (Hs1 & Hl1 & Hr).
  destruct (Cached.ip_network s st) as [[n|e] st1]; simpl in Hs1, Hl1, Hr.
  - destruct Hr as [<- | (_ & Hr)]; [|discriminate].
    destruct (computes_after_parse (Cached.int_max_str_digits st) n z st1 Hl1 Hs1)
      as (Hres & Hs2 & Hl2).
    split; [exact Hs2|]. split; [exact Hl2|]. left. exact Hres.
  - split; [exact Hs1|]. split; [exact Hl1|].
    destruct Hr as [<- | (Hover & [= ->])]; [left; reflexivity|].
    right. split; [exact Hover|reflexivity].
Qed.

(** C8 as amended.  [compute_subnet_cidrs] reads the interpreter's limit on
    the digits of an int literal and the netmask caches of [ipaddress].
    Two invocations with identical arguments under the same limit, each on
    caches that agree with that limit (as they do from the import on, for
    as long as the limit is not changed), return identical results (the
    same lists, or the same exception), also when the second runs on the
    store the first one left; the first leaves the limit as it is and the
    caches in agreement with it.  And on sound caches (as they are at
    import, after every invocation and after every change of the limit),
    whatever the limit, the result is that of the store-free function of
    the two arguments, except that a [vpc_cidr] text over the limit (so one
    of more than 640 characters) may be refused with the [ValueError] of
    [ip_network] instead. *)
Theorem compute_subnet_cidrs_deterministic
    (vpc_cidr vpc_cidr' : string) (az_count az_count' : Z) (st st' : Cached.store) :
  vpc_cidr = vpc_cidr' -> az_count = az_count' ->
  Cached.int_max_str_digits st = Cached.int_max_str_digits st' ->
  Cached.cache_ok st -> Cached.cache_ok st' ->
  fst (Cached.compute_subnet_cidrs vpc_cidr az_count st)
  = fst (Cached.compute_subnet_cidrs vpc_cidr' az_count' st')
  /\ fst (Cached.compute_subnet_cidrs vpc_cidr' az_count'
            (snd (Cached.compute_subnet_cidrs vpc_cidr az_count st)))
     = fst (Cached.compute_subnet_cidrs vpc_cidr az_count st)
  /\ Cached.cache_ok (snd (Cached.compute_subnet_cidrs vpc_cidr az_count st))
  /\ Cached.int_max_str_digits (snd (Cached.compute_subnet_cidrs vpc_cidr az_count st))
     = Cached.int_max_str_digits st
  /\ (forall any : Cached.store,
        Cached.cache_sound any ->
        Cached.cache_sound (snd (Cached.compute_subnet_cidrs vpc_cidr az_count any))
        /\ (forall maxdigits,
              Cached.cache_sound (Cached.set_int_max_str_digits maxdigits any))
        /\ (fst (Cached.compute_subnet_cidrs vpc_cidr az_count any)
            = compute_subnet_cidrs vpc_cidr az_count
            \/ (Py.int_over_limit (Cached.int_max_str_digits any) (Py.len vpc_cidr) = true
                /\ 640 < Py.len vpc_cidr
                /\ fst (Cached.compute_subnet_cidrs vpc_cidr az_count any)
                   = Raise (ValueError not_a_network)))).
Proof.
  intros <- <- Hlim Hst Hst'.
  destruct (agrees_compute_subnet_cidrs vpc_cidr az_count st st' Hlim Hst Hst')
    as (H1 & Hok & Hl).
  destruct (agrees_compute_subnet_cidrs vpc_cidr az_count
              (snd (Cached.compute_subnet_cidrs vpc_cidr az_count st)) st Hl Hok Hst)
    as (H2 & _ & _).
  split; [exact H1|]. split; [exact H2|]. split; [exact Hok|]. split; [exact Hl|].
  intros any Hany.
  destruct (compute_subnet_cidrs_under_limit vpc_cidr az_count any Hany)
    as (Hs & _ & Hr).
  split; [exact Hs|].
  split; [intros maxdigits; apply cache_sound_set_int_max_str_digits; exact Hany|].
  destruct Hr as [Hr | (Hover & Hr)]; [left; exact Hr|right].
  split; [exact Hover|]. split; [|exact Hr].
  destruct (Z_lt_le_dec 640 (Py.len vpc_cidr)) as [|Hshort]; [assumption|].
  rewrite int_over_limit_short in Hover by exact Hshort. discriminate.
Qed.

Lemma compute_subnet_cidrs_deterministic_witness :
  fst (Cached.compute_subnet_cidrs "10.0.0.0/16" 2 Cached.initial)
  = fst (Cached.compute_subnet_cidrs "10.0.0.0/16" 2
           (snd (Cached.compute_subnet_cidrs "10.0.0.0/24" 1 Cached.initial)))
  /\ fst (Cached.compute_subnet_cidrs "10.0.0.0/16" 2
            (snd (Cached.compute_subnet_cidrs "10.0.0.0/16" 2 Cached.initial)))
     = fst (Cached.compute_subnet_cidrs "10.0.0.0/16" 2 Cached.initial)
  /\ fst (Cached.compute_subnet_cidrs "10.0.0.0/16" 2 Cached.initial)
     = Ok (["10.0.0.0/18"; "10.0.128.0/18"]%string,
           ["10.0.64.0/18"; "10.0.192.0/18"]%string).
Proof.
  destruct (agrees_compute_subnet_cidrs "10.0.0.0/24" 1 Cached.initial Cached.initial
              eq_refl (cache_ok_at_import 4300) (cache_ok_at_import 4300))
    as (_ & Hok & Hl).
  destruct (compute_subnet_cidrs_deterministic "10.0.0.0/16" "10.0.0.0/16" 2 2
              Cached.initial (snd (Cached.compute_subnet_cidrs "10.0.0.0/24" 1 Cached.initial)))
    as (H1 & H2 & _ & _ & H3).
  - reflexivity.
  - reflexivity.
  - symmetry. exact Hl.
  - apply (cache_ok_at_import 4300).
  - exact Hok.
  - split; [exact H1|]. split; [exact H2|].
    destruct (H3 Cached.initial) as (_ & _ & [H4 | (Hover & _)]).
    + apply (cache_ok_at_sound 4300), (cache_ok_at_import 4300).
    + rewrite H4. vm_compute. reflexivity.
    + vm_compute in Hover. discriminate.
Defined.

(** C8 as stated fails: the result depends on the interpreter's state.
    For the text ['10.0.0.0/' + '0' * 4299 + '16'], whose prefix has 4301
    digits, a run from the import-time store fails under the default limit
    of 4300 digits and returns a plan with the limit switched off; and
    under the default limit the same call returns that plan once an
    earlier call with the limit switched off has left the prefix in the
    cache. *)
Lemma result_depends_on_digit_limit :
  let vpc_cidr := ("10.0.0.0/" ++ Py.mul "0" 4299 ++ "16")%string in
  let plan := Ok (["10.0.0.0/17"]%string, ["10.0.128.0/17"]%string) in
  let unlimited := Cached.set_int_max_str_digits 0 Cached.initial in
  fst (Cached.compute_subnet_cidrs vpc_cidr 1 Cached.initial)
  = Raise (ValueError not_a_network)
  /\ fst (Cached.compute_subnet_cidrs vpc_cidr 1 unlimited) = plan
  /\ fst (Cached.compute_subnet_cidrs vpc_cidr 1
            (Cached.set_int_max_str_digits 4300
               (snd (Cached.compute_subnet_cidrs vpc_cidr 1 unlimited))))
     = plan.
Proof. cbv zeta. repeat split; vm_compute; reflexivity. Qed.

End InterpreterState.

(* ===================================================================== *)
(** * The properties of [compute_subnet_cidrs]                             *)
(* ===================================================================== *)

Section ExtraBitsProperty.

Lemma is_extraBits_unique (t e e' : Z) :
  is_extraBits t e -> is_extraBits t e' -> e = e'.
Proof.
  intros (H0 & Hle & Hmin) (H0' & Hle' & Hmin').
  pose proof (Hmin e' H0' Hle'). pose proof (Hmin' e H0 Hle). lia.
Qed.

(** The function [spec_extraBits] meets the spec's description of
    extraBits. *)
Lemma spec_extraBits_is_extraBits (totalSubnets : Z) :
  1 <= totalSubnets -> is_extraBits totalSubnets (spec_extraBits totalSubnets).
Proof.
  intros Ht. unfold spec_extraBits, is_extraBits.
  split; [apply Z.log2_up_nonneg|].
  destruct (Z.eq_dec totalSubnets 1) as [-> | Hne].
  - change (Z.log2_up 1) with 0. split; [simpl; lia|]. intros e' He' _. exact He'.
  - pose proof (Z.log2_up_spec totalSubnets ltac:(lia)) as [Hlo Hhi].
    split; [exact Hhi|]. intros e' He' Hle.
    destruct (Z_le_gt_dec (Z.log2_up totalSubnets) e') as [|Hgt]; [assumption|exfalso].
    assert (2 ^ e' <= 2 ^ Z.pred (Z.log2_up totalSubnets))
      by (apply Z.pow_le_mono_r; lia).
    lia.
Qed.

(** The code's extra bits are the spec's, as functions of totalSubnets. *)
Lemma bit_length_spec_extraBits (totalSubnets : Z) :
  1 <= totalSubnets -> Py.bit_length (totalSubnets - 1) = spec_extraBits totalSubnets.
Proof.
  intros Ht. apply (is_extraBits_unique totalSubnets).
  - apply bit_length_is_extraBits. exact Ht.
  - apply spec_extraBits_is_extraBits. exact Ht.
Qed.

(** C5. For every zoneCount >= 1, with totalSubnets = 2 * zoneCount, the
    code's [(total_subnets - 1).bit_length()] is the spec's extraBits: the
    smallest [e >= 0] with [2^e >= totalSubnets], equal to every [e] that
    meets that description and to [ceil(log2(totalSubnets))].  The lines
    of [compute_subnet_cidrs] that use it compute the spec's newPrefix (the
    base's prefix length plus extraBits, clamped to 28) for every base, and
    a run on a base that parses enumerates the base at that prefix length.
    For totalSubnets = 1 the same expression gives 0, as the spec's
    extraBits does. *)
Theorem bit_length_refines_extraBits (net : network) (zoneCount : Z) :
  1 <= zoneCount ->
  let totalSubnets := zoneCount * 2 in
  is_extraBits totalSubnets (Py.bit_length (totalSubnets - 1))
  /\ (forall e, is_extraBits totalSubnets e -> Py.bit_length (totalSubnets - 1) = e)
  /\ Py.bit_length (totalSubnets - 1) = spec_extraBits totalSubnets
  /\ clamped_new_prefix net zoneCount = spec_newPrefix (prefixlen net) zoneCount
  /\ (forall e, is_extraBits totalSubnets e ->
        clamped_new_prefix net zoneCount
        = if 28 <? prefixlen net + e then 28 else prefixlen net + e)
  /\ (forall vpc_cidr, ip_network vpc_cidr = Ok net ->
        compute_subnet_cidrs vpc_cidr zoneCount
        = (subnets ← subnets net (spec_newPrefix (prefixlen net) zoneCount);
           foldM (loop_body subnets) (Py.range zoneCount) ([], [])))
  /\ is_extraBits 1 (Py.bit_length (1 - 1))
  /\ Py.bit_length (1 - 1) = 0
  /\ spec_extraBits 1 = 0.
Proof.
  intros Hz totalSubnets.
  assert (Ht : 1 <= totalSubnets) by (unfold totalSubnets; lia).
  assert (H : is_extraBits totalSubnets (Py.bit_length (totalSubnets - 1)))
    by (apply bit_length_is_extraBits; exact Ht).
  assert (Hnew : clamped_new_prefix net zoneCount
                 = spec_newPrefix (prefixlen net) zoneCount).
  { unfold clamped_new_prefix, spec_newPrefix. cbv zeta.
    rewrite (bit_length_spec_extraBits (zoneCount * 2) Ht). reflexivity. }
  split; [exact H|]. split; [|split; [|split; [|split; [|split]]]].
  - intros e He. exact (is_extraBits_unique _ _ _ H He).
  - apply bit_length_spec_extraBits. exact Ht.
  - exact Hnew.
  - intros e He. rewrite <- (is_extraBits_unique _ _ _ H He). reflexivity.
  - intros vpc_cidr Hparse.
    rewrite (compute_subnet_cidrs_unfold _ _ _ Hparse), Hnew. reflexivity.
  - split; [apply bit_length_is_extraBits; lia|]. split; reflexivity.
Qed.

Lemma bit_length_refines_extraBits_witness :
  let net := Network V4 167772160 None 4294901760 16 in
  1 <= 3
  /\ is_extraBits (3 * 2) (Py.bit_length (3 * 2 - 1))
  /\ (forall e, is_extraBits (3 * 2) e -> Py.bit_length (3 * 2 - 1) = e)
  /\ Py.bit_length (3 * 2 - 1) = spec_extraBits (3 * 2)
  /\ clamped_new_prefix net 3 = spec_newPrefix (prefixlen net) 3
  /\ (forall e, is_extraBits (3 * 2) e ->
        clamped_new_prefix net 3
        = if 28 <? prefixlen net + e then 28 else prefixlen net + e)
  /\ (forall vpc_cidr, ip_network vpc_cidr = Ok net ->
        compute_subnet_cidrs vpc_cidr 3
        = (subnets ← subnets net (spec_newPrefix (prefixlen net) 3);
           foldM (loop_body subnets) (Py.range 3) ([], [])))
  /\ is_extraBits 1 (Py.bit_length (1 - 1))
  /\ Py.bit_length (1 - 1) = 0
  /\ spec_extraBits 1 = 0.
Proof.
  intros net. split; [lia|]. apply (bit_length_refines_extraBits net 3). lia.
Defined.

End ExtraBitsProperty.

Section PlannerProperties.

(** The base [10.0.0.0/16] as [ip_network] builds it. *)
Example ip_network_10_0_0_0_16 :
  ip_network "10.0.0.0/16" = Ok (Network V4 167772160 None 4294901760 16).
Proof. vm_compute. reflexivity. Qed.

(** C1. For every IPv4 base block and every zoneCount >= 1 on which
    [compute_subnet_cidrs] returns, the returned texts are those of the
    blocks at indices [2*i] (public) and [2*i + 1] (private) of the
    enumeration; these blocks, public and private together, are pairwise
    disjoint, each is a sub-block of the base, and each has the clamped
    new prefix as its prefix length.  Each block is well formed and is the
    network [ip_network] reads from its returned text. *)
Theorem returned_blocks_disjoint_sub_blocks
    (vpc_cidr : string) (az_count : Z) (base : network)
    (public_cidrs private_cidrs : list string) :
  ip_network vpc_cidr = Ok base -> net_version base = V4 -> 1 <= az_count ->
  compute_subnet_cidrs vpc_cidr az_count = Ok (public_cidrs, private_cidrs) ->
  let newPrefix := clamped_new_prefix base az_count in
  let blocks := public_blocks base newPrefix az_count
                  ++ private_blocks base newPrefix az_count in
  public_cidrs = str <$> public_blocks base newPrefix az_count
  /\ private_cidrs = str <$> private_blocks base newPrefix az_count
  /\ pairwise_disjoint blocks
  /\ Forall (fun b => subnet_of b base) blocks
  /\ Forall (fun b => prefixlen b = newPrefix) blocks
  /\ Forall (fun b => well_formed b /\ ip_network (str b) = Ok b) blocks.
Proof.
  intros Hparse Hv Hz Hrun newPrefix blocks.
  pose proof (ip_network_well_formed _ _ Hparse) as Hwf.
  destruct (compute_subnet_cidrs_success _ _ _ _ Hparse Hz Hrun) as (Hlt & Hle & Hroom).
  rewrite (compute_subnet_cidrs_plan _ _ _ Hparse Hlt Hle Hroom) in Hrun.
  injection Hrun as <- <-. fold newPrefix in Hle, Hroom |- *.
  pose proof (fit_check_false base az_count) as Hfit. apply Z.ltb_ge in Hfit.
  fold newPrefix in Hfit.
  assert (Hnp : prefixlen base <= newPrefix <= max_prefixlen base) by lia.
  assert (Hblock : forall j b, blocks !! j = Some b ->
            exists k, 0 <= k < 2 ^ (newPrefix - prefixlen base)
                      /\ b = sub_block base newPrefix k
                      /\ (Z.of_nat j < az_count /\ k = Z.of_nat j * 2
                          \/ az_count <= Z.of_nat j
                             /\ k = (Z.of_nat j - az_count) * 2 + 1)).
  { intros j b Hj. apply lookup_planned_blocks in Hj as (k & Hk & -> & Hpos).
    exists k. split; [|split; [reflexivity|exact Hpos]].
    lia. }
  split; [reflexivity|]. split; [reflexivity|]. split; [|split; [|split]].
  - intros i j b b' Hi Hj Hne.
    apply Hblock in Hi as (k & Hk & -> & Hki).
    apply Hblock in Hj as (k' & Hk' & -> & Hkj).
    apply sub_block_disjoint; try assumption. lia.
  - apply Forall_lookup. intros j b Hj.
    apply Hblock in Hj as (k & Hk & -> & _).
    apply sub_block_subnet_of; assumption.
  - apply Forall_lookup. intros j b Hj.
    apply Hblock in Hj as (k & Hk & -> & _). reflexivity.
  - apply Forall_lookup. intros j b Hj.
    apply Hblock in Hj as (k & Hk & -> & _).
    assert (Hb : well_formed (sub_block base newPrefix k))
      by (apply sub_block_well_formed; assumption).
    split; [exact Hb|apply sub_block_reads_back; assumption].
Qed.

Lemma returned_blocks_disjoint_sub_blocks_witness :
  let base := Network V4 167772160 None 4294901760 16 in
  let blocks := public_blocks base 18 2 ++ private_blocks base 18 2 in
  compute_subnet_cidrs "10.0.0.0/16" 2
    = Ok (["10.0.0.0/18"; "10.0.128.0/18"]%string,
          ["10.0.64.0/18"; "10.0.192.0/18"]%string)
  /\ pairwise_disjoint blocks
  /\ Forall (fun b => subnet_of b base) blocks
  /\ Forall (fun b => prefixlen b = 18) blocks.
Proof.
  intros base blocks.
  split; [vm_compute; reflexivity|].
  destruct (returned_blocks_disjoint_sub_blocks "10.0.0.0/16" 2 base
              ["10.0.0.0/18"; "10.0.128.0/18"]%string
              ["10.0.64.0/18"; "10.0.192.0/18"]%string)
    as (_ & _ & Hd & Hs & Hp & _).
  - vm_compute. reflexivity.
  - reflexivity.
  - lia.
  - vm_compute. reflexivity.
  - repeat split; assumption.
Defined.

(** C7 as amended. On every input on which [compute_subnet_cidrs] returns,
    both lists have length [max(0, zoneCount)]: [zoneCount] when it is not
    negative, and 0 for a negative [zoneCount], which the code accepts. *)
Theorem returned_lists_length
    (vpc_cidr : string) (az_count : Z) (public_cidrs private_cidrs : list string) :
  compute_subnet_cidrs vpc_cidr az_count = Ok (public_cidrs, private_cidrs) ->
  Py.llen public_cidrs = Z.max 0 az_count
  /\ Py.llen private_cidrs = Z.max 0 az_count.
Proof.
  intros Hrun. apply compute_subnet_cidrs_Ok in Hrun as (n & l & _ & _ & Hloop).
  apply loop_lengths in Hloop as [Hp Hq]. rewrite length_range in Hp, Hq.
  unfold Py.llen. rewrite Hp, Hq. simpl. lia.
Qed.

Lemma returned_lists_length_witness :
  compute_subnet_cidrs "10.0.0.0/16" 2
    = Ok (["10.0.0.0/18"; "10.0.128.0/18"]%string,
          ["10.0.64.0/18"; "10.0.192.0/18"]%string)
  /\ Py.llen ["10.0.0.0/18"; "10.0.128.0/18"]%string = Z.max 0 2
  /\ Py.llen ["10.0.64.0/18"; "10.0.192.0/18"]%string = Z.max 0 2.
Proof.
  split; [vm_compute; reflexivity|].
  apply (returned_lists_length "10.0.0.0/16" 2). vm_compute. reflexivity.
Defined.

(** C7 as stated fails for a negative zone count: the run returns two empty
    lists, whose length is not the zone count. *)
Lemma returned_lists_length_negative_count :
  compute_subnet_cidrs "10.0.0.0/16" (-1) = Ok ([], [])
  /\ Py.llen (@nil string) <> -1.
Proof. split; [vm_compute; reflexivity|discriminate]. Qed.

(** C2. When the enumeration at the clamped prefix holds fewer than
    [2 * zoneCount] blocks, the run ends in [IndexError] at the first index
    out of range: not a [ValueError], and so none of the typed failures. *)
Theorem capacity_shortfall_raises_IndexError
    (vpc_cidr : string) (az_count : Z) (base : network) (subnets_ : list network) :
  ip_network vpc_cidr = Ok base -> net_version base = V4 -> 1 <= az_count ->
  subnets base (clamped_new_prefix base az_count) = Ok subnets_ ->
  Py.llen subnets_ < az_count * 2 ->
  compute_subnet_cidrs vpc_cidr az_count = Raise IndexError
  /\ is_ValueError IndexError = false
  /\ failure_of IndexError <> Some BlockTooSmall.
Proof.
  intros Hparse _ Hz Hsub Hfew.
  rewrite (compute_subnet_cidrs_unfold _ _ _ Hparse), Hsub. simpl.
  rewrite loop_too_few by assumption.
  repeat split. discriminate.
Qed.

Lemma capacity_shortfall_raises_IndexError_witness :
  let base := Network V4 167772160 None 4294967040 24 in
  ip_network "10.0.0.0/24" = Ok base
  /\ clamped_new_prefix base 64 = 28
  /\ subnets base 28 = Ok (sub_block base 28 <$> seqZ 0 16)
  /\ compute_subnet_cidrs "10.0.0.0/24" 64 = Raise IndexError.
Proof.
  intros base.
  split; [vm_compute; reflexivity|].
  split; [vm_compute; reflexivity|].
  split; [vm_compute; reflexivity|].
  apply (capacity_shortfall_raises_IndexError "10.0.0.0/24" 64 base
           (sub_block base 28 <$> seqZ 0 16)).
  - vm_compute. reflexivity.
  - reflexivity.
  - lia.
  - vm_compute. reflexivity.
  - vm_compute. reflexivity.
Defined.

(** C3 as amended. For every zoneCount <= 0 and every IPv4 base block,
    [compute_subnet_cidrs] checks nothing about the zone count: it returns
    the empty plan when the base has prefix length at most 28 or exactly
    32, and fails with the enumeration's [ValueError] ('new prefix must be
    longer') when the prefix length is 29, 30 or 31. *)
Theorem nonpositive_zone_count
    (vpc_cidr : string) (az_count : Z) (base : network) :
  ip_network vpc_cidr = Ok base -> net_version base = V4 -> az_count <= 0 ->
  (prefixlen base <= 28 \/ prefixlen base = 32 ->
   compute_subnet_cidrs vpc_cidr az_count = Ok ([], []))
  /\ (29 <= prefixlen base <= 31 ->
      compute_subnet_cidrs vpc_cidr az_count
      = Raise (ValueError new_prefix_must_be_longer)).
Proof.
  intros Hparse Hv Hz.
  pose proof (ip_network_well_formed _ _ Hparse) as Hwf.
  assert (Hmax : max_prefixlen base = 32) by (unfold max_prefixlen; rewrite Hv; reflexivity).
  rewrite (compute_subnet_cidrs_unfold _ _ _ Hparse).
  split.
  - intros [Hp | Hp].
    + rewrite (subnets_Ok base Hwf).
      * simpl. apply loop_no_zone. assumption.
      * pose proof (clamped_new_prefix_ge base az_count Hp).
        pose proof (clamped_new_prefix_le_28 base az_count). lia.
      * lia.
    + rewrite subnets_of_host_block by lia. simpl. apply loop_no_zone. assumption.
  - intros Hp.
    rewrite subnets_shorter_prefix; [reflexivity|lia|].
    rewrite clamped_new_prefix_long_base; lia.
Qed.

Lemma nonpositive_zone_count_witness :
  ip_network "10.0.0.0/16" = Ok (Network V4 167772160 None 4294901760 16)
  /\ compute_subnet_cidrs "10.0.0.0/16" (-2) = Ok ([], []).
Proof.
  split; [vm_compute; reflexivity|].
  apply (nonpositive_zone_count "10.0.0.0/16" (-2)
           (Network V4 167772160 None 4294901760 16)).
  - vm_compute. reflexivity.
  - reflexivity.
  - lia.
  - left. simpl. lia.
Defined.

(** C3 as stated fails at zoneCount = 0: the run returns the empty plan
    instead of failing. *)
Lemma zero_zone_count_returns :
  compute_subnet_cidrs "10.0.0.0/16" 0 = Ok ([], []).
Proof. vm_compute. reflexivity. Qed.

(** C4. For base 10.0.0.0/16 and zoneCount 2 the new prefix is 18 without
    the clamp, the enumeration is the four /18 blocks in address order,
    and zone [i] receives those at indices [2*i] and [2*i + 1]. *)
Theorem example_10_0_0_0_16_two_zones :
  let base := Network V4 167772160 None 4294901760 16 in
  ip_network "10.0.0.0/16" = Ok base
  /\ prefixlen base + Py.bit_length (2 * 2 - 1) = 18
  /\ clamped_new_prefix base 2 = 18
  /\ str <$> (sub_block base 18 <$> seqZ 0 4)
     = ["10.0.0.0/18"; "10.0.64.0/18"; "10.0.128.0/18"; "10.0.192.0/18"]%string
  /\ subnets base 18 = Ok (sub_block base 18 <$> seqZ 0 4)
  /\ compute_subnet_cidrs "10.0.0.0/16" 2
     = Ok (["10.0.0.0/18"; "10.0.128.0/18"]%string,
           ["10.0.64.0/18"; "10.0.192.0/18"]%string)
  /\ compute_subnet_cidrs "10.0.0.0/16" 2
     = Ok ((fun i => str (sub_block base 18 (i * 2))) <$> [0; 1],
           (fun i => str (sub_block base 18 (i * 2 + 1))) <$> [0; 1]).
Proof. intros base. repeat split; vm_compute; reflexivity. Qed.

(** C9. For every IPv4 input the fit check is dead code: at that point
    the clamp has made [new_prefix <= 28 < 32 = max_prefixlen], the guard
    is false, and the run never raises its error. *)
Theorem fit_check_unreachable
    (vpc_cidr : string) (az_count : Z) (net : network) :
  ip_network vpc_cidr = Ok net -> net_version net = V4 ->
  clamped_new_prefix net az_count <= 28
  /\ max_prefixlen net = 32
  /\ (max_prefixlen net <? clamped_new_prefix net az_count) = false
  /\ compute_subnet_cidrs vpc_cidr az_count <> Raise (ValueError vpc_too_small).
Proof.
  intros Hparse Hv.
  split; [apply clamped_new_prefix_le_28|].
  split; [unfold max_prefixlen; rewrite Hv; reflexivity|].
  split; [apply fit_check_false|apply vpc_too_small_never_raised].
Qed.

Lemma fit_check_unreachable_witness :
  let net := Network V4 167772160 None 4294967040 24 in
  ip_network "10.0.0.0/24" = Ok net
  /\ clamped_new_prefix net 64 <= 28
  /\ compute_subnet_cidrs "10.0.0.0/24" 64 <> Raise (ValueError vpc_too_small).
Proof.
  intros net. split; [vm_compute; reflexivity|].
  destruct (fit_check_unreachable "10.0.0.0/24" 64 net) as (H1 & _ & _ & H2).
  - vm_compute. reflexivity.
  - reflexivity.
  - split; assumption.
Defined.

(** C10 as amended. For every IPv4 base block with prefix length in
    [29, 32] and every zoneCount >= 1, the clamp sets the new prefix to 28
    and the run never returns: for prefix lengths 29 to 31 the enumeration
    rejects the shorter new prefix with its [ValueError]; for prefix length
    32 the enumeration yields the base block alone and the run ends in
    [IndexError] at index 1. *)
Theorem long_prefix_base_never_returns
    (vpc_cidr : string) (az_count : Z) (base : network) :
  ip_network vpc_cidr = Ok base -> net_version base = V4 ->
  29 <= prefixlen base <= 32 -> 1 <= az_count ->
  clamped_new_prefix base az_count = 28
  /\ is_Ok (compute_subnet_cidrs vpc_cidr az_count) = false
  /\ (prefixlen base <= 31 ->
      subnets base 28 = Raise (ValueError new_prefix_must_be_longer)
      /\ compute_subnet_cidrs vpc_cidr az_count
         = Raise (ValueError new_prefix_must_be_longer))
  /\ (prefixlen base = 32 ->
      subnets base 28 = Ok [base]
      /\ compute_subnet_cidrs vpc_cidr az_count = Raise IndexError).
Proof.
  intros Hparse Hv Hp Hz.
  assert (Hmax : max_prefixlen base = 32) by (unfold max_prefixlen; rewrite Hv; reflexivity).
  assert (Hc : clamped_new_prefix base az_count = 28)
    by (apply clamped_new_prefix_long_base; lia).
  rewrite (compute_subnet_cidrs_unfold _ _ _ Hparse), Hc.
  assert (Hshort : prefixlen base <= 31 ->
            subnets base 28 = Raise (ValueError new_prefix_must_be_longer))
    by (intros; apply subnets_shorter_prefix; lia).
  assert (Hhost : prefixlen base = 32 -> subnets base 28 = Ok [base])
    by (intros; apply subnets_of_host_block; lia).
  assert (Hidx : foldM (loop_body [base]) (Py.range az_count) ([], []) = Raise IndexError)
    by (apply loop_too_few; [assumption|unfold Py.llen; simpl; lia]).
  split; [reflexivity|]. split; [|split].
  - destruct (Z_le_gt_dec (prefixlen base) 31) as [H31|H31].
    + rewrite Hshort by assumption. reflexivity.
    + rewrite Hhost by lia. simpl. rewrite Hidx. reflexivity.
  - intros H31. rewrite Hshort by assumption. split; reflexivity.
  - intros H32. rewrite Hhost by assumption. simpl. rewrite Hidx. split; reflexivity.
Qed.

Lemma long_prefix_base_never_returns_witness :
  let base := Network V4 167772160 None 4294967292 30 in
  ip_network "10.0.0.0/30" = Ok base
  /\ clamped_new_prefix base 1 = 28
  /\ is_Ok (compute_subnet_cidrs "10.0.0.0/30" 1) = false.
Proof.
  intros base. split; [vm_compute; reflexivity|].
  destruct (long_prefix_base_never_returns "10.0.0.0/30" 1 base) as (H1 & H2 & _).
  - vm_compute. reflexivity.
  - reflexivity.
  - simpl. lia.
  - lia.
  - split; assumption.
Defined.

(** C10 as stated fails at prefix length 32: the enumeration does not
    reject the new prefix 28, it yields the base block itself, and the
    error of the run is the [IndexError] of the loop, not the enumeration's
    [ValueError]. *)
Lemma host_block_enumeration_not_rejected :
  let base := Network V4 167772160 None 4294967295 32 in
  ip_network "10.0.0.0/32" = Ok base
  /\ net_version base = V4
  /\ 29 <= prefixlen base <= 32
  /\ clamped_new_prefix base 1 = 28
  /\ subnets base 28 = Ok [base]
  /\ subnets base 28 <> Raise (ValueError new_prefix_must_be_longer)
  /\ compute_subnet_cidrs "10.0.0.0/32" 1 = Raise IndexError.
Proof.
  intros base. repeat split; try (vm_compute; reflexivity); try discriminate.
Qed.

(** C6 as amended. For every zoneCount: an input that [ip_network] rejects
    makes [compute_subnet_cidrs] fail with that [ValueError], one of 'does
    not appear to be an IPv4 or IPv6 network' and 'has host bits set', the
    spec's InvalidAddressBlock.  That is the case of every input that
    parses neither as an IPv4 nor as an IPv6 network, and of every input
    whose IPv4 address and mask parse while the address has host bits set.
    An input that parses as an IPv6 network is accepted. *)
Theorem rejected_base_fails (vpc_cidr : string) (az_count : Z) :
  (forall e, ip_network vpc_cidr = Raise e ->
     compute_subnet_cidrs vpc_cidr az_count = Raise e
     /\ (e = ValueError not_a_network \/ e = ValueError host_bits_set)
     /\ failure_of e = Some InvalidAddressBlock)
  /\ (is_Ok (IPv4Network vpc_cidr) = false ->
      is_Ok (IPv6Network vpc_cidr) = false ->
      exists e, compute_subnet_cidrs vpc_cidr az_count = Raise e
                /\ failure_of e = Some InvalidAddressBlock)
  /\ (forall addr mask ip nm p,
        _split_addr_prefix V4 vpc_cidr = Ok (addr, mask) ->
        IPv4Address addr = Ok ip ->
        _make_netmask V4 mask = Ok (nm, p) ->
        Z.land ip nm <> ip ->
        compute_subnet_cidrs vpc_cidr az_count = Raise (ValueError host_bits_set)).
Proof.
  assert (Hrej : forall e, ip_network vpc_cidr = Raise e ->
            compute_subnet_cidrs vpc_cidr az_count = Raise e
            /\ (e = ValueError not_a_network \/ e = ValueError host_bits_set)
            /\ failure_of e = Some InvalidAddressBlock).
  { intros e He. split; [apply compute_subnet_cidrs_parse_error; exact He|].
    pose proof (ip_network_raises vpc_cidr e He) as Hk.
    split; [exact Hk|]. destruct Hk as [-> | ->]; reflexivity. }
  split; [exact Hrej|]. split.
  - intros H4 H6.
    destruct (ip_network vpc_cidr) as [n|e] eqn:Hparse.
    + apply ip_network_Ok in Hparse as [[[H _] | [H _]] _].
      * rewrite H in H4. discriminate.
      * rewrite H in H6. discriminate.
    + exists e. destruct (Hrej e eq_refl) as (H1 & _ & H3). split; assumption.
  - intros addr mask ip nm p Hsplit Haddr Hmask Hbits.
    apply compute_subnet_cidrs_parse_error.
    unfold ip_network, IPv4Network. rewrite Hsplit. simpl. rewrite Haddr. simpl.
    rewrite Hmask. simpl. unfold finish_network.
    destruct (Z.eqb_spec (Z.land ip nm) ip); [contradiction|]. reflexivity.
Qed.

Lemma rejected_base_fails_witness :
  ip_network "10.0.0.0/33" = Raise (ValueError not_a_network)
  /\ compute_subnet_cidrs "10.0.0.0/33" 2 = Raise (ValueError not_a_network)
  /\ failure_of (ValueError not_a_network) = Some InvalidAddressBlock
  /\ Z.land 167772161 4294901760 <> 167772161
  /\ compute_subnet_cidrs "10.0.0.1/16" 2 = Raise (ValueError host_bits_set).
Proof.
  split; [vm_compute; reflexivity|].
  destruct (rejected_base_fails "10.0.0.0/33" 2) as (Hrej & _ & _).
  destruct (Hrej (ValueError not_a_network)) as (H1 & _ & H3);
    [vm_compute; reflexivity|].
  split; [exact H1|]. split; [exact H3|].
  split; [vm_compute; discriminate|].
  destruct (rejected_base_fails "10.0.0.1/16" 2) as (_ & _ & Hbits).
  apply (Hbits "10.0.0.1"%string (inr "16"%string) 167772161 4294901760 16).
  - vm_compute. reflexivity.
  - vm_compute. reflexivity.
  - vm_compute. reflexivity.
  - vm_compute. discriminate.
Defined.

(** C6 as stated fails for an IPv6 base: [fd00::/8] does not parse as an
    IPv4 network, and the run returns a plan of IPv6 blocks. *)
Lemma ipv6_base_produces_plan :
  IPv4Network "fd00::/8" = Raise AddressValueError
  /\ compute_subnet_cidrs "fd00::/8" 2
     = Ok (["fd00::/10"; "fd80::/10"]%string, ["fd40::/10"; "fdc0::/10"]%string).
Proof. split; vm_compute; reflexivity. Qed.

(** The inputs C6 names: a malformed text and an address with host bits
    set both fail, each with its [ValueError]. *)
Example rejected_base_examples :
  compute_subnet_cidrs "10.0.0.1/16" 2 = Raise (ValueError host_bits_set)
  /\ compute_subnet_cidrs "not-a-cidr" 2 = Raise (ValueError not_a_network)
  /\ compute_subnet_cidrs "10.0.0.0/33" 2 = Raise (ValueError not_a_network).
Proof. repeat split; vm_compute; reflexivity. Qed.

End PlannerProperties.

(* ===================================================================== *)
(** * Which inputs succeed, and how the others fail                       *)
(* ===================================================================== *)

Section Acceptance.

Lemma bit_length_le_iff (k e : Z) :
  0 <= k -> 0 <= e -> (Py.bit_length k <= e <-> k < 2 ^ e).
Proof.
  intros Hk He. destruct (Z.eq_dec k 0) as [-> | Hne].
  - simpl. pose proof (pow2_pos e He). lia.
  - pose proof (bit_length_bounds k ltac:(lia)) as [Hlo Hhi].
    pose proof (bit_length_nonneg k) as Hnn. split; intros H.
    + assert (2 ^ Py.bit_length k <= 2 ^ e) by (apply Z.pow_le_mono_r; lia). lia.
    + destruct (Z_le_gt_dec (Py.bit_length k) e) as [|Hgt]; [assumption|exfalso].
      assert (2 ^ e <= 2 ^ (Py.bit_length k - 1)) by (apply Z.pow_le_mono_r; lia). lia.
Qed.

(** For at least one zone, the unclamped new prefix stays within /28
    exactly when the base is a /27 or shorter and the zone count is at
    most [2^(27 - prefixlen)]. *)
Lemma unclamped_iff_zones_fit (p z : Z) :
  0 <= p -> 1 <= z ->
  (p + Py.bit_length (z * 2 - 1) <= 28 <-> p <= 27 /\ z <= 2 ^ (27 - p)).
Proof.
  intros Hp Hz. pose proof (bit_length_pos (z * 2 - 1) ltac:(lia)) as Hb.
  split.
  - intros H. split; [lia|].
    assert (H' : Py.bit_length (z * 2 - 1) <= 28 - p) by lia.
    apply (proj1 (bit_length_le_iff (z * 2 - 1) (28 - p) ltac:(lia) ltac:(lia))) in H'.
    replace (28 - p) with (Z.succ (27 - p)) in H' by lia.
    rewrite Z.pow_succ_r in H' by lia. lia.
  - intros [Hp27 Hfit].
    assert (H : z * 2 - 1 < 2 ^ (28 - p)).
    { replace (28 - p) with (Z.succ (27 - p)) by lia. rewrite Z.pow_succ_r by lia. lia. }
    apply (proj2 (bit_length_le_iff (z * 2 - 1) (28 - p) ltac:(lia) ltac:(lia))) in H. lia.
Qed.

Lemma prefixlen_nonneg (s : string) (n : network) :
  ip_network s = Ok n -> 0 <= prefixlen n <= max_prefixlen n.
Proof. intros H. apply (ip_network_well_formed s n H). Qed.

Lemma max_prefixlen_ge_32 (n : network) : 32 <= max_prefixlen n.
Proof. unfold max_prefixlen. destruct (net_version n); simpl; lia. Qed.

(** With at least one zone, the run succeeds exactly when the unclamped
    new prefix is at most 28. *)
Lemma succeeds_iff_unclamped (s : string) (z : Z) (n : network) :
  ip_network s = Ok n -> 1 <= z ->
  (is_Ok (compute_subnet_cidrs s z) = true
   <-> prefixlen n + Py.bit_length (z * 2 - 1) <= 28).
Proof.
  intros Hparse Hz. pose proof (prefixlen_nonneg _ _ Hparse) as Hp.
  pose proof (max_prefixlen_ge_32 n) as Hmax.
  split.
  - intros Hok.
    destruct (compute_subnet_cidrs s z) as [r|e] eqn:Hrun; [|discriminate].
    destruct (compute_subnet_cidrs_success _ _ _ _ Hparse Hz Hrun) as (Hlt & Hle & Hroom).
    rewrite clamped_new_prefix_value in Hle, Hroom.
    destruct (Z_le_gt_dec (prefixlen n + Py.bit_length (z * 2 - 1)) 28)
      as [|Hclamp]; [assumption|exfalso].
    rewrite Z.min_l in Hroom by lia.
    assert (Hfew : z * 2 - 1 < 2 ^ (28 - prefixlen n)) by lia.
    apply (proj2 (bit_length_le_iff (z * 2 - 1) (28 - prefixlen n)
                    ltac:(lia) ltac:(lia))) in Hfew. lia.
  - intros Hfit.
    pose proof (bit_length_nonneg (z * 2 - 1)) as Hb.
    destruct (bit_length_is_extraBits (z * 2) ltac:(lia)) as (_ & Hpow & _).
    rewrite (compute_subnet_cidrs_plan _ _ _ Hparse); [reflexivity|lia| |].
    + rewrite clamped_new_prefix_value. lia.
    + rewrite clamped_new_prefix_value, Z.min_r by lia.
      replace (prefixlen n + Py.bit_length (z * 2 - 1) - prefixlen n)
        with (Py.bit_length (z * 2 - 1)) by lia.
      exact Hpow.
Qed.

(** X1. For a base that parses and at least one zone,
    [compute_subnet_cidrs] returns a plan exactly when the base has prefix
    length at most 27 and the zone count is at most [2^(27 - prefixlen)].
    The clamp to /28 never turns a request into a success. *)
Theorem succeeds_iff_zones_fit (vpc_cidr : string) (az_count : Z) (base : network) :
  ip_network vpc_cidr = Ok base -> 1 <= az_count ->
  (is_Ok (compute_subnet_cidrs vpc_cidr az_count) = true
   <-> prefixlen base <= 27 /\ az_count <= 2 ^ (27 - prefixlen base)).
Proof.
  intros Hparse Hz. pose proof (prefixlen_nonneg _ _ Hparse) as Hp.
  rewrite (succeeds_iff_unclamped _ _ _ Hparse Hz).
  apply unclamped_iff_zones_fit; lia.
Qed.

Lemma succeeds_iff_zones_fit_witness :
  let base := Network V4 167772160 None 4294967040 24 in
  ip_network "10.0.0.0/24" = Ok base
  /\ (is_Ok (compute_subnet_cidrs "10.0.0.0/24" 8) = true
      <-> prefixlen base <= 27 /\ 8 <= 2 ^ (27 - prefixlen base))
  /\ (is_Ok (compute_subnet_cidrs "10.0.0.0/24" 9) = true
      <-> prefixlen base <= 27 /\ 9 <= 2 ^ (27 - prefixlen base))
  /\ is_Ok (compute_subnet_cidrs "10.0.0.0/24" 8) = true
  /\ is_Ok (compute_subnet_cidrs "10.0.0.0/24" 9) = false.
Proof.
  intros base. split; [vm_compute; reflexivity|].
  split; [apply (succeeds_iff_zones_fit "10.0.0.0/24" 8 base);
          [vm_compute; reflexivity|lia]|].
  split; [apply (succeeds_iff_zones_fit "10.0.0.0/24" 9 base);
          [vm_compute; reflexivity|lia]|].
  split; vm_compute; reflexivity.
Defined.

End Acceptance.

Section FailureModes.

(** The enumeration of a parsed base at the clamped prefix returns a list
    or raises 'new prefix must be longer'; it raises nothing else. *)
Lemma subnets_at_clamped_prefix (n : network) (z : Z) :
  well_formed n ->
  (exists l, subnets n (clamped_new_prefix n z) = Ok l)
  \/ subnets n (clamped_new_prefix n z) = Raise (ValueError new_prefix_must_be_longer).
Proof.
  intros Hwf.
  pose proof (fit_check_false n z) as Hfit. apply Z.ltb_ge in Hfit.
  destruct (Z.eq_dec (prefixlen n) (max_prefixlen n)) as [Heq | Hne].
  { left. eexists. apply subnets_of_host_block. exact Heq. }
  destruct (Z_lt_le_dec (clamped_new_prefix n z) (prefixlen n)) as [Hshort | Hle].
  { right. apply subnets_shorter_prefix; assumption. }
  left. eexists. apply (subnets_Ok n Hwf); [lia|].
  destruct Hwf as (Hp & _). lia.
Qed.

(** X2. Whatever the two arguments, a run of [compute_subnet_cidrs] that
    fails raises one of four exceptions: the [ValueError] of [ip_network]
    for a text that is no network, its [ValueError] for host bits set, the
    [ValueError] of [subnets] ('new prefix must be longer'), or the
    [IndexError] of the list indexing in the loop. *)
Theorem raises_one_of_four (vpc_cidr : string) (az_count : Z) (e : exception) :
  compute_subnet_cidrs vpc_cidr az_count = Raise e ->
  e = ValueError not_a_network \/ e = ValueError host_bits_set
  \/ e = ValueError new_prefix_must_be_longer \/ e = IndexError.
Proof.
  intros Hrun. destruct (ip_network vpc_cidr) as [n | e'] eqn:Hparse.
  - rewrite (compute_subnet_cidrs_unfold _ _ _ Hparse) in Hrun.
    destruct (subnets_at_clamped_prefix n az_count (ip_network_well_formed _ _ Hparse))
      as [[l Hl] | Hl]; rewrite Hl in Hrun; simpl in Hrun.
    + right. right. right. exact (loop_raises l _ _ e Hrun).
    + injection Hrun as <-. auto.
  - rewrite (compute_subnet_cidrs_parse_error _ _ _ Hparse) in Hrun.
    injection Hrun as <-.
    destruct (ip_network_raises vpc_cidr e' Hparse) as [-> | ->]; auto.
Qed.

Lemma raises_one_of_four_witness :
  compute_subnet_cidrs "10.0.0.0/30" 1 = Raise (ValueError new_prefix_must_be_longer)
  /\ (ValueError new_prefix_must_be_longer = ValueError not_a_network
      \/ ValueError new_prefix_must_be_longer = ValueError host_bits_set
      \/ ValueError new_prefix_must_be_longer = ValueError new_prefix_must_be_longer
      \/ ValueError new_prefix_must_be_longer = IndexError).
Proof.
  split; [vm_compute; reflexivity|].
  apply (raises_one_of_four "10.0.0.0/30" 1). vm_compute. reflexivity.
Defined.

(** X3. For a base that parses and at least one zone, the prefix length
    decides how a run fails: up to /28 with more zones than
    [2^(27 - prefixlen)], or at /28 itself, the loop raises [IndexError];
    from /29 up to one short of the family's maximum [subnets] raises
    [ValueError] ('new prefix must be longer'); at the family's maximum (a
    single host) the loop raises [IndexError]. *)
Theorem failure_by_prefix_length (vpc_cidr : string) (az_count : Z) (base : network) :
  ip_network vpc_cidr = Ok base -> 1 <= az_count ->
  (prefixlen base <= 28 -> 2 ^ (27 - prefixlen base) < az_count \/ prefixlen base = 28 ->
   compute_subnet_cidrs vpc_cidr az_count = Raise IndexError)
  /\ (29 <= prefixlen base < max_prefixlen base ->
      compute_subnet_cidrs vpc_cidr az_count
      = Raise (ValueError new_prefix_must_be_longer))
  /\ (prefixlen base = max_prefixlen base ->
      compute_subnet_cidrs vpc_cidr az_count = Raise IndexError).
Proof.
  intros Hparse Hz.
  pose proof (ip_network_well_formed _ _ Hparse) as Hwf.
  pose proof (prefixlen_nonneg _ _ Hparse) as Hp.
  pose proof (max_prefixlen_ge_32 base) as Hmax.
  rewrite (compute_subnet_cidrs_unfold _ _ _ Hparse).
  split; [|split].
  - intros Hp28 Hmany.
    assert (Hclamp : 28 < prefixlen base + Py.bit_length (az_count * 2 - 1)).
    { destruct (Z_lt_le_dec 28 (prefixlen base + Py.bit_length (az_count * 2 - 1)))
        as [|Hfit]; [assumption|exfalso].
      apply unclamped_iff_zones_fit in Hfit; lia. }
    assert (Hnp : clamped_new_prefix base az_count = 28)
      by (rewrite clamped_new_prefix_value; lia).
    rewrite Hnp, (subnets_Ok base Hwf) by lia. simpl.
    apply loop_too_few; [assumption|].
    rewrite llen_sub_blocks by (apply Z.pow_nonneg; lia).
    destruct (Z_le_gt_dec (az_count * 2) (2 ^ (28 - prefixlen base))) as [Hroom|]; [|lia].
    exfalso.
    assert (Hfew : az_count * 2 - 1 < 2 ^ (28 - prefixlen base)) by lia.
    apply (proj2 (bit_length_le_iff (az_count * 2 - 1) (28 - prefixlen base)
                    ltac:(lia) ltac:(lia))) in Hfew. lia.
  - intros Hp29.
    rewrite subnets_shorter_prefix; [reflexivity|lia|].
    rewrite clamped_new_prefix_long_base; lia.
  - intros Hpmax. rewrite subnets_of_host_block by assumption. simpl.
    apply loop_too_few; [assumption|]. unfold Py.llen. simpl. lia.
Qed.

Lemma failure_by_prefix_length_witness :
  ip_network "10.0.0.0/28" = Ok (Network V4 167772160 None 4294967280 28)
  /\ compute_subnet_cidrs "10.0.0.0/28" 1 = Raise IndexError.
Proof.
  split; [vm_compute; reflexivity|].
  destruct (failure_by_prefix_length "10.0.0.0/28" 1
              (Network V4 167772160 None 4294967280 28)) as (H & _ & _).
  - vm_compute. reflexivity.
  - lia.
  - apply H; [simpl; lia|right; reflexivity].
Defined.

End FailureModes.

(* ===================================================================== *)
(** * The shape of a plan                                                 *)
(* ===================================================================== *)

Section PlanShape.

(** A run that succeeds for at least one zone did not clamp: its blocks
    have the unclamped new prefix, and the plan is the one of
    [public_blocks] and [private_blocks] at that prefix. *)
Lemma successful_run (s : string) (z : Z) (n : network)
    (pub priv : list string) :
  ip_network s = Ok n -> 1 <= z ->
  compute_subnet_cidrs s z = Ok (pub, priv) ->
  let np := prefixlen n + Py.bit_length (z * 2 - 1) in
  clamped_new_prefix n z = np
  /\ prefixlen n < np <= 28
  /\ z * 2 <= 2 ^ (np - prefixlen n)
  /\ pub = str <$> public_blocks n np z
  /\ priv = str <$> private_blocks n np z.
Proof.
  intros Hparse Hz Hrun np.
  pose proof (prefixlen_nonneg _ _ Hparse) as Hp.
  assert (Hok : is_Ok (compute_subnet_cidrs s z) = true) by (rewrite Hrun; reflexivity).
  apply (succeeds_iff_unclamped _ _ _ Hparse Hz) in Hok.
  pose proof (bit_length_pos (z * 2 - 1) ltac:(lia)) as Hb.
  assert (Hnp : clamped_new_prefix n z = np)
    by (rewrite clamped_new_prefix_value; unfold np; lia).
  destruct (compute_subnet_cidrs_success _ _ _ _ Hparse Hz Hrun) as (Hlt & Hle & Hroom).
  rewrite (compute_subnet_cidrs_plan _ _ _ Hparse Hlt Hle Hroom) in Hrun.
  rewrite Hnp in Hrun, Hroom. injection Hrun as <- <-.
  repeat split; try assumption; unfold np; lia.
Qed.

Lemma elem_of_planned_blocks (n : network) (np z : Z) (b : network) :
  b ∈ public_blocks n np z ++ private_blocks n np z
  <-> exists k, 0 <= k < z * 2 /\ b = sub_block n np k.
Proof.
  split.
  - intros Hb. apply list_elem_of_lookup in Hb as [j Hj].
    apply lookup_planned_blocks in Hj as (k & Hk & -> & _). eauto.
  - intros (k & Hk & ->). apply elem_of_app.
    destruct (Z.eq_dec (k mod 2) 0) as [Heven | Hodd].
    + left. unfold public_blocks. apply list_elem_of_fmap. exists (k / 2).
      pose proof (Z.div_mod k 2 ltac:(lia)).
      split; [f_equal; lia|]. unfold Py.range. apply elem_of_seqZ. lia.
    + right. unfold private_blocks. apply list_elem_of_fmap. exists (k / 2).
      pose proof (Z.div_mod k 2 ltac:(lia)).
      pose proof (Z.mod_pos_bound k 2 ltac:(lia)).
      split; [f_equal; lia|]. unfold Py.range. apply elem_of_seqZ. lia.
Qed.

Lemma num_addresses_sub_block (n : network) (np k : Z) :
  well_formed n -> prefixlen n <= np <= max_prefixlen n ->
  0 <= k < 2 ^ (np - prefixlen n) ->
  num_addresses (sub_block n np k) = 2 ^ (max_prefixlen n - np).
Proof.
  intros Hwf Hnp Hk. unfold num_addresses.
  rewrite (wf_broadcast_address _ (sub_block_well_formed n Hwf np Hnp k Hk)).
  unfold sub_block, block, max_prefixlen. simpl. lia.
Qed.

(** X4. A run that succeeds for at least one zone did not clamp: the new
    prefix is [prefixlen + bit_length(2 * az_count - 1)], it is at most 28,
    the two lists are the texts of the sub-blocks at the even and at the
    odd indices, and every block holds [2^(max_prefixlen - new_prefix)]
    addresses, which is at least 16. *)
Theorem blocks_not_clamped_and_sized
    (vpc_cidr : string) (az_count : Z) (base : network)
    (public_cidrs private_cidrs : list string) :
  ip_network vpc_cidr = Ok base -> 1 <= az_count ->
  compute_subnet_cidrs vpc_cidr az_count = Ok (public_cidrs, private_cidrs) ->
  let newPrefix := prefixlen base + Py.bit_length (az_count * 2 - 1) in
  let blocks := public_blocks base newPrefix az_count
                  ++ private_blocks base newPrefix az_count in
  clamped_new_prefix base az_count = newPrefix
  /\ newPrefix <= 28
  /\ public_cidrs = str <$> public_blocks base newPrefix az_count
  /\ private_cidrs = str <$> private_blocks base newPrefix az_count
  /\ Forall (fun b => num_addresses b = 2 ^ (max_prefixlen base - newPrefix)
                      /\ 16 <= num_addresses b) blocks.
Proof.
  intros Hparse Hz Hrun newPrefix blocks.
  destruct (successful_run _ _ _ _ _ Hparse Hz Hrun) as (Hnp & Hrange & Hroom & Hpub & Hpriv).
  fold newPrefix in Hnp, Hrange, Hroom, Hpub, Hpriv.
  pose proof (ip_network_well_formed _ _ Hparse) as Hwf.
  pose proof (max_prefixlen_ge_32 base) as Hmax.
  repeat split; try assumption; try lia.
  apply Forall_forall. intros b Hb.
  apply elem_of_planned_blocks in Hb as (k & Hk & ->).
  rewrite num_addresses_sub_block by (try assumption; lia).
  split; [reflexivity|].
  change 16 with (2 ^ 4). apply Z.pow_le_mono_r; lia.
Qed.

Lemma blocks_not_clamped_and_sized_witness :
  let base := Network V4 167772160 None 4294901760 16 in
  compute_subnet_cidrs "10.0.0.0/16" 3
    = Ok (["10.0.0.0/19"; "10.0.64.0/19"; "10.0.128.0/19"]%string,
          ["10.0.32.0/19"; "10.0.96.0/19"; "10.0.160.0/19"]%string)
  /\ clamped_new_prefix base 3 = 16 + Py.bit_length (3 * 2 - 1)
  /\ Forall (fun b => num_addresses b = 2 ^ (32 - 19) /\ 16 <= num_addresses b)
       (public_blocks base 19 3 ++ private_blocks base 19 3).
Proof.
  intros base. split; [vm_compute; reflexivity|].
  destruct (blocks_not_clamped_and_sized "10.0.0.0/16" 3 base
              ["10.0.0.0/19"; "10.0.64.0/19"; "10.0.128.0/19"]%string
              ["10.0.32.0/19"; "10.0.96.0/19"; "10.0.160.0/19"]%string)
    as (H1 & _ & _ & _ & H2).
  - vm_compute. reflexivity.
  - lia.
  - vm_compute. reflexivity.
  - split; [exact H1|exact H2].
Defined.

Lemma zone_order_sub_blocks (h : Z -> network) (n : nat) (m : Z) :
  zone_order ((fun i => h (i * 2)) <$> seqZ m (Z.of_nat n))
             ((fun i => h (i * 2 + 1)) <$> seqZ m (Z.of_nat n))
  = h <$> seqZ (m * 2) (Z.of_nat n * 2).
Proof.
  revert m. induction n as [|n IH]; intros m; [reflexivity|].
  rewrite (seqZ_cons m) by lia.
  rewrite (seqZ_cons (m * 2)) by lia.
  rewrite (seqZ_cons (Z.succ (m * 2))) by lia.
  replace (Z.pred (Z.of_nat (S n))) with (Z.of_nat n) by lia.
  replace (Z.pred (Z.pred (Z.of_nat (S n) * 2))) with (Z.of_nat n * 2) by lia.
  replace (Z.succ (Z.succ (m * 2))) with (Z.succ m * 2) by lia.
  unfold zone_order in *. cbn [fmap list_fmap zip_with concat app].
  rewrite IH. replace (Z.succ (m * 2)) with (m * 2 + 1) by lia. reflexivity.
Qed.

Lemma zone_order_planned_blocks (n : network) (np z : Z) :
  0 <= z ->
  zone_order (public_blocks n np z) (private_blocks n np z)
  = sub_block n np <$> seqZ 0 (z * 2).
Proof.
  intros Hz. unfold public_blocks, private_blocks, Py.range.
  rewrite <- (Z2Nat.id z Hz). apply (zone_order_sub_blocks (sub_block n np) _ 0).
Qed.

(** X5. Read in zone order (public and private of zone 0, then of zone
    1, ...), the blocks of a successful run are the first [2 * az_count]
    sub-blocks of the base: block [k] starts [k] block sizes after the
    base address and ends right before block [k + 1] starts, the blocks
    cover exactly the addresses from the base address up to
    [2 * az_count] block sizes after it, and when [2 * az_count] is a power
    of two they cover the whole base. *)
Theorem plan_tiles_front_of_base
    (vpc_cidr : string) (az_count : Z) (base : network)
    (public_cidrs private_cidrs : list string) :
  ip_network vpc_cidr = Ok base -> 1 <= az_count ->
  compute_subnet_cidrs vpc_cidr az_count = Ok (public_cidrs, private_cidrs) ->
  let newPrefix := prefixlen base + Py.bit_length (az_count * 2 - 1) in
  let size := 2 ^ (max_prefixlen base - newPrefix) in
  let pubs := public_blocks base newPrefix az_count in
  let privs := private_blocks base newPrefix az_count in
  public_cidrs = str <$> pubs /\ private_cidrs = str <$> privs
  /\ zone_order pubs privs = sub_block base newPrefix <$> seqZ 0 (az_count * 2)
  /\ (forall k b, zone_order pubs privs !! k = Some b ->
        network_address b = network_address base + Z.of_nat k * size
        /\ broadcast_address b + 1 = network_address base + (Z.of_nat k + 1) * size)
  /\ (forall a, (exists b, b ∈ pubs ++ privs /\ contains_address b a)
                <-> network_address base <= a
                    < network_address base + az_count * 2 * size)
  /\ (az_count * 2 = 2 ^ (newPrefix - prefixlen base) ->
      forall a, contains_address base a
                <-> exists b, b ∈ pubs ++ privs /\ contains_address b a).
Proof.
  intros Hparse Hz Hrun newPrefix size pubs privs.
  destruct (successful_run _ _ _ _ _ Hparse Hz Hrun) as (Hnp & Hrange & Hroom & Hpub & Hpriv).
  fold newPrefix in Hnp, Hrange, Hroom, Hpub, Hpriv.
  pose proof (ip_network_well_formed _ _ Hparse) as Hwf.
  pose proof (max_prefixlen_ge_32 base) as Hmax.
  assert (Hnpr : prefixlen base <= newPrefix <= max_prefixlen base) by lia.
  assert (Hsize : 0 < size) by (apply pow2_pos; lia).
  assert (Hcover : forall a, (exists b, b ∈ pubs ++ privs /\ contains_address b a)
                <-> network_address base <= a
                    < network_address base + az_count * 2 * size).
  { intros a. split.
    - intros (b & Hb & Ha). apply elem_of_planned_blocks in Hb as (k & Hk & ->).
      apply (sub_block_range base Hwf newPrefix Hnpr) in Ha; [|lia].
      fold size in Ha. nia.
    - intros Ha. set (k := (a - network_address base) / size).
      assert (Hk : 0 <= k < az_count * 2).
      { unfold k. split; [apply Z.div_pos; lia|].
        apply Z.div_lt_upper_bound; lia. }
      exists (sub_block base newPrefix k). split.
      + apply elem_of_planned_blocks. eauto.
      + apply (sub_block_range base Hwf newPrefix Hnpr); [lia|]. fold size.
        pose proof (Z.div_mod (a - network_address base) size ltac:(lia)) as Hdm.
        pose proof (Z.mod_pos_bound (a - network_address base) size Hsize) as Hmod.
        fold k in Hdm. nia. }
  split; [exact Hpub|]. split; [exact Hpriv|].
  split; [apply zone_order_planned_blocks; lia|].
  split; [|split; [exact Hcover|]].
  - intros k b Hk. unfold pubs, privs in Hk.
    rewrite zone_order_planned_blocks in Hk by lia.
    rewrite list_lookup_fmap in Hk.
    destruct (seqZ 0 (az_count * 2) !! k) as [i|] eqn:Hi; [|discriminate].
    injection Hk as <-. apply lookup_seqZ in Hi as [-> Hi].
    rewrite (wf_broadcast_address _
               (sub_block_well_formed base Hwf newPrefix Hnpr (0 + Z.of_nat k) ltac:(lia))).
    unfold sub_block, block, max_prefixlen. simpl.
    fold (max_prefixlen base). fold size. lia.
  - intros Hfull a. rewrite Hcover, Hfull.
    unfold contains_address. rewrite (wf_broadcast_address base Hwf).
    pose proof (count_size base newPrefix Hnpr) as Hcs. fold size in Hcs.
    rewrite <- Hcs. lia.
Qed.

Lemma plan_tiles_front_of_base_witness :
  let base := Network V4 167772160 None 4294967040 24 in
  let blocks := public_blocks base 25 1 ++ private_blocks base 25 1 in
  compute_subnet_cidrs "10.0.0.0/24" 1
    = Ok (["10.0.0.0/25"]%string, ["10.0.0.128/25"]%string)
  /\ (forall a, contains_address base a
                <-> exists b, b ∈ blocks /\ contains_address b a).
Proof.
  intros base blocks. split; [vm_compute; reflexivity|].
  destruct (plan_tiles_front_of_base "10.0.0.0/24" 1 base
              ["10.0.0.0/25"]%string ["10.0.0.128/25"]%string)
    as (_ & _ & _ & _ & _ & Hfull).
  - vm_compute. reflexivity.
  - lia.
  - vm_compute. reflexivity.
  - apply Hfull. vm_compute. reflexivity.
Defined.

(** The blocks of a plan, for a base of either family: pairwise disjoint
    and inside the base. *)
Lemma planned_blocks_geometry (n : network) (np z : Z) :
  well_formed n -> prefixlen n <= np <= max_prefixlen n ->
  z * 2 <= 2 ^ (np - prefixlen n) ->
  let blocks := public_blocks n np z ++ private_blocks n np z in
  pairwise_disjoint blocks
  /\ Forall (fun b => subnet_of b n /\ prefixlen b = np /\ well_formed b) blocks.
Proof.
  intros Hwf Hnp Hroom blocks. split.
  - intros i j b b' Hi Hj Hne.
    apply lookup_planned_blocks in Hi as (k & Hk & -> & Hki).
    apply lookup_planned_blocks in Hj as (k' & Hk' & -> & Hkj).
    apply sub_block_disjoint; try assumption; lia.
  - apply Forall_forall. intros b Hb.
    apply elem_of_planned_blocks in Hb as (k & Hk & ->).
    split; [apply sub_block_subnet_of; try assumption; lia|].
    split; [reflexivity|apply sub_block_well_formed; try assumption; lia].
Qed.

(** X6. For an IPv6 base and at least one zone, the blocks of a
    successful run are pairwise disjoint IPv6 sub-blocks of the base, all
    of the new prefix length, each of [2^(128 - new_prefix)] addresses. *)
Theorem ipv6_plan_disjoint_sub_blocks
    (vpc_cidr : string) (az_count : Z) (base : network)
    (public_cidrs private_cidrs : list string) :
  ip_network vpc_cidr = Ok base -> net_version base = V6 -> 1 <= az_count ->
  compute_subnet_cidrs vpc_cidr az_count = Ok (public_cidrs, private_cidrs) ->
  let newPrefix := clamped_new_prefix base az_count in
  let blocks := public_blocks base newPrefix az_count
                  ++ private_blocks base newPrefix az_count in
  public_cidrs = str <$> public_blocks base newPrefix az_count
  /\ private_cidrs = str <$> private_blocks base newPrefix az_count
  /\ pairwise_disjoint blocks
  /\ Forall (fun b => net_version b = V6 /\ subnet_of b base
                      /\ prefixlen b = newPrefix
                      /\ num_addresses b = 2 ^ (128 - newPrefix)) blocks.
Proof.
  intros Hparse Hv Hz Hrun newPrefix blocks.
  destruct (successful_run _ _ _ _ _ Hparse Hz Hrun) as (Hnp & Hrange & Hroom & Hpub & Hpriv).
  rewrite <- Hnp in Hrange, Hroom, Hpub, Hpriv. fold newPrefix in Hrange, Hroom, Hpub, Hpriv.
  pose proof (ip_network_well_formed _ _ Hparse) as Hwf.
  assert (Hmax : max_prefixlen base = 128) by (unfold max_prefixlen; rewrite Hv; reflexivity).
  assert (Hnpr : prefixlen base <= newPrefix <= max_prefixlen base) by lia.
  destruct (planned_blocks_geometry base newPrefix az_count Hwf Hnpr Hroom) as [Hd Hg].
  split; [exact Hpub|]. split; [exact Hpriv|]. split; [exact Hd|].
  apply Forall_forall. intros b Hb.
  apply elem_of_planned_blocks in Hb as (k & Hk & ->).
  split; [exact Hv|].
  split; [apply sub_block_subnet_of; try assumption; lia|].
  split; [reflexivity|].
  rewrite num_addresses_sub_block by (try assumption; lia).
  rewrite Hmax. reflexivity.
Qed.

Lemma ipv6_plan_disjoint_sub_blocks_witness :
  let base := Network V6 336294682933583715844663186250927177728 None
                338953138925153547590470800371487866880 8 in
  ip_network "fd00::/8" = Ok base
  /\ compute_subnet_cidrs "fd00::/8" 2
     = Ok (["fd00::/10"; "fd80::/10"]%string, ["fd40::/10"; "fdc0::/10"]%string)
  /\ pairwise_disjoint (public_blocks base 10 2 ++ private_blocks base 10 2).
Proof.
  intros base.
  assert (Hparse : ip_network "fd00::/8" = Ok base) by (vm_compute; reflexivity).
  split; [exact Hparse|]. split; [vm_compute; reflexivity|].
  destruct (ipv6_plan_disjoint_sub_blocks "fd00::/8" 2 base
              ["fd00::/10"; "fd80::/10"]%string ["fd40::/10"; "fdc0::/10"]%string)
    as (_ & _ & Hd & _).
  - exact Hparse.
  - reflexivity.
  - lia.
  - vm_compute. reflexivity.
  - exact Hd.
Defined.

Lemma sub_block_inj (n : network) (np k k' : Z) :
  np <= max_prefixlen n -> sub_block n np k = sub_block n np k' -> k = k'.
Proof.
  intros Hnp H. unfold sub_block, block in H. injection H as H.
  pose proof (pow2_pos (max_prefixlen n - np) ltac:(lia)). nia.
Qed.

(** X7. For an IPv4 base and at least one zone, no text occurs twice in
    the result of a successful run, neither within one list nor across the
    two. *)
Theorem returned_texts_distinct
    (vpc_cidr : string) (az_count : Z) (base : network)
    (public_cidrs private_cidrs : list string) :
  ip_network vpc_cidr = Ok base -> net_version base = V4 -> 1 <= az_count ->
  compute_subnet_cidrs vpc_cidr az_count = Ok (public_cidrs, private_cidrs) ->
  NoDup (public_cidrs ++ private_cidrs).
Proof.
  intros Hparse Hv Hz Hrun.
  destruct (successful_run _ _ _ _ _ Hparse Hz Hrun) as (Hnp & Hrange & Hroom & -> & ->).
  set (np := prefixlen base + Py.bit_length (az_count * 2 - 1)) in *.
  pose proof (ip_network_well_formed _ _ Hparse) as Hwf.
  pose proof (max_prefixlen_ge_32 base) as Hmax.
  assert (Hnpr : prefixlen base <= np <= max_prefixlen base) by lia.
  rewrite <- fmap_app. apply NoDup_alt. intros i j t Hi Hj.
  rewrite list_lookup_fmap in Hi, Hj.
  destruct ((public_blocks base np az_count ++ private_blocks base np az_count) !! i)
    as [b|] eqn:Ei; [|discriminate].
  destruct ((public_blocks base np az_count ++ private_blocks base np az_count) !! j)
    as [b'|] eqn:Ej; [|discriminate].
  injection Hi as Hi. injection Hj as Hj.
  apply lookup_planned_blocks in Ei as (k & Hk & -> & Hki).
  apply lookup_planned_blocks in Ej as (k' & Hk' & -> & Hkj).
  assert (Hb : sub_block base np k = sub_block base np k').
  { assert (Hr : ip_network (str (sub_block base np k)) = Ok (sub_block base np k))
      by (apply sub_block_reads_back;
          [exact Hv|apply sub_block_well_formed; try assumption; lia]).
    assert (Hr' : ip_network (str (sub_block base np k')) = Ok (sub_block base np k'))
      by (apply sub_block_reads_back;
          [exact Hv|apply sub_block_well_formed; try assumption; lia]).
    rewrite Hj, <- Hi, Hr in Hr'. congruence. }
  apply sub_block_inj in Hb; lia.
Qed.

Lemma returned_texts_distinct_witness :
  compute_subnet_cidrs "10.0.0.0/16" 2
    = Ok (["10.0.0.0/18"; "10.0.128.0/18"]%string,
          ["10.0.64.0/18"; "10.0.192.0/18"]%string)
  /\ NoDup (["10.0.0.0/18"; "10.0.128.0/18"]%string
              ++ ["10.0.64.0/18"; "10.0.192.0/18"]%string).
Proof.
  split; [vm_compute; reflexivity|].
  apply (returned_texts_distinct "10.0.0.0/16" 2
           (Network V4 167772160 None 4294901760 16)).
  - vm_compute. reflexivity.
  - reflexivity.
  - lia.
  - vm_compute. reflexivity.
Defined.

Lemma range_take (z z' : Z) :
  0 <= z' <= z -> Py.range z' = take (Z.to_nat z') (Py.range z).
Proof.
  intros H. unfold Py.range.
  replace z with (z' + (z - z')) at 1 by lia.
  rewrite seqZ_app by lia.
  rewrite take_app_length' by (rewrite length_seqZ; reflexivity). reflexivity.
Qed.

(** X8. Asking for fewer zones keeps the subnets of the zones that stay,
    as long as the number of extra bits is the same: when the run for
    [az_count] succeeds and [1 <= az_count' <= az_count] has the same
    [bit_length(2 * az_count' - 1)], the run for [az_count'] returns the
    first [az_count'] entries of both lists. *)
Theorem fewer_zones_same_width_keep_subnets
    (vpc_cidr : string) (az_count az_count' : Z)
    (public_cidrs private_cidrs : list string) :
  1 <= az_count' <= az_count ->
  Py.bit_length (az_count' * 2 - 1) = Py.bit_length (az_count * 2 - 1) ->
  compute_subnet_cidrs vpc_cidr az_count = Ok (public_cidrs, private_cidrs) ->
  compute_subnet_cidrs vpc_cidr az_count'
  = Ok (take (Z.to_nat az_count') public_cidrs,
        take (Z.to_nat az_count') private_cidrs).
Proof.
  intros Hz Hbits Hrun.
  destruct (compute_subnet_cidrs_Ok _ _ _ Hrun) as (n & l & Hparse & _).
  assert (Hz1 : 1 <= az_count) by lia.
  destruct (successful_run _ _ _ _ _ Hparse Hz1 Hrun)
    as (Hnp & Hrange & Hroom & -> & ->).
  set (np := prefixlen n + Py.bit_length (az_count * 2 - 1)) in *.
  assert (Hnp' : clamped_new_prefix n az_count' = np)
    by (rewrite clamped_new_prefix_value, Hbits; fold np; lia).
  pose proof (prefixlen_nonneg _ _ Hparse) as Hp.
  pose proof (max_prefixlen_ge_32 n) as Hmax.
  rewrite (compute_subnet_cidrs_plan _ _ _ Hparse); rewrite ?Hnp'; [|lia|lia|lia].
  unfold public_blocks, private_blocks.
  rewrite (range_take az_count az_count') by lia.
  rewrite <- !fmap_take. reflexivity.
Qed.

Lemma fewer_zones_same_width_keep_subnets_witness :
  compute_subnet_cidrs "10.0.0.0/16" 4
    = Ok (["10.0.0.0/19"; "10.0.64.0/19"; "10.0.128.0/19"; "10.0.192.0/19"]%string,
          ["10.0.32.0/19"; "10.0.96.0/19"; "10.0.160.0/19"; "10.0.224.0/19"]%string)
  /\ compute_subnet_cidrs "10.0.0.0/16" 3
     = Ok (["10.0.0.0/19"; "10.0.64.0/19"; "10.0.128.0/19"]%string,
           ["10.0.32.0/19"; "10.0.96.0/19"; "10.0.160.0/19"]%string).
Proof.
  split; [vm_compute; reflexivity|].
  apply (fewer_zones_same_width_keep_subnets "10.0.0.0/16" 4 3
           ["10.0.0.0/19"; "10.0.64.0/19"; "10.0.128.0/19"; "10.0.192.0/19"]%string
           ["10.0.32.0/19"; "10.0.96.0/19"; "10.0.160.0/19"; "10.0.224.0/19"]%string).
  - lia.
  - reflexivity.
  - vm_compute. reflexivity.
Defined.

End PlanShape.

(* ===================================================================== *)
(** * [ask] and [interactive_questions]                                   *)
(* ===================================================================== *)

Section Asking.

Local Open Scope string_scope.

Lemma lstrip_head (s : string) :
  match PyText.lstrip s with
  | EmptyString => True
  | String c _ => PyText.is_space c = false
  end.
Proof.
  induction s as [|c s IH]; simpl; [exact I|].
  destruct (PyText.is_space c) eqn:Hc; [exact IH|exact Hc].
Qed.

Lemma lstrip_idempotent (s : string) : PyText.lstrip (PyText.lstrip s) = PyText.lstrip s.
Proof.
  pose proof (lstrip_head s) as H. destruct (PyText.lstrip s) as [|c t]; [reflexivity|].
  simpl. rewrite H. reflexivity.
Qed.

Lemma rstrip_cons (c : ascii) (s : string) :
  PyText.rstrip (String c s)
  = match PyText.rstrip s with
    | EmptyString => if PyText.is_space c then EmptyString else String c EmptyString
    | r => String c r
    end.
Proof. reflexivity. Qed.

Lemma rstrip_idempotent (s : string) : PyText.rstrip (PyText.rstrip s) = PyText.rstrip s.
Proof.
  induction s as [|c s IH]; [reflexivity|].
  rewrite rstrip_cons. destruct (PyText.rstrip s) as [|d t] eqn:E.
  - destruct (PyText.is_space c) eqn:Hc; [reflexivity|].
    rewrite rstrip_cons. simpl. rewrite Hc. reflexivity.
  - rewrite rstrip_cons, IH. reflexivity.
Qed.

(** Stripping the right end keeps a left end that is no white space. *)
Lemma lstrip_rstrip (s : string) :
  PyText.lstrip s = s -> PyText.lstrip (PyText.rstrip s) = PyText.rstrip s.
Proof.
  destruct s as [|c s]; [reflexivity|]. cbn [PyText.lstrip].
  destruct (PyText.is_space c) eqn:Hc.
  - intros H. exfalso. pose proof (lstrip_head s) as Hh. rewrite H in Hh.
    simpl in Hh. congruence.
  - intros _. rewrite rstrip_cons.
    destruct (PyText.rstrip s); rewrite ?Hc; cbn [PyText.lstrip]; rewrite ?Hc; reflexivity.
Qed.

Lemma strip_trimmed (s : string) : trimmed (PyText.strip s).
Proof.
  unfold trimmed, PyText.strip. split.
  - apply lstrip_rstrip, lstrip_idempotent.
  - apply rstrip_idempotent.
Qed.

Lemma answer_of_nonempty (d line : string) :
  Py.empty d = false -> Py.empty (answer_of d line) = false.
Proof.
  intros Hd. unfold answer_of.
  destruct (Py.empty (PyText.strip line)) eqn:E; simpl; assumption.
Qed.

Lemma ask_reads (prompt d line : string) (rest : list string) (tr : list event) :
  Py.empty d = false ->
  ask prompt (Some d) (Console (line :: rest) tr)
  = (Returned (answer_of d line),
     Console rest (tr ++ [Prompt (prompt ++ " [" ++ d ++ "]: ")])%list).
Proof. intros Hd. unfold ask. rewrite Hd. reflexivity. Qed.

Lemma ask_at_end (prompt d : string) (tr : list event) :
  Py.empty d = false ->
  ask prompt (Some d) (Console [] tr)
  = (Raised EOFError, Console [] (tr ++ [Prompt (prompt ++ " [" ++ d ++ "]: ")])%list).
Proof. intros Hd. unfold ask. rewrite Hd. reflexivity. Qed.

(** X9. [ask] with a non-empty default never returns the empty string.
    When it returns it has read exactly one line and written exactly its
    prompt with the default in brackets; the answer is the default when the
    line is blank, and the line without the white space at its ends
    otherwise. *)
Theorem ask_with_default_never_empty
    (prompt d : string) (w w' : console) (a : string) :
  Py.empty d = false ->
  ask prompt (Some d) w = (Returned a, w') ->
  Py.empty a = false
  /\ (exists line, stdin w = line :: stdin w'
        /\ (a = d /\ Py.empty (PyText.strip line) = true
            \/ a = PyText.strip line /\ trimmed a))
  /\ trace w' = (trace w ++ [Prompt (prompt ++ " [" ++ d ++ "]: ")])%list.
Proof.
  intros Hd Hask. destruct w as [[|line rest] tr].
  - rewrite ask_at_end in Hask by assumption. discriminate.
  - rewrite ask_reads in Hask by assumption. injection Hask as <- <-.
    split; [apply answer_of_nonempty; assumption|].
    split; [|reflexivity].
    exists line. split; [reflexivity|]. unfold answer_of.
    destruct (Py.empty (PyText.strip line)) eqn:E; simpl.
    + left. split; reflexivity.
    + right. split; [reflexivity|apply strip_trimmed].
Qed.

Lemma ask_with_default_never_empty_witness :
  ask "Network CIDR block" (Some "10.0.0.0/16") (Console ["  172.16.0.0/12 "; "3"] [])
  = (Returned "172.16.0.0/12", Console ["3"] [Prompt "Network CIDR block [10.0.0.0/16]: "])
  /\ Py.empty "172.16.0.0/12" = false.
Proof.
  split; [vm_compute; reflexivity|].
  apply (ask_with_default_never_empty "Network CIDR block" "10.0.0.0/16"
           (Console ["  172.16.0.0/12 "; "3"] [])
           (Console ["3"] [Prompt "Network CIDR block [10.0.0.0/16]: "])).
  - reflexivity.
  - vm_compute. reflexivity.
Defined.

End Asking.

Section Interactive.

Local Open Scope string_scope.

(** The run of [interactive_questions] on five lines or more. *)
Lemma interactive_questions_run (l1 l2 l3 l4 l5 : string) (rest : list string)
    (tr : list event) :
  interactive_questions (Console (l1 :: l2 :: l3 :: l4 :: l5 :: rest) tr)
  = (match PyText.int (answer_of "2" l5) with
     | None => Raised IntValueError
     | Some az_count =>
         Returned
           (<["backend" := VBool true]>
            (<["tags" := VDict [("Project", VStr (answer_of "my-cloud-project" l1))]]>
            (<["az_count" := VInt az_count]>
            (<["vpc_cidr" := VStr (answer_of "10.0.0.0/16" l4)]>
            (<["region" := VStr (answer_of "us-east-1" l3)]>
            (<["cloud" := VStr (PyText.lower (answer_of "aws" l2))]>
            (<["project" := VStr (answer_of "my-cloud-project" l1)]>
               (∅ : gmap string value))))))))
     end,
     Console rest (tr ++ prompts)%list).
Proof.
  unfold interactive_questions, mbind, io_bind, emit. cbn [stdin trace].
  rewrite !ask_reads by reflexivity.
  unfold prompts. rewrite <- !app_assoc.
  destruct (PyText.int (answer_of "2" l5)); reflexivity.
Qed.

(** The run of [interactive_questions] on fewer than five lines. *)
Lemma interactive_questions_short (lines : list string) (tr : list event) :
  (length lines < 5)%nat ->
  fst (interactive_questions (Console lines tr)) = Raised EOFError
  /\ stdin (snd (interactive_questions (Console lines tr))) = [].
Proof.
  intros Hlen. unfold interactive_questions, mbind, io_bind, emit. cbn [stdin trace].
  destruct lines as [|l1 [|l2 [|l3 [|l4 [|l5 rest]]]]];
    rewrite ?ask_reads by reflexivity;
    try (rewrite ask_at_end by reflexivity; split; reflexivity).
  simpl in Hlen. lia.
Qed.

(** X10. On five lines whose last answer [int] accepts,
    [interactive_questions] returns a dict of exactly the seven keys
    project, cloud, region, vpc_cidr, az_count, tags and backend: each
    answer is the stripped line or the default of its question, the cloud
    is lowered, az_count is the int, tags holds the project, backend is
    [True].  It writes the welcome line and the five prompts, leaves the
    lines after the fifth unread, and project, region and vpc_cidr are
    never empty. *)
Theorem interactive_questions_answers
    (l1 l2 l3 l4 l5 : string) (rest : list string) (tr : list event) (n : Z) :
  PyText.int (answer_of "2" l5) = Some n ->
  exists answers : gmap string value,
    interactive_questions (Console (l1 :: l2 :: l3 :: l4 :: l5 :: rest) tr)
    = (Returned answers, Console rest (tr ++ prompts)%list)
    /\ answers !! "project" = Some (VStr (answer_of "my-cloud-project" l1))
    /\ answers !! "cloud" = Some (VStr (PyText.lower (answer_of "aws" l2)))
    /\ answers !! "region" = Some (VStr (answer_of "us-east-1" l3))
    /\ answers !! "vpc_cidr" = Some (VStr (answer_of "10.0.0.0/16" l4))
    /\ answers !! "az_count" = Some (VInt n)
    /\ answers !! "tags" = Some (VDict [("Project", VStr (answer_of "my-cloud-project" l1))])
    /\ answers !! "backend" = Some (VBool true)
    /\ dom answers = ({["project"; "cloud"; "region"; "vpc_cidr"; "az_count";
                       "tags"; "backend"]} : gset string)
    /\ Py.empty (answer_of "my-cloud-project" l1) = false
    /\ Py.empty (answer_of "us-east-1" l3) = false
    /\ Py.empty (answer_of "10.0.0.0/16" l4) = false.
Proof.
  intros Hint. eexists. rewrite interactive_questions_run, Hint.
  split; [reflexivity|].
  repeat split; try (apply answer_of_nonempty; reflexivity);
    try (simplify_map_eq; reflexivity).
Qed.

Lemma interactive_questions_answers_witness :
  exists answers : gmap string value,
    interactive_questions (Console [""; " GCP "; ""; "  172.16.0.0/12"; "3"; "left"] [])
    = (Returned answers, Console ["left"] prompts)
    /\ answers !! "cloud" = Some (VStr "gcp")
    /\ answers !! "vpc_cidr" = Some (VStr "172.16.0.0/12")
    /\ answers !! "az_count" = Some (VInt 3)
    /\ answers !! "project" = Some (VStr "my-cloud-project").
Proof.
  destruct (interactive_questions_answers "" " GCP " "" "  172.16.0.0/12" "3"
              ["left"] [] 3) as (answers & Hrun & Hp & Hc & _ & Hv & Hz & _).
  - vm_compute. reflexivity.
  - exists answers. split; [exact Hrun|].
    split; [exact Hc|]. split; [exact Hv|]. split; [exact Hz|exact Hp].
Defined.

(** X11. [interactive_questions] fails in two ways.  With fewer than
    five lines to read, [input] raises [EOFError].  With five lines whose
    last answer is no int literal, [int] raises [ValueError], after all
    five prompts were written and all five lines read. *)
Theorem interactive_questions_failures
    (lines : list string) (tr : list event) :
  ((length lines < 5)%nat ->
   fst (interactive_questions (Console lines tr)) = Raised EOFError)
  /\ (forall l1 l2 l3 l4 l5 rest,
        lines = l1 :: l2 :: l3 :: l4 :: l5 :: rest ->
        PyText.int (answer_of "2" l5) = None ->
        interactive_questions (Console lines tr)
        = (Raised IntValueError, Console rest (tr ++ prompts)%list)).
Proof.
  split.
  - intros Hlen. apply interactive_questions_short. exact Hlen.
  - intros l1 l2 l3 l4 l5 rest -> Hint.
    rewrite interactive_questions_run, Hint. reflexivity.
Qed.

Lemma interactive_questions_failures_witness :
  fst (interactive_questions (Console ["p"; "aws"] [])) = Raised EOFError
  /\ interactive_questions (Console [""; ""; ""; ""; "two"] [])
     = (Raised IntValueError, Console [] prompts).
Proof.
  destruct (interactive_questions_failures ["p"; "aws"] []) as [H _].
  destruct (interactive_questions_failures [""; ""; ""; ""; "two"] []) as [_ H'].
  split.
  - apply H. simpl. lia.
  - apply (H' "" "" "" "" "two" []); [reflexivity|vm_compute; reflexivity].
Defined.

End Interactive.

(* ===================================================================== *)
(** * [main]                                                              *)
(* ===================================================================== *)

Section Main.

Local Open Scope string_scope.

Variable load_answers : string -> raised + gmap string value.
Variable render_templates : gmap string value -> outdir -> option raised.

Lemma lookup_with_cloud (answers : gmap string value) (k : string) :
  k <> "cloud" -> with_cloud answers !! k = answers !! k.
Proof.
  intros Hk. unfold with_cloud. destruct (answers !! "cloud"); [reflexivity|].
  apply lookup_insert_ne. congruence.
Qed.

Lemma lookup_with_cloud_cloud (answers : gmap string value) :
  with_cloud answers !! "cloud" = Some (default (VStr "aws") (answers !! "cloud")).
Proof.
  unfold with_cloud. destruct (answers !! "cloud") eqn:E; simpl; [exact E|].
  apply lookup_insert_eq.
Qed.

(** On a string and an int, the call is [compute_subnet_cidrs]. *)
Lemma compute_subnet_cidrs_dyn_typed (s : string) (z : Z) :
  compute_subnet_cidrs_dyn (VStr s) (VInt z)
  = match compute_subnet_cidrs s z with
    | Ok plan => inr plan
    | Raise e => inl (FromSubnets e)
    end.
Proof.
  unfold compute_subnet_cidrs_dyn, compute_subnet_cidrs, ip_network_dyn, as_int.
  destruct (ip_network s) as [n|e]; reflexivity.
Qed.

Lemma try_block_typed (answers : gmap string value) (s : string) (z : Z) :
  answers !! "vpc_cidr" = Some (VStr s) -> answers !! "az_count" = Some (VInt z) ->
  try_block answers
  = match compute_subnet_cidrs s z with
    | Ok (public_cidrs, private_cidrs) =>
        inr (<["private_subnets" := VList (VStr <$> private_cidrs)]>
             (<["public_subnets" := VList (VStr <$> public_cidrs)]> answers))
    | Raise e => inl (FromSubnets e)
    end.
Proof.
  intros Hv Hz. unfold try_block. rewrite Hv, Hz, compute_subnet_cidrs_dyn_typed.
  destruct (compute_subnet_cidrs s z) as [[pub priv]|e]; reflexivity.
Qed.

Lemma after_answers_caught (args_out : option string) (answers : gmap string value)
    (e : subnet_error) (w : console) :
  try_block (with_cloud answers) = inl e -> caught_by_main e = true ->
  after_answers render_templates args_out answers w
  = (Returned tt, Console (stdin w) (trace w ++ [PrintError e])%list).
Proof.
  intros Htry Hc. unfold after_answers. fold (with_cloud answers).
  rewrite Htry, Hc. reflexivity.
Qed.

Lemma after_answers_uncaught (args_out : option string) (answers : gmap string value)
    (e : subnet_error) (w : console) :
  try_block (with_cloud answers) = inl e -> caught_by_main e = false ->
  after_answers render_templates args_out answers w = (Raised (Uncaught e), w).
Proof.
  intros Htry Hc. unfold after_answers. fold (with_cloud answers).
  rewrite Htry, Hc. reflexivity.
Qed.

Lemma after_answers_rendered (args_out : option string)
    (answers answers' : gmap string value) (w : console) :
  try_block (with_cloud answers) = inr answers' ->
  after_answers render_templates args_out answers w
  = match render_templates answers' (outdir_of args_out answers) with
    | Some r =>
        (Raised r,
         Console (stdin w) (trace w ++ [Render answers' (outdir_of args_out answers)])%list)
    | None =>
        (Returned tt,
         Console (stdin w)
           (trace w ++ [Render answers' (outdir_of args_out answers);
                        PrintNextSteps (outdir_of args_out answers)])%list)
    end.
Proof.
  intros Htry. unfold after_answers. fold (with_cloud answers).
  fold (outdir_of args_out answers). rewrite Htry.
  unfold mbind, io_bind, emit, raise. cbn [stdin trace].
  destruct (render_templates answers' (outdir_of args_out answers)); [reflexivity|].
  cbn [stdin trace]. rewrite <- app_assoc. reflexivity.
Qed.

(** With an answers file that loads, [main] is [after_answers] on its
    dict. *)
Lemma run_main_loaded (path : string) (args_out : option string)
    (answers : gmap string value) (lines : list string) :
  Py.empty path = false -> load_answers path = inr answers ->
  run_main load_answers render_templates (Some path) args_out lines
  = after_answers render_templates args_out answers (Console lines []).
Proof.
  intros Hp Hload. unfold run_main, main. rewrite Hp, Hload. reflexivity.
Qed.

(** X12. With an answers file that lacks ['vpc_cidr'] or ['az_count'],
    or on which [compute_subnet_cidrs] raises a [ValueError], [main]
    prints its one error line and returns: nothing is raised, and
    [render_templates] is not called. *)
Theorem main_reports_handled_failure
    (path : string) (args_out : option string)
    (answers : gmap string value) (lines : list string) :
  Py.empty path = false -> load_answers path = inr answers ->
  (answers !! "vpc_cidr" = None
   \/ answers !! "az_count" = None
   \/ exists s z e, answers !! "vpc_cidr" = Some (VStr s)
                    /\ answers !! "az_count" = Some (VInt z)
                    /\ compute_subnet_cidrs s z = Raise e
                    /\ is_ValueError e = true) ->
  exists e, caught_by_main e = true
            /\ run_main load_answers render_templates (Some path) args_out lines
               = (Returned tt, Console lines [PrintError e]).
Proof.
  intros Hp Hload Hcase. rewrite (run_main_loaded _ _ _ _ Hp Hload).
  assert (Htry : exists e, try_block (with_cloud answers) = inl e
                           /\ caught_by_main e = true).
  { destruct Hcase as [Hv | [Hz | (s & z & e & Hv & Hz & Hrun & He)]].
    - exists (KeyError "vpc_cidr"). split; [|reflexivity].
      unfold try_block. rewrite lookup_with_cloud, Hv by discriminate. reflexivity.
    - destruct (answers !! "vpc_cidr") as [v|] eqn:Hv.
      + exists (KeyError "az_count"). split; [|reflexivity].
        unfold try_block. rewrite !lookup_with_cloud, Hv, Hz by discriminate. reflexivity.
      + exists (KeyError "vpc_cidr"). split; [|reflexivity].
        unfold try_block. rewrite lookup_with_cloud, Hv by discriminate. reflexivity.
    - exists (FromSubnets e). split; [|exact He].
      rewrite (try_block_typed _ s z), Hrun; [reflexivity| |];
        rewrite lookup_with_cloud by discriminate; assumption. }
  destruct Htry as (e & Htry & Hc). exists e. split; [exact Hc|].
  rewrite (after_answers_caught _ _ e) by assumption. reflexivity.
Qed.

(** X13. The [IndexError] of [compute_subnet_cidrs] is not caught by
    [main]: with an answers file on which the planner raises it, [main]
    ends with that exception, having printed nothing and without calling
    [render_templates]. *)
Theorem main_lets_IndexError_escape
    (path : string) (args_out : option string)
    (answers : gmap string value) (lines : list string) (s : string) (z : Z) :
  Py.empty path = false -> load_answers path = inr answers ->
  answers !! "vpc_cidr" = Some (VStr s) -> answers !! "az_count" = Some (VInt z) ->
  compute_subnet_cidrs s z = Raise IndexError ->
  run_main load_answers render_templates (Some path) args_out lines
  = (Raised (Uncaught (FromSubnets IndexError)), Console lines []).
Proof.
  intros Hp Hload Hv Hz Hrun. rewrite (run_main_loaded _ _ _ _ Hp Hload).
  apply after_answers_uncaught; [|reflexivity].
  rewrite (try_block_typed _ s z), Hrun; [reflexivity| |];
    rewrite lookup_with_cloud by discriminate; assumption.
Qed.

(** X14. An ['az_count'] that is not an int (a string such as ["2"], a
    float, a list, a dict, [None]) is not reported by [main].  When the
    ['vpc_cidr'] text parses, the arithmetic raises a [TypeError] (for a
    float, [bit_length] raises an [AttributeError]) that [main] does not
    catch; when it does not parse, [ip_network] fails first and [main]
    prints the error line for its [ValueError]. *)
Theorem main_zone_count_not_an_int
    (path : string) (args_out : option string)
    (answers : gmap string value) (lines : list string)
    (s : string) (az_count : value) (e : subnet_error) :
  Py.empty path = false -> load_answers path = inr answers ->
  answers !! "vpc_cidr" = Some (VStr s) -> answers !! "az_count" = Some az_count ->
  as_int az_count = inl e ->
  (is_Ok (ip_network s) = true ->
   run_main load_answers render_templates (Some path) args_out lines
   = (Raised (Uncaught e), Console lines []))
  /\ (forall e', ip_network s = Raise e' ->
      run_main load_answers render_templates (Some path) args_out lines
      = (Returned tt, Console lines [PrintError (FromSubnets e')])).
Proof.
  intros Hp Hload Hv Hz Hint. rewrite (run_main_loaded _ _ _ _ Hp Hload). split.
  - intros Hparse. destruct (ip_network s) as [net|] eqn:Hnet; [|discriminate].
    apply after_answers_uncaught.
    + unfold try_block. rewrite !lookup_with_cloud, Hv, Hz by discriminate.
      unfold compute_subnet_cidrs_dyn, ip_network_dyn. rewrite Hnet, Hint. reflexivity.
    + destruct az_count; simpl in Hint; try discriminate;
        injection Hint as <-; reflexivity.
  - intros e' Hparse. rewrite (after_answers_caught _ _ (FromSubnets e')); [reflexivity| |].
    + unfold try_block. rewrite !lookup_with_cloud, Hv, Hz by discriminate.
      unfold compute_subnet_cidrs_dyn, ip_network_dyn. rewrite Hparse. reflexivity.
    + simpl. destruct (ip_network_raises s e' Hparse) as [-> | ->]; reflexivity.
Qed.

(** X15. When the planner succeeds on the answers of a file, [main]
    calls [render_templates] once, with the output directory chosen from
    [--out] or the project name, and with the answers changed in three
    keys only: ['public_subnets'] and ['private_subnets'] hold the two
    lists of the plan, and ['cloud'] is ['aws'] when the file had no such
    key.  The next steps are printed when [render_templates] returns, and
    not when it raises. *)
Theorem main_renders_with_plan
    (path : string) (args_out : option string)
    (answers : gmap string value) (lines : list string) (s : string) (z : Z)
    (public_cidrs private_cidrs : list string) :
  Py.empty path = false -> load_answers path = inr answers ->
  answers !! "vpc_cidr" = Some (VStr s) -> answers !! "az_count" = Some (VInt z) ->
  compute_subnet_cidrs s z = Ok (public_cidrs, private_cidrs) ->
  exists answers' : gmap string value,
    answers' !! "public_subnets" = Some (VList (VStr <$> public_cidrs))
    /\ answers' !! "private_subnets" = Some (VList (VStr <$> private_cidrs))
    /\ answers' !! "cloud" = Some (default (VStr "aws") (answers !! "cloud"))
    /\ (forall k, k <> "public_subnets" -> k <> "private_subnets" -> k <> "cloud" ->
          answers' !! k = answers !! k)
    /\ run_main load_answers render_templates (Some path) args_out lines
       = match render_templates answers' (outdir_of args_out answers) with
         | Some r =>
             (Raised r, Console lines [Render answers' (outdir_of args_out answers)])
         | None =>
             (Returned tt,
              Console lines [Render answers' (outdir_of args_out answers);
                             PrintNextSteps (outdir_of args_out answers)])
         end.
Proof.
  intros Hp Hload Hv Hz Hrun.
  exists (<["private_subnets" := VList (VStr <$> private_cidrs)]>
            (<["public_subnets" := VList (VStr <$> public_cidrs)]> (with_cloud answers))).
  split; [simplify_map_eq; reflexivity|].
  split; [simplify_map_eq; reflexivity|].
  split; [rewrite !lookup_insert_ne by discriminate; apply lookup_with_cloud_cloud|].
  split.
  - intros k H1 H2 H3. rewrite !lookup_insert_ne by congruence.
    apply lookup_with_cloud. exact H3.
  - rewrite (run_main_loaded _ _ _ _ Hp Hload).
    rewrite (after_answers_rendered _ _
               (<["private_subnets" := VList (VStr <$> private_cidrs)]>
                  (<["public_subnets" := VList (VStr <$> public_cidrs)]> (with_cloud answers))));
      [destruct (render_templates _ _); reflexivity|].
    rewrite (try_block_typed _ s z), Hrun; [reflexivity| |];
      rewrite lookup_with_cloud by discriminate; assumption.
Qed.

(** The interactive run of [main] on five lines or more whose last answer
    is an int. *)
Lemma run_main_interactive (args_out : option string)
    (l1 l2 l3 l4 l5 : string) (rest : list string) (n : Z) :
  PyText.int (answer_of "2" l5) = Some n ->
  exists answers : gmap string value,
    answers !! "project" = Some (VStr (answer_of "my-cloud-project" l1))
    /\ answers !! "cloud" = Some (VStr (PyText.lower (answer_of "aws" l2)))
    /\ answers !! "vpc_cidr" = Some (VStr (answer_of "10.0.0.0/16" l4))
    /\ answers !! "az_count" = Some (VInt n)
    /\ run_main load_answers render_templates None args_out
         (l1 :: l2 :: l3 :: l4 :: l5 :: rest)
       = after_answers render_templates args_out answers (Console rest prompts).
Proof.
  intros Hint. eexists.
  split; [|split; [|split; [|split]]]; cycle 4.
  - unfold run_main, main, mbind, io_bind.
    rewrite interactive_questions_run, Hint. reflexivity.
  - simplify_map_eq. reflexivity.
  - simplify_map_eq. reflexivity.
  - simplify_map_eq. reflexivity.
  - simplify_map_eq. reflexivity.
Qed.

(** X16. In interactive mode [main] never ends with a [KeyError], a
    [TypeError] or an [AttributeError]: whatever the lines typed, it
    returns, or ends with the [EOFError] of [input], the [ValueError] of
    [int], the [IndexError] of the planner, or an exception of
    [render_templates]. *)
Theorem main_interactive_outcomes (args_out : option string) (lines : list string) :
  let outcome := fst (run_main load_answers render_templates None args_out lines) in
  outcome = Returned tt
  \/ outcome = Raised EOFError
  \/ outcome = Raised IntValueError
  \/ outcome = Raised (Uncaught (FromSubnets IndexError))
  \/ exists answers out r, render_templates answers out = Some r /\ outcome = Raised r.
Proof.
  cbv zeta.
  destruct (Nat.lt_ge_cases (length lines) 5) as [Hshort | Hlong].
  { right. left. unfold run_main, main, mbind, io_bind.
    pose proof (interactive_questions_short lines [] Hshort) as [Hout _].
    destruct (interactive_questions (Console lines [])) as [[a|r] w];
      simpl in Hout; [discriminate|].
    simpl. injection Hout as ->. reflexivity. }
  destruct lines as [|l1 [|l2 [|l3 [|l4 [|l5 rest]]]]]; simpl in Hlong; try lia.
  destruct (PyText.int (answer_of "2" l5)) as [n|] eqn:Hint.
  2:{ right. right. left. unfold run_main, main, mbind, io_bind.
      rewrite interactive_questions_run, Hint. reflexivity. }
  destruct (run_main_interactive args_out l1 l2 l3 l4 l5 rest n Hint)
    as (answers & _ & _ & Hv & Hz & ->).
  assert (Htry := try_block_typed (with_cloud answers)
                    (answer_of "10.0.0.0/16" l4) n).
  rewrite !lookup_with_cloud in Htry by discriminate.
  specialize (Htry Hv Hz).
  destruct (compute_subnet_cidrs (answer_of "10.0.0.0/16" l4) n)
    as [[pub priv] | e].
  - rewrite (after_answers_rendered _ _ _ _ Htry).
    destruct (render_templates _ _) as [r|] eqn:Hr.
    + right. right. right. right. eexists _, _, r. split; [exact Hr|reflexivity].
    + left. reflexivity.
  - destruct (is_ValueError e) eqn:He.
    + rewrite (after_answers_caught _ _ (FromSubnets e)) by assumption.
      left. reflexivity.
    + rewrite (after_answers_uncaught _ _ (FromSubnets e)) by assumption.
      right. right. right. left. destruct e; try discriminate. reflexivity.
Qed.

(** X17. In interactive mode without [--out], when the last answer is
    an int and the planner succeeds on the answers typed, [main] writes
    the welcome line and the five prompts, then calls [render_templates]
    with the directory named after the project and with answers that hold
    the plan and the lowered cloud name, and prints the next steps when that
    call returns. *)
Theorem main_interactive_plan
    (l1 l2 l3 l4 l5 : string) (rest : list string) (n : Z)
    (public_cidrs private_cidrs : list string) :
  PyText.int (answer_of "2" l5) = Some n ->
  compute_subnet_cidrs (answer_of "10.0.0.0/16" l4) n = Ok (public_cidrs, private_cidrs) ->
  exists answers : gmap string value,
    answers !! "public_subnets" = Some (VList (VStr <$> public_cidrs))
    /\ answers !! "private_subnets" = Some (VList (VStr <$> private_cidrs))
    /\ answers !! "cloud" = Some (VStr (PyText.lower (answer_of "aws" l2)))
    /\ answers !! "vpc_cidr" = Some (VStr (answer_of "10.0.0.0/16" l4))
    /\ answers !! "az_count" = Some (VInt n)
    /\ run_main load_answers render_templates None None
         (l1 :: l2 :: l3 :: l4 :: l5 :: rest)
       = let out := OutDefault (VStr (answer_of "my-cloud-project" l1)) in
         match render_templates answers out with
         | Some r => (Raised r, Console rest (prompts ++ [Render answers out])%list)
         | None =>
             (Returned tt,
              Console rest (prompts ++ [Render answers out; PrintNextSteps out])%list)
         end.
Proof.
  intros Hint Hrun.
  destruct (run_main_interactive None l1 l2 l3 l4 l5 rest n Hint)
    as (answers & Hp & Hc & Hv & Hz & ->).
  assert (Hwith : with_cloud answers = answers)
    by (unfold with_cloud; rewrite Hc; reflexivity).
  assert (Htry := try_block_typed answers (answer_of "10.0.0.0/16" l4) n Hv Hz).
  rewrite Hrun in Htry. rewrite <- Hwith in Htry at 1.
  exists (<["private_subnets" := VList (VStr <$> private_cidrs)]>
            (<["public_subnets" := VList (VStr <$> public_cidrs)]> answers)).
  split; [simplify_map_eq; reflexivity|].
  split; [simplify_map_eq; reflexivity|].
  split; [rewrite !lookup_insert_ne by discriminate; exact Hc|].
  split; [rewrite !lookup_insert_ne by discriminate; exact Hv|].
  split; [rewrite !lookup_insert_ne by discriminate; exact Hz|].
  rewrite (after_answers_rendered _ _ _ _ Htry).
  unfold outdir_of. rewrite Hp. reflexivity.
Qed.

(** Without a zone the loop does nothing: the plan of a base of prefix
    length at most 28 is empty. *)
Lemma no_zone_empty_plan (s : string) (z : Z) (n : network) :
  ip_network s = Ok n -> prefixlen n <= 28 -> z <= 0 ->
  compute_subnet_cidrs s z = Ok ([], []).
Proof.
  intros Hparse Hp Hz.
  pose proof (ip_network_well_formed _ _ Hparse) as Hwf.
  pose proof (max_prefixlen_ge_32 n) as Hmax.
  rewrite (compute_subnet_cidrs_unfold _ _ _ Hparse).
  rewrite (subnets_Ok n Hwf).
  - simpl. apply loop_no_zone. assumption.
  - pose proof (clamped_new_prefix_ge n z Hp).
    pose proof (clamped_new_prefix_le_28 n z). lia.
  - pose proof (clamped_new_prefix_le_28 n z). lia.
Qed.

(** X18. A zone count of zero or less typed at the prompt is accepted:
    for a base of prefix length at most 28, [main] goes on to call
    [render_templates] right after the prompts, with empty lists under
    ['public_subnets'] and ['private_subnets']. *)
Theorem main_interactive_no_zones
    (l1 l2 l3 l4 l5 : string) (rest : list string) (n : Z) (base : network) :
  PyText.int (answer_of "2" l5) = Some n -> n <= 0 ->
  ip_network (answer_of "10.0.0.0/16" l4) = Ok base -> prefixlen base <= 28 ->
  exists answers : gmap string value,
    answers !! "public_subnets" = Some (VList [])
    /\ answers !! "private_subnets" = Some (VList [])
    /\ answers !! "az_count" = Some (VInt n)
    /\ trace (snd (run_main load_answers render_templates None None
                     (l1 :: l2 :: l3 :: l4 :: l5 :: rest)))
       !! length prompts
       = Some (Render answers (OutDefault (VStr (answer_of "my-cloud-project" l1)))).
Proof.
  intros Hint Hn Hparse Hlen.
  destruct (run_main_interactive None l1 l2 l3 l4 l5 rest n Hint)
    as (answers & Hp & Hc & Hv & Hz & ->).
  assert (Hwith : with_cloud answers = answers)
    by (unfold with_cloud; rewrite Hc; reflexivity).
  assert (Htry := try_block_typed answers (answer_of "10.0.0.0/16" l4) n Hv Hz).
  rewrite (no_zone_empty_plan _ _ _ Hparse Hlen Hn) in Htry.
  rewrite <- Hwith in Htry at 1.
  exists (<["private_subnets" := VList (VStr <$> [])]>
            (<["public_subnets" := VList (VStr <$> [])]> answers)).
  split; [simplify_map_eq; reflexivity|].
  split; [simplify_map_eq; reflexivity|].
  split; [rewrite !lookup_insert_ne by discriminate; exact Hz|].
  rewrite (after_answers_rendered _ _ _ _ Htry).
  unfold outdir_of. rewrite Hp.
  destruct (render_templates _ _); reflexivity.
Qed.

End Main.

Section MainRuns.

Local Open Scope string_scope.

Lemma main_reports_handled_failure_witness :
  exists e, caught_by_main e = true
    /\ run_main
         (fun _ => inr (<["az_count" := VInt 2]>
                          (<["vpc_cidr" := VStr "10.0.0.1/24"]> ∅)))
         (fun _ _ => None) (Some "answers.json") None []
       = (Returned tt, Console [] [PrintError e]).
Proof.
  apply (main_reports_handled_failure _ _ "answers.json" None
           (<["az_count" := VInt 2]> (<["vpc_cidr" := VStr "10.0.0.1/24"]> ∅)) []);
    [reflexivity|reflexivity|].
  right. right. exists "10.0.0.1/24", 2, (ValueError host_bits_set).
  repeat split; vm_compute; reflexivity.
Defined.

Lemma main_lets_IndexError_escape_witness :
  run_main
    (fun _ => inr (<["az_count" := VInt 64]>
                     (<["vpc_cidr" := VStr "10.0.0.0/24"]> ∅)))
    (fun _ _ => None) (Some "answers.json") None []
  = (Raised (Uncaught (FromSubnets IndexError)), Console [] []).
Proof.
  apply (main_lets_IndexError_escape _ _ "answers.json" None
           (<["az_count" := VInt 64]> (<["vpc_cidr" := VStr "10.0.0.0/24"]> ∅))
           [] "10.0.0.0/24" 64);
    vm_compute; reflexivity.
Defined.

Lemma main_zone_count_not_an_int_witness :
  run_main
    (fun _ => inr (<["az_count" := VStr "2"]>
                     (<["vpc_cidr" := VStr "10.0.0.0/16"]> ∅)))
    (fun _ _ => None) (Some "answers.json") None []
  = (Raised (Uncaught TypeError), Console [] []).
Proof.
  apply (main_zone_count_not_an_int _ _ "answers.json" None
           (<["az_count" := VStr "2"]> (<["vpc_cidr" := VStr "10.0.0.0/16"]> ∅)) []
           "10.0.0.0/16" (VStr "2") TypeError); vm_compute; reflexivity.
Defined.

Lemma main_renders_with_plan_witness :
  exists answers' : gmap string value,
    answers' !! "public_subnets" = Some (VList [VStr "10.0.0.0/18"; VStr "10.0.128.0/18"])
    /\ answers' !! "private_subnets" = Some (VList [VStr "10.0.64.0/18"; VStr "10.0.192.0/18"])
    /\ answers' !! "cloud" = Some (VStr "aws")
    /\ run_main
         (fun _ => inr (<["az_count" := VInt 2]>
                          (<["vpc_cidr" := VStr "10.0.0.0/16"]> ∅)))
         (fun _ _ => None) (Some "answers.json") (Some "out") []
       = (Returned tt,
          Console [] [Render answers' (OutArg "out"); PrintNextSteps (OutArg "out")]).
Proof.
  destruct (main_renders_with_plan
              (fun _ => inr (<["az_count" := VInt 2]>
                               (<["vpc_cidr" := VStr "10.0.0.0/16"]> ∅)))
              (fun _ _ => None) "answers.json" (Some "out")
              (<["az_count" := VInt 2]> (<["vpc_cidr" := VStr "10.0.0.0/16"]> ∅))
              [] "10.0.0.0/16" 2
              ["10.0.0.0/18"; "10.0.128.0/18"] ["10.0.64.0/18"; "10.0.192.0/18"])
    as (answers' & Hpub & Hpriv & Hcloud & _ & Hrun);
    try (vm_compute; reflexivity).
  exists answers'. repeat split; assumption.
Defined.

Lemma main_interactive_plan_witness :
  exists answers : gmap string value,
    answers !! "public_subnets" = Some (VList [VStr "10.0.0.0/18"; VStr "10.0.128.0/18"])
    /\ answers !! "private_subnets" = Some (VList [VStr "10.0.64.0/18"; VStr "10.0.192.0/18"])
    /\ run_main (fun _ => inl (Foreign "unused")) (fun _ _ => None) None None
         [""; ""; ""; ""; ""]
       = (Returned tt,
          Console []
            (prompts ++ [Render answers (OutDefault (VStr "my-cloud-project"));
                         PrintNextSteps (OutDefault (VStr "my-cloud-project"))])%list).
Proof.
  destruct (main_interactive_plan (fun _ => inl (Foreign "unused")) (fun _ _ => None)
              "" "" "" "" "" [] 2
              ["10.0.0.0/18"; "10.0.128.0/18"] ["10.0.64.0/18"; "10.0.192.0/18"])
    as (answers & Hpub & Hpriv & _ & _ & _ & Hrun);
    try (vm_compute; reflexivity).
  exists answers. repeat split; assumption.
Defined.

Lemma main_interactive_no_zones_witness :
  exists answers : gmap string value,
    answers !! "public_subnets" = Some (VList [])
    /\ answers !! "az_count" = Some (VInt 0)
    /\ trace (snd (run_main (fun _ => inl (Foreign "unused")) (fun _ _ => None) None None
                     ["demo"; ""; ""; ""; "0"]))
       !! length prompts
       = Some (Render answers (OutDefault (VStr "demo"))).
Proof.
  destruct (main_interactive_no_zones (fun _ => inl (Foreign "unused")) (fun _ _ => None)
              "demo" "" "" "" "0" [] 0 (Network V4 167772160 None 4294901760 16))
    as (answers & Hpub & _ & Hz & Hrun);
    try (vm_compute; reflexivity); try lia.
  - simpl. lia.
  - exists answers. repeat split; assumption.
Defined.

End MainRuns.
